(** * doc-diff-ai: the change-detection engine ([change_detector.py])

    A shallow embedding of [ChangeDetector] and of the helpers it relies on,
    followed by the properties of the engine that the specification states. *)

From Stdlib Require Import ZArith QArith Qround Lia String Ascii DecimalString.
From stdpp Require Import base option list sorting gmap.

Set Default Proof Using "Type".
Open Scope nat_scope.

(** ** [difflib.SequenceMatcher]

    [change_detector.py] aligns token and sentence sequences with
    [SequenceMatcher(a=a, b=b).get_opcodes()].  The matcher is transcribed
    from CPython's [difflib.py]; [isjunk] is [None] and [autojunk] is left at
    its default [True], as in every call of the detector.  Indices are
    natural numbers: every subtraction below is guarded in the source by a
    comparison that keeps it non-negative. *)

Module Difflib.

Inductive tag := Equal | Insert | Delete | Replace.

(** A [Match(a, b, size)] triple. *)
Definition block : Type := nat * nat * nat.

(** An opcode [(tag, i1, i2, j1, j2)]. *)
Record opcode := Opcode {
  op_tag : tag; op_i1 : nat; op_i2 : nat; op_j1 : nat; op_j2 : nat }.

(** Python's slice [l[i:j]] for [0 <= i], [0 <= j]. *)
Definition slice {X} (l : list X) (i j : nat) : list X := take (j - i) (drop i l).

(** Tuple comparison used by [matching_blocks.sort()]. *)
Definition block_le (x y : block) : Prop :=
  let '(i1, j1, k1) := x in
  let '(i2, j2, k2) := y in
  i1 < i2 ∨ (i1 = i2 ∧ (j1 < j2 ∨ (j1 = j2 ∧ k1 ≤ k2))).

#[global] Instance block_le_dec x y : Decision (block_le x y).
Proof. destruct x as [[??]?], y as [[??]?]; simpl; apply _. Defined.

Section matcher.
Context {A : Type} `{Countable A}.

(** [__chain_b]: for every element of [b], the increasing list of the
    positions it occupies ... *)
Definition b2j_fill (b : list A) : gmap A (list nat) :=
  foldl (λ (m : gmap A (list nat)) (ie : nat * A),
           <[ie.2 := default [] (m !! ie.2) ++ [ie.1]]> m)
        ∅ (imap pair b).

(** ... after which the "popular" elements are purged: when [b] has at least
    200 elements, those occurring more than [n // 100 + 1] times. *)
Definition chain_b (b : list A) : gmap A (list nat) :=
  let b2j := b2j_fill b in
  let n := length b in
  if bool_decide (200 ≤ n)
  then let ntest := n `div` 100 + 1 in
       filter (λ kv : A * list nat, ¬ (ntest < length kv.2)) b2j
  else b2j.

(** [self.bjunk] is the empty set, so [isbjunk] never holds. *)
Definition isbjunk (x : A) : bool := false.

(** [j2len.get(j-1, 0)]; the key [-1] is never in the dictionary. *)
Definition j2len_get_pred (j2len : gmap nat nat) (j : nat) : nat :=
  match j with
  | 0 => 0
  | S j' => default 0 (j2len !! j')
  end.

(** The inner loop of [find_longest_match] over [b2j.get(a[i], nothing)],
    threading [newj2len] and the best block so far. *)
Fixpoint flm_row (i blo bhi : nat) (j2len : gmap nat nat) (js : list nat)
    (newj2len : gmap nat nat) (best : block) : gmap nat nat * block :=
  match js with
  | [] => (newj2len, best)
  | j :: js' =>
      if bool_decide (j < blo) then flm_row i blo bhi j2len js' newj2len best
      else if bool_decide (bhi ≤ j) then (newj2len, best)
      else
        let k := j2len_get_pred j2len j + 1 in
        let newj2len' := <[j := k]> newj2len in
        let best' := if bool_decide (best.2 < k) then (i + 1 - k, j + 1 - k, k) else best in
        flm_row i blo bhi j2len js' newj2len' best'
  end.

(** The outer loop [for i in range(alo, ahi)]. *)
Fixpoint flm_rows (a : list A) (b2j : gmap A (list nat)) (blo bhi : nat)
    (rows : list nat) (j2len : gmap nat nat) (best : block) : block :=
  match rows with
  | [] => best
  | i :: rows' =>
      let js := match a !! i with
                | Some x => default [] (b2j !! x)
                | None => []
                end in
      let '(newj2len, best') := flm_row i blo bhi j2len js ∅ best in
      flm_rows a b2j blo bhi rows' newj2len best'
  end.

(** [while besti > alo and bestj > blo and cond(b[bestj-1]) and
    a[besti-1] == b[bestj-1]]: one step to the lower left per iteration. *)
Fixpoint extend_down (cond : A → bool) (a b : list A) (alo blo : nat)
    (besti bestj bestsize : nat) : block :=
  match besti, bestj with
  | S i', S j' =>
      match a !! i', b !! j' with
      | Some x, Some y =>
          if bool_decide (alo < besti) && bool_decide (blo < bestj)
             && cond y && bool_decide (x = y)
          then extend_down cond a b alo blo i' j' (bestsize + 1)
          else (besti, bestj, bestsize)
      | _, _ => (besti, bestj, bestsize)
      end
  | _, _ => (besti, bestj, bestsize)
  end.

(** [while besti+bestsize < ahi and bestj+bestsize < bhi and
    cond(b[bestj+bestsize]) and a[besti+bestsize] == b[bestj+bestsize]];
    [n] bounds the number of iterations by [ahi - (besti + bestsize)]. *)
Fixpoint extend_up (cond : A → bool) (a b : list A) (ahi bhi : nat)
    (besti bestj bestsize : nat) (n : nat) : block :=
  match n with
  | 0 => (besti, bestj, bestsize)
  | S n' =>
      match a !! (besti + bestsize), b !! (bestj + bestsize) with
      | Some x, Some y =>
          if bool_decide (besti + bestsize < ahi) && bool_decide (bestj + bestsize < bhi)
             && cond y && bool_decide (x = y)
          then extend_up cond a b ahi bhi besti bestj (bestsize + 1) n'
          else (besti, bestj, bestsize)
      | _, _ => (besti, bestj, bestsize)
      end
  end.

Definition extend (cond : A → bool) (a b : list A) (alo ahi blo bhi : nat)
    (m : block) : block :=
  let '(besti, bestj, bestsize) := m in
  let '(besti, bestj, bestsize) := extend_down cond a b alo blo besti bestj bestsize in
  extend_up cond a b ahi bhi besti bestj bestsize (ahi - (besti + bestsize)).

Definition find_longest_match (a b : list A) (b2j : gmap A (list nat))
    (alo ahi blo bhi : nat) : block :=
  let best := flm_rows a b2j blo bhi (seq alo (ahi - alo)) ∅ (alo, blo, 0) in
  let best := extend (λ y, negb (isbjunk y)) a b alo ahi blo bhi best in
  extend isbjunk a b alo ahi blo bhi best.

(** The work list of [get_matching_blocks]; [queue.pop()] takes the entry
    appended last, kept here at the head.  [fuel] counts the iterations of
    [while queue]. *)
Fixpoint gmb_loop (fuel : nat) (a b : list A) (b2j : gmap A (list nat))
    (queue : list (nat * nat * nat * nat)) (matching_blocks : list block)
    : option (list block) :=
  match queue with
  | [] => Some matching_blocks
  | (alo, ahi, blo, bhi) :: queue' =>
      match fuel with
      | 0 => None
      | S fuel' =>
          let '(i, j, k) := find_longest_match a b b2j alo ahi blo bhi in
          if bool_decide (k ≠ 0) then
            let q1 := if bool_decide (alo < i) && bool_decide (blo < j)
                      then (alo, i, blo, j) :: queue' else queue' in
            let q2 := if bool_decide (i + k < ahi) && bool_decide (j + k < bhi)
                      then (i + k, ahi, j + k, bhi) :: q1 else q1 in
            gmb_loop fuel' a b b2j q2 (matching_blocks ++ [(i, j, k)])
          else gmb_loop fuel' a b b2j queue' matching_blocks
      end
  end.

(** The pass that collapses adjacent blocks, with [(i1, j1, k1)] the block
    being grown. *)
Fixpoint collapse (blocks : list block) (cur : block) (non_adjacent : list block)
    : list block :=
  let '(i1, j1, k1) := cur in
  match blocks with
  | [] => if bool_decide (k1 ≠ 0) then non_adjacent ++ [cur] else non_adjacent
  | (i2, j2, k2) :: rest =>
      if bool_decide (i1 + k1 = i2) && bool_decide (j1 + k1 = j2)
      then collapse rest (i1, j1, k1 + k2) non_adjacent
      else collapse rest (i2, j2, k2)
             (if bool_decide (k1 ≠ 0) then non_adjacent ++ [cur] else non_adjacent)
  end.

(** Iterations granted to [while queue]: a region is popped once, and every
    block it yields uses up an element of [a]. *)
Definition gmb_fuel (a : list A) : nat := 2 * length a + 1.

Definition get_matching_blocks (a b : list A) : option (list block) :=
  let la := length a in
  let lb := length b in
  blocks ← gmb_loop (gmb_fuel a) a b (chain_b b) [(0, la, 0, lb)] [];
  Some (collapse (merge_sort block_le blocks) (0, 0, 0) [] ++ [(la, lb, 0)]).

(** The loop of [get_opcodes] over the matching blocks. *)
Fixpoint opcodes_loop (blocks : list block) (i j : nat) (answer : list opcode)
    : list opcode :=
  match blocks with
  | [] => answer
  | (ai, bj, size) :: rest =>
      let answer1 :=
        if bool_decide (i < ai) && bool_decide (j < bj)
        then answer ++ [Opcode Replace i ai j bj]
        else if bool_decide (i < ai) then answer ++ [Opcode Delete i ai j bj]
        else if bool_decide (j < bj) then answer ++ [Opcode Insert i ai j bj]
        else answer in
      let i' := ai + size in
      let j' := bj + size in
      let answer2 :=
        if bool_decide (size ≠ 0) then answer1 ++ [Opcode Equal ai i' bj j'] else answer1 in
      opcodes_loop rest i' j' answer2
  end.

Definition get_opcodes (a b : list A) : option (list opcode) :=
  blocks ← get_matching_blocks a b;
  Some (opcodes_loop blocks 0 0 []).

End matcher.
End Difflib.


(** ** The Python values the detector handles *)

Module Py.

(** A [str] is its sequence of code points. *)
Definition pystr : Type := list N.

Definition py (s : string) : pystr := map N_of_ascii (list_ascii_of_string s).
Arguments py s%_string.

(** The scalars found in a normalized document: [None], [bool], [int],
    [float] (a finite float is the rational it denotes; [nan], the
    infinities and the sign of a zero have no counterpart) and [str]. *)
Inductive scalar :=
  | VNone
  | VBool (b : bool)
  | VInt (z : Z)
  | VFloat (q : Q)
  | VStr (s : pystr).

(** The JSON-serializable trees the detector returns. *)
#[local] Unset Elimination Schemes.
Inductive jval :=
  | JNone
  | JBool (b : bool)
  | JInt (z : Z)
  | JFloat (q : Q)
  | JStr (s : pystr)
  | JList (l : list jval)
  | JDict (d : list (string * jval)).
#[local] Set Elimination Schemes.

Definition jscalar (v : scalar) : jval :=
  match v with
  | VNone => JNone
  | VBool b => JBool b
  | VInt z => JInt z
  | VFloat q => JFloat q
  | VStr s => JStr s
  end.

Definition jstr_opt (o : option pystr) : jval :=
  match o with Some s => JStr s | None => JNone end.

Definition jnat (n : nat) : jval := JInt (Z.of_nat n).

(** A dictionary keeps its keys in insertion order; assigning to a key that
    is already present replaces the value in place. *)
Definition dict (K V : Type) : Type := list (K * V).

Fixpoint dict_get {K V} `{EqDecision K} (k : K) (d : dict K V) : option V :=
  match d with
  | [] => None
  | (k', v) :: d' => if decide (k = k') then Some v else dict_get k d'
  end.

Fixpoint dict_set {K V} `{EqDecision K} (k : K) (v : V) (d : dict K V) : dict K V :=
  match d with
  | [] => [(k, v)]
  | (k', v') :: d' =>
      if decide (k = k') then (k, v) :: d' else (k', v') :: dict_set k v d'
  end.

(** [{key(x): x for x in l}] *)
Definition dict_comp {K V} `{EqDecision K} (key : V → K) (l : list V) : dict K V :=
  foldl (λ d x, dict_set (key x) x d) [] l.

(** A key of a dictionary read with [.get(key, default)]: missing, bound to
    [None], or bound to a value. *)
Inductive field (X : Type) :=
  | Absent
  | Null
  | Present (x : X).
Arguments Absent {X}.
Arguments Null {X}.
Arguments Present {X} x.

(** A dictionary of scalars read with [.get(attr)]: a missing key reads as
    [None]. *)
Definition sdict : Type := dict string scalar.

Definition sget (attr : string) (d : sdict) : scalar :=
  default VNone (dict_get attr d).

(** Exceptions that escape the detector.  [NoFuel] is not a Python
    exception: it marks a loop of the model that ran out of iterations. *)
Inductive pyexn :=
  | KeyError (k : string)
  | AttributeError
  | NoFuel.

Inductive res (X : Type) :=
  | Ok (x : X)
  | Raise (e : pyexn).
Arguments Ok {X} x.
Arguments Raise {X} e.

#[global] Instance res_ret : MRet res := λ X x, Ok x.
#[global] Instance res_bind : MBind res := λ X Y f m,
  match m with
  | Ok x => f x
  | Raise e => Raise e
  end.

(** [for x in l: changes.extend(body(x))] *)
Fixpoint for_each {X Y} (l : list X) (body : X → res (list Y)) : res (list Y) :=
  match l with
  | [] => Ok []
  | x :: l' => ys ← body x; zs ← for_each l' body; Ok (ys ++ zs)
  end.

Definition of_option {X} (o : option X) : res X :=
  match o with Some x => Ok x | None => Raise NoFuel end.

(** Numeric value of a scalar, for [==] across [bool], [int] and [float]. *)
Definition num_of (v : scalar) : option Q :=
  match v with
  | VBool b => Some (if b then 1%Q else 0%Q)
  | VInt z => Some (inject_Z z)
  | VFloat q => Some q
  | _ => None
  end.

(** Python's [==] on scalars. *)
Definition py_eqb (x y : scalar) : bool :=
  match x, y with
  | VNone, VNone => true
  | VStr s, VStr t => bool_decide (s = t)
  | _, _ =>
      match num_of x, num_of y with
      | Some p, Some q => Qeq_bool p q
      | _, _ => false
      end
  end.

(** [str(n)] for an [int] (of at most 4300 digits, from CPython 3.11 on:
    on a longer one [str] raises). *)
Definition str_of_Z (z : Z) : pystr := py (NilZero.string_of_int (Z.to_int z)).

(** [round(x, 3)]: to the nearest thousandth, ties to the even one.  A
    value that the interpreter rounds to the negative zero rounds to zero
    here. *)
Definition round_half_even (q : Q) : Z :=
  let f := Qfloor q in
  let r := (q - inject_Z f)%Q in
  match (r ?= 1 # 2)%Q with
  | Lt => f
  | Gt => (f + 1)%Z
  | Eq => if Z.even f then f else (f + 1)%Z
  end.

Definition round3 (q : Q) : Q := Qmake (round_half_even (q * 1000)) 1000.

(** [html.escape(s)] with its default [quote=True]. *)
Definition html_escape (s : pystr) : pystr :=
  flat_map (λ c : N,
    if bool_decide (c = 38%N) then py "&amp;"
    else if bool_decide (c = 60%N) then py "&lt;"
    else if bool_decide (c = 62%N) then py "&gt;"
    else if bool_decide (c = 34%N) then py "&quot;"
    else if bool_decide (c = 39%N) then py "&#x27;"
    else [c]) s.

(** What the interpreter and the libraries outside the repository provide:
    the Unicode tables behind [\w], [\s], [str.isspace] and [str.strip],
    conversion between [float] and [str], [hashlib] and the image stack. *)
Class Runtime := {
  (** [ch.isspace()], also the class [\s] of [re] *)
  isspace_cp : N → bool;
  (** the class [\w] of [re] *)
  isword_cp : N → bool;
  (** [str(x)] for a float *)
  float_repr : Q → pystr;
  (** [f'{x:.2f}'] *)
  float_format_2f : Q → pystr;
  (** [float(s)] for a string that reads as a finite number; [None] when
      it raises [ValueError] *)
  float_of_str : pystr → option Q;
  (** [hashlib.md5(s.encode('utf-8')).hexdigest()], for a text without
      surrogate code points, on which [encode] raises *)
  md5_hexdigest : pystr → pystr;
  (** the [try] body of [_compare_images]: decoding both payloads and
      scoring them with [skimage]'s [structural_similarity]; [None] when
      any step raises *)
  image_ssim : pystr → pystr → option Q;
}.

Section runtime.
Context `{Runtime}.

(** [str(v)] *)
Definition py_str (v : scalar) : pystr :=
  match v with
  | VNone => py "None"
  | VBool true => py "True"
  | VBool false => py "False"
  | VInt z => str_of_Z z
  | VFloat q => float_repr q
  | VStr s => s
  end.

(** [float(v)]; [None] when it raises.  An [int] beyond the range of a
    double, on which [float] raises [OverflowError], converts here. *)
Definition py_float (v : scalar) : option Q :=
  match v with
  | VNone => None
  | VBool b => Some (if b then 1%Q else 0%Q)
  | VInt z => Some (inject_Z z)
  | VFloat q => Some q
  | VStr s => float_of_str s
  end.

(** [s.lstrip()] and [s.strip()] *)
Fixpoint py_lstrip (s : pystr) : pystr :=
  match s with
  | [] => []
  | c :: s' => if isspace_cp c then py_lstrip s' else s
  end.

Definition py_strip (s : pystr) : pystr :=
  reverse (py_lstrip (reverse (py_lstrip s))).

(** [s.isspace()] *)
Definition py_isspace (s : pystr) : bool :=
  bool_decide (s ≠ []) && forallb isspace_cp s.

(** What [p+] consumes at the head of [s], and what it leaves. *)
Fixpoint re_plus (p : N → bool) (s : pystr) : pystr * pystr :=
  match s with
  | [] => ([], [])
  | c :: s' =>
      if p c then let '(m, rest) := re_plus p s' in (c :: m, rest)
      else ([], s)
  end.

(** The first of the alternatives [ps] to match at the head of [s]. *)
Fixpoint re_alt (ps : list (N → bool)) (s : pystr) : option (pystr * pystr) :=
  match ps with
  | [] => None
  | p :: ps' =>
      match re_plus p s with
      | ([], _) => re_alt ps' s
      | (m, rest) => Some (m, rest)
      end
  end.

(** [re.findall] for an alternation of [p+] patterns: the match at the
    current position, then on from its end; a position where nothing
    matches is skipped.  [n] bounds the number of positions tried. *)
Fixpoint re_findall (ps : list (N → bool)) (n : nat) (s : pystr) : list pystr :=
  match n, s with
  | S n', c :: s' =>
      match re_alt ps s with
      | Some (m, rest) => m :: re_findall ps n' rest
      | None => re_findall ps n' s'
      end
  | _, _ => []
  end.

End runtime.
End Py.

Import Difflib Py.

(** ** Normalized documents

    The dictionaries produced by the extraction layer.  A key the detector
    reads with [d[key]] is a field that is always there; a key read with
    [d.get(key)] is [VNone] or [None] when missing; a list read with
    [d.get(key, [])] is empty when missing. *)

(** A paragraph: ['text'], ['style'] and ['runs'], each run a dictionary
    with ['text'], ['bold'], ['italic'], ['underline'], ['font_name'],
    ['font_size'] and ['font_color']. *)
Record Paragraph := {
  p_text : pystr;
  p_style : scalar;
  p_runs : list sdict }.

(** A table: its ['rows'], each a list of cells, each cell its ['text']. *)
Record Table := { t_rows : list (list scalar) }.

(** An image: ['size'] (a pair of pixel counts) and the base64 ['data']. *)
Record Image := {
  i_size : option (Z * Z);
  i_data : pystr }.

Record Page := { pg_text : option pystr }.

Record Annotation := {
  a_id : option pystr;
  a_page_number : scalar;
  a_subtype : option pystr;
  a_rect : option (list scalar);
  a_quadpoints : option (list scalar);
  a_contents : option pystr;
  a_author : option pystr;
  a_subject : option pystr;
  a_color : option (list scalar) }.

(** A spreadsheet cell; ['font'], ['fill'] and ['border'] are read with
    [.get(key, {})]. *)
Record Cell := {
  c_coordinate : pystr;
  c_value : scalar;
  c_font : field sdict;
  c_fill : field sdict;
  c_border : field sdict }.

Record Sheet := {
  s_name : pystr;
  s_cells : list (list Cell) }.

(** A document; ['type'] is [None] when the key is missing. *)
Record Document := {
  d_type : option pystr;
  d_paragraphs : list Paragraph;
  d_tables : list Table;
  d_images : list Image;
  d_pages : list Page;
  d_annotations : list Annotation;
  d_sheets : list Sheet }.

#[local] Open Scope string_scope.
#[local] Open Scope list_scope.
#[local] Open Scope stdpp_scope.

(** A change record: a dictionary literal of the source, keys in source
    order. *)
Definition record : Type := dict string jval.

Record Summary := {
  total_changes : nat;
  text_changes_count : nat;
  formatting_changes_count : nat;
  table_changes_count : nat;
  image_changes_count : nat;
  annotation_changes_count : nat;
  structural_changes_count : nat }.

(** The dictionary [changes] returned by [detect_changes]. *)
Record Report := {
  text_changes : list record;
  formatting_changes : list record;
  table_changes : list record;
  image_changes : list record;
  annotation_changes : list record;
  structural_changes : list record;
  summary : Summary }.

(** ** [change_detector.py] *)

Section detector.
Context `{Runtime}.

(** [re.findall(r'\w+|[^\w\s]+|\s+', s or "", re.UNICODE)] *)
Definition _tokenize_keep_spaces (s : pystr) : list pystr :=
  re_findall [isword_cp; (λ c, negb (isword_cp c) && negb (isspace_cp c)); isspace_cp]
             (length s) s.

(** [[t for t in ts if t.strip() and not t.isspace()]] *)
Definition visible_terms (ts : list pystr) : list pystr :=
  filter (λ t, py_strip t ≠ [] ∧ py_isspace t = false) ts.

Definition escape_join (ts : list pystr) : pystr := concat (map html_escape ts).

Definition ins_markup (seg : pystr) : pystr :=
  py "<ins class=" ++ [34%N] ++ py "diff-add" ++ [34%N] ++ py ">" ++ seg ++ py "</ins>".

Definition del_markup (seg : pystr) : pystr :=
  py "<del class=" ++ [34%N] ++ py "diff-del" ++ [34%N] ++ py ">" ++ seg ++ py "</del>".

(** The body of the loop of [_word_diff_html] over the opcodes. *)
Definition word_diff_step (a b : list pystr)
    (st : list pystr * list pystr * list pystr) (op : opcode)
    : list pystr * list pystr * list pystr :=
  let '(pieces, added, deleted) := st in
  let '(Opcode tg i1 i2 j1 j2) := op in
  match tg with
  | Equal => (pieces ++ [escape_join (slice a i1 i2)], added, deleted)
  | Insert =>
      (pieces ++ [ins_markup (escape_join (slice b j1 j2))],
       added ++ visible_terms (slice b j1 j2), deleted)
  | Delete =>
      (pieces ++ [del_markup (escape_join (slice a i1 i2))],
       added, deleted ++ visible_terms (slice a i1 i2))
  | Replace =>
      (pieces ++ [del_markup (escape_join (slice a i1 i2))
                  ++ ins_markup (escape_join (slice b j1 j2))],
       added ++ visible_terms (slice b j1 j2),
       deleted ++ visible_terms (slice a i1 i2))
  end.

Definition _word_diff_html (old new : pystr) : res (pystr * list pystr * list pystr) :=
  let a := _tokenize_keep_spaces old in
  let b := _tokenize_keep_spaces new in
  ops ← of_option (get_opcodes a b);
  let '(pieces, added, deleted) := foldl (word_diff_step a b) ([], [], []) ops in
  Ok (concat pieces, added, deleted).

Definition is_sentence_end (c : N) : bool :=
  bool_decide (c = 46%N) || bool_decide (c = 33%N) || bool_decide (c = 63%N).

(** [re.split(r'(?<=[\.\!\?])\s+|\n+', s)]: [prev] is the character before
    the current position and [cur] the fragment read so far. *)
Fixpoint re_split_sentences (n : nat) (prev : option N) (cur s : pystr) : list pystr :=
  match n, s with
  | S n', c :: s' =>
      let by_space :=
        if from_option is_sentence_end false prev then re_plus isspace_cp s else ([], s) in
      let '(m, rest) :=
        match by_space with
        | ([], _) => re_plus (λ x, bool_decide (x = 10%N)) s
        | _ => by_space
        end in
      match m with
      | [] => re_split_sentences n' (Some c) (cur ++ [c]) s'
      | _ => cur :: re_split_sentences n' (last m) [] rest
      end
  | _, _ => [cur]
  end.

Definition _split_sentences (s : pystr) : list pystr :=
  filter (λ p, p ≠ []) (re_split_sentences (length s) None [] s).

(** [original['type']] *)
Definition get_type (d : Document) : res pystr :=
  match d_type d with
  | Some t => Ok t
  | None => Raise (KeyError "type")
  end.

(** [original['type'] == kind and revised['type'] == kind] *)
Definition both_of_type (original revised : Document) (kind : pystr) : res bool :=
  ot ← get_type original;
  if bool_decide (ot = kind)
  then rt ← get_type revised; Ok (bool_decide (rt = kind))
  else Ok false.

(** *** Text *)

(** The body of the loop of [_detect_docx_text_changes] at index [i]. *)
Definition docx_paragraph_change (op rp : list Paragraph) (i : nat) : res (list record) :=
  let ot := from_option p_text [] (op !! i) in
  let nt := from_option p_text [] (rp !! i) in
  if bool_decide (ot ≠ []) && bool_decide (nt = []) then
    Ok [[("type", JStr (py "text_change")); ("change_type", JStr (py "deleted"));
         ("content", JStr ot); ("paragraph_index", jnat i);
         ("document_type", JStr (py "docx"))]]
  else if bool_decide (nt ≠ []) && bool_decide (ot = []) then
    Ok [[("type", JStr (py "text_change")); ("change_type", JStr (py "added"));
         ("content", JStr nt); ("paragraph_index", jnat i);
         ("document_type", JStr (py "docx"))]]
  else if bool_decide (ot ≠ nt) then
    '(diff_html, added, deleted) ← _word_diff_html ot nt;
    Ok [[("type", JStr (py "text_change")); ("change_type", JStr (py "modified"));
         ("content_html", JStr diff_html); ("old_text", JStr ot); ("new_text", JStr nt);
         ("added_terms", JList (JStr <$> added));
         ("deleted_terms", JList (JStr <$> deleted));
         ("paragraph_index", jnat i); ("document_type", JStr (py "docx"))]]
  else Ok [].

Definition _detect_docx_text_changes (original revised : Document) : res (list record) :=
  let op := d_paragraphs original in
  let rp := d_paragraphs revised in
  let n := length op `max` length rp in
  for_each (seq 0 n) (docx_paragraph_change op rp).

Definition pdf_sentence_record (change_type : string) (sent : pystr) (i : nat) : record :=
  [("type", JStr (py "text_change")); ("change_type", JStr (py change_type));
   ("content", JStr sent); ("page_number", jnat (i + 1));
   ("document_type", JStr (py "pdf"))].

Definition _detect_pdf_text_changes (original revised : Document) : res (list record) :=
  let op := d_pages original in
  let rp := d_pages revised in
  let m := length op `max` length rp in
  for_each (seq 0 m) (λ i,
    let ot := default [] (op !! i ≫= pg_text) in
    let nt := default [] (rp !! i ≫= pg_text) in
    let a := _split_sentences ot in
    let b := _split_sentences nt in
    ops ← of_option (get_opcodes a b);
    for_each ops (λ '(Opcode tg i1 i2 j1 j2),
      match tg with
      | Equal => Ok []
      | Delete => Ok ((λ sent, pdf_sentence_record "deleted" sent i) <$> slice a i1 i2)
      | Insert => Ok ((λ sent, pdf_sentence_record "added" sent i) <$> slice b j1 j2)
      | Replace =>
          let old_seg := slice a i1 i2 in
          let new_seg := slice b j1 j2 in
          let k := length old_seg `min` length new_seg in
          modified ← for_each (zip (take k old_seg) (take k new_seg)) (λ '(s_old, s_new),
            '(diff_html, added, deleted) ← _word_diff_html s_old s_new;
            Ok [[("type", JStr (py "text_change")); ("change_type", JStr (py "modified"));
                 ("content_html", JStr diff_html);
                 ("old_text", JStr s_old); ("new_text", JStr s_new);
                 ("added_terms", JList (JStr <$> added));
                 ("deleted_terms", JList (JStr <$> deleted));
                 ("page_number", jnat (i + 1)); ("document_type", JStr (py "pdf"))]]);
          Ok (modified
              ++ ((λ sent, pdf_sentence_record "deleted" sent i) <$> drop k old_seg)
              ++ ((λ sent, pdf_sentence_record "added" sent i) <$> drop k new_seg))
      end)).

(** [_to_str] *)
Definition _to_str (v : scalar) : pystr :=
  match v with
  | VNone => []
  | _ => py_str v
  end.

(** [{c['coordinate']: c for row in sheet['cells'] for c in row}] *)
Definition cells_by_coordinate (sh : Sheet) : dict pystr Cell :=
  dict_comp c_coordinate (concat (s_cells sh)).

(** [next((s for s in sheets if s['name'] == sheet_name), None)] *)
Definition sheet_named (sheets : list Sheet) (sheet_name : pystr) : option Sheet :=
  snd <$> list_find (λ s, s_name s = sheet_name) sheets.

(** The sets [sheet_names] and [allc] are walked in order of first
    occurrence; Python fixes no order for them. *)
Definition _detect_xlsx_text_changes (original revised : Document) : res (list record) :=
  let original_sheets := d_sheets original in
  let revised_sheets := d_sheets revised in
  let sheet_names := remove_dups ((s_name <$> original_sheets) ++ (s_name <$> revised_sheets)) in
  for_each sheet_names (λ sheet_name,
    match sheet_named original_sheets sheet_name, sheet_named revised_sheets sheet_name with
    | None, _ =>
        Ok [[("type", JStr (py "sheet_added")); ("change_type", JStr (py "added"));
             ("content", JStr (py "Sheet added: " ++ sheet_name));
             ("sheet_name", JStr sheet_name); ("document_type", JStr (py "xlsx"))]]
    | Some _, None =>
        Ok [[("type", JStr (py "sheet_deleted")); ("change_type", JStr (py "deleted"));
             ("content", JStr (py "Sheet deleted: " ++ sheet_name));
             ("sheet_name", JStr sheet_name); ("document_type", JStr (py "xlsx"))]]
    | Some osheet, Some rsheet =>
        let ocells := cells_by_coordinate osheet in
        let rcells := cells_by_coordinate rsheet in
        let allc := remove_dups (ocells.*1 ++ rcells.*1) in
        for_each allc (λ coord,
          match dict_get coord ocells, dict_get coord rcells with
          | None, rc =>
              let val := _to_str (from_option c_value (VStr []) rc) in
              Ok [[("type", JStr (py "cell_added")); ("change_type", JStr (py "added"));
                   ("content", JStr val); ("value", JStr val);
                   ("coordinate", JStr coord); ("sheet_name", JStr sheet_name);
                   ("document_type", JStr (py "xlsx"))]]
          | Some oc, None =>
              let val := _to_str (c_value oc) in
              Ok [[("type", JStr (py "cell_deleted")); ("change_type", JStr (py "deleted"));
                   ("content", JStr val); ("value", JStr val);
                   ("coordinate", JStr coord); ("sheet_name", JStr sheet_name);
                   ("document_type", JStr (py "xlsx"))]]
          | Some oc, Some rc =>
              let old_val := _to_str (c_value oc) in
              let new_val := _to_str (c_value rc) in
              if bool_decide (old_val ≠ new_val) then
                '(diff_html, added, deleted) ← _word_diff_html old_val new_val;
                Ok [[("type", JStr (py "cell_modified")); ("change_type", JStr (py "modified"));
                     ("coordinate", JStr coord); ("sheet_name", JStr sheet_name);
                     ("document_type", JStr (py "xlsx"));
                     ("old_value", JStr old_val); ("new_value", JStr new_val);
                     ("content_html", JStr diff_html);
                     ("added_terms", JList (JStr <$> added));
                     ("deleted_terms", JList (JStr <$> deleted))]]
              else Ok []
          end)
    end).

Definition _detect_text_changes (original revised : Document) : res (list record) :=
  docx ← both_of_type original revised (py "docx");
  if docx : bool then _detect_docx_text_changes original revised
  else
    pdf ← both_of_type original revised (py "pdf");
    if pdf : bool then _detect_pdf_text_changes original revised
    else
      xlsx ← both_of_type original revised (py "xlsx");
      if xlsx : bool then _detect_xlsx_text_changes original revised
      else Ok [].

(** *** Annotations *)

(** The [try] body of [_norm_floats]: [[round(float(x), 3) for x in v]];
    [None] when a conversion raises. *)
Definition round_floats (v : list scalar) : option (list Q) :=
  mapM (λ x, round3 <$> py_float x) v.

(** [_norm_floats]: [None] for [None], and the [except] clause turns a
    failed conversion into [None] as well. *)
Definition _norm_floats (v : option (list scalar)) : option (list Q) :=
  match v with
  | None => None
  | Some l => round_floats l
  end.

(** [==] on what [_norm_floats] returns. *)
Definition norm_eqb (x y : option (list Q)) : bool :=
  match x, y with
  | None, None => true
  | Some l1, Some l2 =>
      bool_decide (length l1 = length l2) && forallb (λ p, Qeq_bool p.1 p.2) (zip l1 l2)
  | _, _ => false
  end.

(** [sep.join(l)] *)
Fixpoint str_join (sep : pystr) (l : list pystr) : pystr :=
  match l with
  | [] => []
  | [x] => x
  | x :: l' => x ++ sep ++ str_join sep l'
  end.

Definition _annot_key (a : Annotation) : pystr :=
  let nm := default [] (a_id a) in
  if bool_decide (nm ≠ []) then nm
  else
    let page := a_page_number a in
    let subtype := default [] (a_subtype a) in
    let rect := default [] (_norm_floats (a_rect a)) in
    let contents := take 64 (default [] (a_contents a)) in
    let base := py_str page ++ py ":" ++ subtype ++ py ":"
                ++ str_join (py ",") (float_repr <$> rect) ++ py ":" ++ contents in
    py "AUTO-" ++ take 10 (md5_hexdigest base).

Definition jfloats (v : option (list scalar)) : jval :=
  match v with
  | None => JNone
  | Some l => JList (jscalar <$> l)
  end.

(** [a.get('id') or k] *)
Definition id_or (a : Annotation) (k : pystr) : pystr :=
  match a_id a with
  | Some (c :: s) => c :: s
  | _ => k
  end.

Definition annotation_record (change_type : string) (k : pystr) (a : Annotation) : record :=
  [("type", JStr (py "annotation_change")); ("change_type", JStr (py change_type));
   ("document_type", JStr (py "pdf"));
   ("id", JStr (id_or a k));
   ("page_number", jscalar (a_page_number a));
   ("subtype", jstr_opt (a_subtype a));
   ("content", jstr_opt (a_contents a));
   ("rect", jfloats (a_rect a));
   ("quadpoints", jfloats (a_quadpoints a));
   ("author", jstr_opt (a_author a));
   ("subject", jstr_opt (a_subject a));
   ("color", jfloats (a_color a))].

(** The list [diffs] built for a pair of annotations under one key. *)
Definition annotation_diffs (o r : Annotation) : list string :=
  (if bool_decide (default [] (a_contents o) ≠ default [] (a_contents r))
   then ["contents"] else [])
  ++ (if norm_eqb (_norm_floats (a_rect o)) (_norm_floats (a_rect r))
      then [] else ["rect"])
  ++ (if norm_eqb (_norm_floats (a_quadpoints o)) (_norm_floats (a_quadpoints r))
      then [] else ["quadpoints"])
  ++ (if norm_eqb (_norm_floats (a_color o)) (_norm_floats (a_color r))
      then [] else ["color"])
  ++ (if bool_decide (default [] (a_subtype o) ≠ default [] (a_subtype r))
      then ["subtype"] else [])
  ++ (if bool_decide (default [] (a_author o) ≠ default [] (a_author r))
      then ["author"] else [])
  ++ (if bool_decide (default [] (a_subject o) ≠ default [] (a_subject r))
      then ["subject"] else []).

Definition annotation_snapshot (text : pystr) (a : Annotation) : jval :=
  JDict [("contents", JStr text); ("rect", jfloats (a_rect a));
         ("quadpoints", jfloats (a_quadpoints a)); ("color", jfloats (a_color a));
         ("author", jstr_opt (a_author a)); ("subject", jstr_opt (a_subject a));
         ("subtype", jstr_opt (a_subtype a))].

(** The body of the third loop of [_detect_annotation_changes], for the
    annotations [o] and [r] found under the key [k]. *)
Definition annotation_modified (k : pystr) (o r : Annotation) : res (list record) :=
  let otext := default [] (a_contents o) in
  let rtext := default [] (a_contents r) in
  diff_html ←
    (if bool_decide (otext ≠ rtext)
     then '(diff_html, _, _) ← _word_diff_html otext rtext; Ok (JStr diff_html)
     else Ok JNone);
  let diffs := annotation_diffs o r in
  if bool_decide (diffs ≠ []) then
    Ok [[("type", JStr (py "annotation_change")); ("change_type", JStr (py "modified"));
         ("document_type", JStr (py "pdf"));
         ("id", JStr (id_or r k));
         ("page_number", jscalar (a_page_number r));
         ("subtype", jstr_opt (a_subtype r));
         ("content_html", diff_html);
         ("old", annotation_snapshot otext o);
         ("new", annotation_snapshot rtext r);
         ("changed_fields", JList ((λ f, JStr (py f)) <$> diffs))]]
  else Ok [].

(** The keys common to both maps are walked in the order of [omap];
    Python fixes no order for the set [set(omap.keys()) & set(rmap.keys())]. *)
Definition _detect_annotation_changes (original revised : Document) : res (list record) :=
  ot ← get_type original;
  rt ← get_type revised;
  if negb (bool_decide (ot = rt) && bool_decide (rt = py "pdf")) then Ok []
  else
    let olist := d_annotations original in
    let rlist := d_annotations revised in
    let omap := dict_comp _annot_key olist in
    let rmap := dict_comp _annot_key rlist in
    added ← for_each rmap (λ '(k, a),
      if dict_get k omap is None then Ok [annotation_record "added" k a] else Ok []);
    deleted ← for_each omap (λ '(k, a),
      if dict_get k rmap is None then Ok [annotation_record "deleted" k a] else Ok []);
    modified ← for_each omap (λ '(k, o),
      match dict_get k rmap with
      | Some r => annotation_modified k o r
      | None => Ok []
      end);
    Ok (added ++ deleted ++ modified).

(** *** Formatting *)

(** The rendering [f"{attr}: {old} → {new}"]. *)
Definition attr_change (label : pystr) (old new : scalar) : pystr :=
  label ++ py ": " ++ py_str old ++ [32%N; 8594%N; 32%N] ++ py_str new.

(** One turn of a loop [for attr in [...]] comparing [o.get(attr)] with
    [r.get(attr)]. *)
Definition compare_attrs (prefix : string) (attrs : list string) (o r : sdict) : list pystr :=
  flat_map (λ attr,
    if py_eqb (sget attr o) (sget attr r) then []
    else [attr_change (py (prefix ++ attr)) (sget attr o) (sget attr r)]) attrs.

Definition _compare_run_formatting (orig_run rev_run : sdict) : list pystr :=
  compare_attrs "" ["bold"; "italic"; "underline"; "font_name"; "font_size"; "font_color"]
                orig_run rev_run.

Definition _detect_docx_formatting_changes (original revised : Document) : list record :=
  let op := d_paragraphs original in
  let rp := d_paragraphs revised in
  concat (imap (λ i '(orig_para, rev_para),
    (if py_eqb (p_style orig_para) (p_style rev_para) then []
     else [[("type", JStr (py "paragraph_style_change")); ("paragraph_index", jnat i);
            ("old_style", jscalar (p_style orig_para));
            ("new_style", jscalar (p_style rev_para));
            ("document_type", JStr (py "docx"))]])
    ++ concat (imap (λ j '(orun, rrun),
         if py_eqb (sget "text" orun) (sget "text" rrun) then
           let fmt := _compare_run_formatting orun rrun in
           if bool_decide (fmt ≠ []) then
             [[("type", JStr (py "run_formatting_change")); ("paragraph_index", jnat i);
               ("run_index", jnat j); ("text", jscalar (sget "text" orun));
               ("changes", JList (JStr <$> fmt)); ("document_type", JStr (py "docx"))]]
           else []
         else []) (zip (p_runs orig_para) (p_runs rev_para))))
    (zip op rp)).

(** [cell.get(key, {})] followed by [.get(attr)]: a descriptor bound to
    [None] has no [get]. *)
Definition descriptor (f : field sdict) : res sdict :=
  match f with
  | Absent => Ok []
  | Null => Raise AttributeError
  | Present d => Ok d
  end.

Definition _compare_cell_formatting (oc rc : Cell) : res (list pystr) :=
  of_ ← descriptor (c_font oc);
  rf ← descriptor (c_font rc);
  let font := compare_attrs "font_" ["name"; "size"; "bold"; "italic"; "color"] of_ rf in
  ofill ← descriptor (c_fill oc);
  rfill ← descriptor (c_fill rc);
  let fill :=
    if py_eqb (sget "fg_color" ofill) (sget "fg_color" rfill) then []
    else [attr_change (py "fill_color") (sget "fg_color" ofill) (sget "fg_color" rfill)] in
  ob ← descriptor (c_border oc);
  rb ← descriptor (c_border rc);
  let border := compare_attrs "border_" ["left"; "right"; "top"; "bottom"] ob rb in
  Ok (font ++ fill ++ border).

(** The body of the loop of [_detect_xlsx_formatting_changes] for one pair
    of sheets taken at the same position. *)
Definition sheet_pair_formatting (os rs : Sheet) : res (list record) :=
  if bool_decide (s_name os ≠ s_name rs) then Ok []
  else
    let ocells := cells_by_coordinate os in
    let rcells := cells_by_coordinate rs in
    for_each ocells (λ '(coord, oc),
      match dict_get coord rcells with
      | None => Ok []
      | Some rc =>
          if py_eqb (c_value oc) (c_value rc) then
            fmt ← _compare_cell_formatting oc rc;
            if bool_decide (fmt ≠ []) then
              Ok [[("type", JStr (py "cell_formatting_change")); ("coordinate", JStr coord);
                   ("sheet_name", JStr (s_name os)); ("changes", JList (JStr <$> fmt));
                   ("document_type", JStr (py "xlsx"))]]
            else Ok []
          else Ok []
      end).

Definition _detect_xlsx_formatting_changes (original revised : Document) : res (list record) :=
  for_each (zip (d_sheets original) (d_sheets revised)) (λ '(os, rs),
    sheet_pair_formatting os rs).

Definition _detect_formatting_changes (original revised : Document) : res (list record) :=
  docx ← both_of_type original revised (py "docx");
  if docx : bool then Ok (_detect_docx_formatting_changes original revised)
  else
    xlsx ← both_of_type original revised (py "xlsx");
    if xlsx : bool then _detect_xlsx_formatting_changes original revised
    else Ok [].

(** *** Tables *)

Definition _detect_docx_table_changes (original revised : Document) : list record :=
  let otables := d_tables original in
  let rtables := d_tables revised in
  (if bool_decide (length otables ≠ length rtables) then
     [[("type", JStr (py "table_count_change")); ("original_count", jnat (length otables));
       ("revised_count", jnat (length rtables)); ("document_type", JStr (py "docx"))]]
   else [])
  ++ concat (imap (λ i '(ot, rt),
       let orows := t_rows ot in
       let rrows := t_rows rt in
       (if bool_decide (length orows ≠ length rrows) then
          [[("type", JStr (py "table_row_count_change")); ("table_index", jnat i);
            ("original_rows", jnat (length orows)); ("revised_rows", jnat (length rrows));
            ("document_type", JStr (py "docx"))]]
        else [])
       ++ concat (imap (λ j '(orow, rrow),
            concat (imap (λ k '(ocell, rcell),
              if py_eqb ocell rcell then []
              else [[("type", JStr (py "table_cell_change")); ("table_index", jnat i);
                     ("row_index", jnat j); ("cell_index", jnat k);
                     ("old_text", jscalar ocell); ("new_text", jscalar rcell);
                     ("document_type", JStr (py "docx"))]])
              (zip orow rrow)))
            (zip orows rrows)))
       (zip otables rtables)).

Definition _detect_table_changes (original revised : Document) : res (list record) :=
  docx ← both_of_type original revised (py "docx");
  if docx : bool then Ok (_detect_docx_table_changes original revised) else Ok [].

(** *** Images *)

Definition image_similarity_threshold : Q := 95 # 100.

Definition _compare_images (img1_data img2_data : pystr) : Q :=
  match image_ssim img1_data img2_data with
  | Some sim => sim
  | None => 0
  end.

Definition jsize (sz : option (Z * Z)) : jval :=
  match sz with
  | Some (w, h) => JList [JInt w; JInt h]
  | None => JNone
  end.

Definition _detect_docx_image_changes (original revised : Document) : list record :=
  let oimgs := d_images original in
  let rimgs := d_images revised in
  (if bool_decide (length oimgs ≠ length rimgs) then
     [[("type", JStr (py "image_count_change")); ("original_count", jnat (length oimgs));
       ("revised_count", jnat (length rimgs)); ("document_type", JStr (py "docx"))]]
   else [])
  ++ concat (imap (λ i '(oi, ri),
       (if bool_decide (i_size oi ≠ i_size ri) then
          [[("type", JStr (py "image_size_change")); ("image_index", jnat i);
            ("old_size", jsize (i_size oi)); ("new_size", jsize (i_size ri));
            ("document_type", JStr (py "docx"))]]
        else [])
       ++ (let sim := _compare_images (i_data oi) (i_data ri) in
           if negb (Qle_bool image_similarity_threshold sim) then
             [[("type", JStr (py "image_content_change")); ("image_index", jnat i);
               ("similarity", JFloat sim); ("document_type", JStr (py "docx"))]]
           else []))
       (zip oimgs rimgs)).

Definition _detect_image_changes (original revised : Document) : res (list record) :=
  docx ← both_of_type original revised (py "docx");
  if docx : bool then Ok (_detect_docx_image_changes original revised) else Ok [].

(** *** Structure *)

Definition count_change (type : string) (oc rc : nat) (document_type : string) : list record :=
  if bool_decide (oc ≠ rc) then
    [[("type", JStr (py type)); ("original_count", jnat oc); ("revised_count", jnat rc);
      ("document_type", JStr (py document_type))]]
  else [].

Definition _detect_structural_changes (original revised : Document) : res (list record) :=
  ot ← get_type original;
  rt ← get_type revised;
  if bool_decide (ot ≠ rt) then
    Ok [[("type", JStr (py "document_type_change")); ("original_type", JStr ot);
         ("revised_type", JStr rt)]]
  else if bool_decide (ot = py "docx") then
    Ok (count_change "paragraph_count_change"
          (length (d_paragraphs original)) (length (d_paragraphs revised)) "docx")
  else if bool_decide (ot = py "pdf") then
    Ok (count_change "page_count_change"
          (length (d_pages original)) (length (d_pages revised)) "pdf")
  else if bool_decide (ot = py "xlsx") then
    Ok (count_change "sheet_count_change"
          (length (d_sheets original)) (length (d_sheets revised)) "xlsx")
  else Ok [].

(** *** The orchestrator *)

Definition detect_changes (original revised : Document) : res Report :=
  text ← _detect_text_changes original revised;
  formatting ← _detect_formatting_changes original revised;
  table ← _detect_table_changes original revised;
  image ← _detect_image_changes original revised;
  annotation ← _detect_annotation_changes original revised;
  structural ← _detect_structural_changes original revised;
  Ok {| text_changes := text;
        formatting_changes := formatting;
        table_changes := table;
        image_changes := image;
        annotation_changes := annotation;
        structural_changes := structural;
        summary := {|
          total_changes :=
            sum_list [length text; length formatting; length table; length image;
                      length annotation; length structural];
          text_changes_count := length text;
          formatting_changes_count := length formatting;
          table_changes_count := length table;
          image_changes_count := length image;
          annotation_changes_count := length annotation;
          structural_changes_count := length structural |} |}.

(** ** [document_parser.py]: the fallback identifier given at extraction *)

(** [_compute_annot_fallback_id]; the caller passes [rect or []]. *)
Definition _compute_annot_fallback_id (page_number : Z) (subtype : pystr)
    (rect : list Q) (contents : pystr) : pystr :=
  let base := str_of_Z page_number ++ py ":" ++ subtype ++ py ":"
              ++ str_join (py ",") (float_format_2f <$> rect) ++ py ":" ++ contents in
  let digest := take 10 (md5_hexdigest base) in
  py "AUTO-" ++ str_of_Z page_number ++ py "-" ++ subtype ++ py "-" ++ digest.

End detector.

(** ** A reference runtime

    An instance of [Runtime] on which the detector can be run: the
    white-space table of CPython, MD5 over the UTF-8 encoding, and
    stand-ins, exact on the inputs named, for the rest. *)

Module Reference.

(** *** MD5 (RFC 1321) over 32-bit words held in [N] *)

Definition mask32 (x : N) : N := N.land x 4294967295.
Definition add32 (x y : N) : N := mask32 (x + y).
Definition not32 (x : N) : N := N.lxor x 4294967295.
Definition rotl32 (x c : N) : N :=
  mask32 (N.lor (N.shiftl x c) (N.shiftr (mask32 x) (32 - c))).

Definition md5_K : list N :=
  [3614090360; 3905402710; 606105819; 3250441966;
   4118548399; 1200080426; 2821735955; 4249261313;
   1770035416; 2336552879; 4294925233; 2304563134;
   1804603682; 4254626195; 2792965006; 1236535329;
   4129170786; 3225465664; 643717713; 3921069994;
   3593408605; 38016083; 3634488961; 3889429448;
   568446438; 3275163606; 4107603335; 1163531501;
   2850285829; 4243563512; 1735328473; 2368359562;
   4294588738; 2272392833; 1839030562; 4259657740;
   2763975236; 1272893353; 4139469664; 3200236656;
   681279174; 3936430074; 3572445317; 76029189;
   3654602809; 3873151461; 530742520; 3299628645;
   4096336452; 1126891415; 2878612391; 4237533241;
   1700485571; 2399980690; 4293915773; 2240044497;
   1873313359; 4264355552; 2734768916; 1309151649;
   4149444226; 3174756917; 718787259; 3951481745]%N.

Definition md5_S : list N :=
  [7; 12; 17; 22; 7; 12; 17; 22; 7; 12; 17; 22; 7; 12; 17; 22;
   5; 9; 14; 20; 5; 9; 14; 20; 5; 9; 14; 20; 5; 9; 14; 20;
   4; 11; 16; 23; 4; 11; 16; 23; 4; 11; 16; 23; 4; 11; 16; 23;
   6; 10; 15; 21; 6; 10; 15; 21; 6; 10; 15; 21; 6; 10; 15; 21]%N.

Definition md5_round (M : list N) (st : N * N * N * N) (i : nat) : N * N * N * N :=
  let '(A, B, C, D) := st in
  let '(F, g) :=
    if bool_decide (i < 16)%nat then
      (N.lor (N.land B C) (N.land (not32 B) D), i)
    else if bool_decide (i < 32)%nat then
      (N.lor (N.land D B) (N.land (not32 D) C), (5 * i + 1) `mod` 16)%nat
    else if bool_decide (i < 48)%nat then
      (N.lxor (N.lxor B C) D, (3 * i + 5) `mod` 16)%nat
    else
      (N.lxor C (N.lor B (not32 D)), (7 * i) `mod` 16)%nat in
  let F := add32 (add32 (add32 F A) (default 0%N (md5_K !! i))) (default 0%N (M !! g)) in
  (D, add32 B (rotl32 F (default 0%N (md5_S !! i))), B, C).

Definition md5_block (st : N * N * N * N) (M : list N) : N * N * N * N :=
  let '(A0, B0, C0, D0) := st in
  let '(A, B, C, D) := foldl (md5_round M) st (seq 0 64) in
  (add32 A0 A, add32 B0 B, add32 C0 C, add32 D0 D).

(** [n] bytes of [x], least significant first. *)
Fixpoint le_bytes (n : nat) (x : N) : list N :=
  match n with
  | 0%nat => []
  | S n' => N.land x 255 :: le_bytes n' (N.shiftr x 8)
  end.

Fixpoint le_word (bs : list N) : N :=
  match bs with
  | [] => 0
  | b :: bs' => (b + 256 * le_word bs')%N
  end.

(** The list cut into pieces of [size] elements; [n] bounds their number. *)
Fixpoint chunks {X} (size n : nat) (l : list X) : list (list X) :=
  match n, l with
  | S n', _ :: _ => take size l :: chunks size n' (drop size l)
  | _, _ => []
  end.

Definition md5_pad (bytes : list N) : list N :=
  let len := length bytes in
  let zeros := ((119 - len `mod` 64) `mod` 64)%nat in
  bytes ++ [128%N] ++ replicate zeros 0%N ++ le_bytes 8 (N.of_nat (8 * len)).

Definition hex_digit (d : N) : N :=
  if (d <? 10)%N then (48 + d)%N else (87 + d)%N.

Definition hex_byte (b : N) : list N :=
  [hex_digit (N.shiftr b 4); hex_digit (N.land b 15)].

Definition md5_hex (bytes : list N) : pystr :=
  let padded := md5_pad bytes in
  let blocks := (λ blk, le_word <$> chunks 4 16 blk) <$> chunks 64 (length padded) padded in
  let '(A, B, C, D) :=
    foldl md5_block (1732584193, 4023233417, 2562383102, 271733878)%N blocks in
  flat_map hex_byte (flat_map (le_bytes 4) [A; B; C; D]).

(** [s.encode('utf-8')] *)
Definition utf8_encode (s : pystr) : list N :=
  flat_map (λ c : N,
    if (c <? 128)%N then [c]
    else if (c <? 2048)%N then
      [(192 + N.shiftr c 6)%N; (128 + N.land c 63)%N]
    else if (c <? 65536)%N then
      [(224 + N.shiftr c 12)%N; (128 + N.land (N.shiftr c 6) 63)%N; (128 + N.land c 63)%N]
    else
      [(240 + N.shiftr c 18)%N; (128 + N.land (N.shiftr c 12) 63)%N;
       (128 + N.land (N.shiftr c 6) 63)%N; (128 + N.land c 63)%N]) s.

(** *** Characters *)

(** The code points for which [str.isspace] holds. *)
Definition unicode_isspace (c : N) : bool :=
  ((9 <=? c) && (c <=? 13) || (28 <=? c) && (c <=? 32)
   || (c =? 133) || (c =? 160) || (c =? 5760)
   || (8192 <=? c) && (c <=? 8202)
   || (c =? 8232) || (c =? 8233) || (c =? 8239) || (c =? 8287) || (c =? 12288))%N.

(** [\w] on ASCII: letters, digits and the underscore. *)
Definition ascii_isword (c : N) : bool :=
  ((48 <=? c) && (c <=? 57) || (65 <=? c) && (c <=? 90)
   || (97 <=? c) && (c <=? 122) || (c =? 95))%N.

(** *** Floats as decimals *)

Definition digits_of_nat (n : nat) : pystr := py (NilZero.string_of_uint (Nat.to_uint n)).

(** [z / 10^k] written with exactly [k] digits after the point. *)
Definition decimal (negative : bool) (z : Z) (k : nat) : pystr :=
  let n := Z.abs_nat z in
  let whole := digits_of_nat (n `div` 10 ^ k) in
  let frac := digits_of_nat (n `mod` 10 ^ k) in
  (if negative then py "-" else [])
  ++ whole ++ py "." ++ replicate (k - length frac) 48%N ++ frac.

Definition Qnegative (q : Q) : bool := bool_decide (Qnum q < 0)%Z.

(** [f'{x:.2f}'] *)
Definition format_2f (q : Q) : pystr :=
  decimal (Qnegative q) (round_half_even (q * 100)) 2.

(** The least [k] in [1..17] with [q * 10^k] whole, else 17. *)
Fixpoint decimal_places (q : Q) (k n : nat) : nat :=
  match n with
  | 0%nat => k
  | S n' =>
      if Qeq_bool (inject_Z (Qfloor (q * inject_Z (10 ^ Z.of_nat k))))
                  (q * inject_Z (10 ^ Z.of_nat k))
      then k else decimal_places q (S k) n'
  end.

(** [str(x)] for a float whose shortest decimal form has at most 17 digits
    after the point and no exponent. *)
Definition repr_decimal (q : Q) : pystr :=
  let k := decimal_places q 1 16 in
  decimal (Qnegative q) (round_half_even (q * inject_Z (10 ^ Z.of_nat k))) k.

Definition digit_value (c : N) : option Z :=
  if ((48 <=? c) && (c <=? 57))%N then Some (Z.of_N c - 48)%Z else None.

Definition digits_value (s : pystr) : option Z :=
  foldl (λ acc c, a ← acc; d ← digit_value c; Some (10 * a + d)%Z) (Some 0%Z) s.

(** [float(s)] on plain decimal literals: an optional sign, digits, and an
    optional point followed by digits. *)
Definition parse_decimal (s : pystr) : option Q :=
  let '(negative, body) :=
    match s with
    | 45%N :: s' => (true, s')
    | 43%N :: s' => (false, s')
    | _ => (false, s)
    end in
  let '(whole, rest) := re_plus (λ c, negb (c =? 46)%N) body in
  let frac := drop 1 rest in
  if bool_decide (whole ++ frac = []) then None
  else
    w ← digits_value whole;
    f ← digits_value frac;
    let q := (inject_Z w + inject_Z f / inject_Z (10 ^ Z.of_nat (length frac)))%Q in
    Some (if negative then (- q)%Q else q).

(** *** Images

    No decoder is modelled.  An empty payload holds no image, so opening it
    raises; any other payload stands for a decodable image, scored 1 against
    an identical payload and 0 against a different one. *)
Definition ssim_stand_in (d1 d2 : pystr) : option Q :=
  match d1, d2 with
  | [], _ | _, [] => None
  | _, _ => Some (if bool_decide (d1 = d2) then 1%Q else 0%Q)
  end.

#[global] Instance runtime : Runtime := {|
  isspace_cp := unicode_isspace;
  isword_cp := ascii_isword;
  float_repr := repr_decimal;
  float_format_2f := format_2f;
  float_of_str := parse_decimal;
  md5_hexdigest := λ s, md5_hex (utf8_encode s);
  image_ssim := ssim_stand_in |}.

End Reference.

(** * Vocabulary of the statements *)

(** ** On the matcher *)

Section matcher_vocabulary.
Context {A : Type} `{Countable A}.
Implicit Types a b : list A.
Implicit Types m : block.

(** The positions of [x] in [b], in increasing order. *)
Definition indices_of (x : A) (b : list A) : list nat :=
  (filter (λ ie : nat * A, ie.2 = x) (imap pair b)).*1.

(** What [find_longest_match] needs of [b2j]: every listed position holds
    the element. *)
Definition b2j_sound (b2j : gmap A (list nat)) b : Prop :=
  ∀ x js j, b2j !! x = Some js → j ∈ js → b !! j = Some x.

(** A block lies within a region, and pairs equal elements. *)
Definition in_box (alo ahi blo bhi : nat) m : Prop :=
  let '(i, j, k) := m in alo ≤ i ∧ i + k ≤ ahi ∧ blo ≤ j ∧ j + k ≤ bhi.

Definition is_match a b m : Prop :=
  let '(i, j, k) := m in
  ∀ d, d < k → ∃ x, a !! (i + d) = Some x ∧ b !! (j + d) = Some x.

Definition good_match a b (alo ahi blo bhi : nat) m : Prop :=
  in_box alo ahi blo bhi m ∧ is_match a b m.

(** [j2len] before row [e]: every entry is the length of a match that ends
    just before [e] in [a] and at its key in [b]. *)
Definition j2len_ok a b (alo blo bhi e : nat) (j2len : gmap nat nat) : Prop :=
  ∀ j k, j2len !! j = Some k →
    1 ≤ k ∧ alo + k ≤ e ∧ blo + k ≤ j + 1 ∧ j < bhi ∧ is_match a b (e - k, j + 1 - k, k).

(** A region [(alo, ahi, blo, bhi)], and the region a block covers. *)
Definition box : Type := nat * nat * nat * nat.

Definition bbox m : box := let '(i, j, k) := m in (i, i + k, j, j + k).

Definition before (X Y : box) : Prop :=
  let '(_, x2, _, y2) := X in
  let '(x1', _, y1', _) := Y in
  x2 ≤ x1' ∧ y2 ≤ y1'.

Definition apart (X Y : box) : Prop := before X Y ∨ before Y X.

Definition sub_box (Q X : box) : Prop :=
  let '(q1, q2, q3, q4) := Q in
  let '(x1, x2, y1, y2) := X in
  q1 ≤ x1 ∧ x2 ≤ q2 ∧ q3 ≤ y1 ∧ y2 ≤ q4.

Fixpoint pairwise {X} (R : relation X) (l : list X) : Prop :=
  match l with
  | [] => True
  | x :: l' => Forall (R x) l' ∧ pairwise R l'
  end.

Definition region_ok a b (Q : box) : Prop :=
  let '(alo, ahi, blo, bhi) := Q in
  alo ≤ ahi ∧ ahi ≤ length a ∧ blo ≤ bhi ∧ bhi ≤ length b.

Definition block_ok a b m : Prop :=
  m.2 ≠ 0 ∧ good_match a b 0 (length a) 0 (length b) m.

Definition gmb_inv a b (queue : list box) (blocks : list block) : Prop :=
  pairwise apart ((bbox <$> blocks) ++ queue)
  ∧ Forall (block_ok a b) blocks
  ∧ Forall (region_ok a b) queue.

(** Iterations still needed by the regions waiting in the work list. *)
Definition weight (queue : list box) : nat :=
  sum_list ((λ Q : box, 2 * (Q.1.1.2 - Q.1.1.1) + 1) <$> queue).

(** Each block starts at or after the end of the one before it, in [a] and
    in [b]; the first one at or after [(i, j)]. *)
Fixpoint chain (i j : nat) (l : list block) : Prop :=
  match l with
  | [] => True
  | (ai, bj, k) :: l' => i ≤ ai ∧ j ≤ bj ∧ chain (ai + k) (bj + k) l'
  end.

(** Where the last block of [l] ends, or [(i, j)] for no block. *)
Definition cend (i j : nat) (l : list block) : nat * nat :=
  foldl (λ _ m, (m.1.1 + m.2, m.1.2 + m.2)) (i, j) l.

(** What an opcode promises about the spans it names. *)
Definition opcode_ok a b (op : opcode) : Prop :=
  match op_tag op with
  | Equal => slice a (op_i1 op) (op_i2 op) = slice b (op_j1 op) (op_j2 op)
  | Insert => op_i1 op = op_i2 op
  | Delete => op_j1 op = op_j2 op
  | Replace => True
  end.

Definition a_span a (op : opcode) : list A := slice a (op_i1 op) (op_i2 op).
Definition b_span b (op : opcode) : list A := slice b (op_j1 op) (op_j2 op).

(** Length of the run of elements that [b2j] still lists (those not
    purged as popular) that ends just before position [e]. *)
Fixpoint diag_run (b2j : gmap A (list nat)) a (e : nat) : nat :=
  match e with
  | 0 => 0
  | S e' =>
      match a !! e' ≫= λ x, b2j !! x with
      | Some _ => diag_run b2j a e' + 1
      | None => 0
      end
  end.

Definition b2j_exact (b2j : gmap A (list nat)) a : Prop :=
  ∀ x js, b2j !! x = Some js → js = indices_of x a.

(** The state of the inner loop on row [i] of [a] against itself, with
    [todo] the positions still to visit. *)
Definition self_row_inv (b2j : gmap A (list nat)) a (i : nat) (todo : list nat)
    (newj2len : gmap nat nat) (best : block) : Prop :=
  best.1.1 = best.1.2
  ∧ (∀ e, e ≤ i → diag_run b2j a e ≤ best.2)
  ∧ (∀ j k, newj2len !! j = Some k → k ≤ diag_run b2j a (S i `min` S j))
  ∧ (i ∉ todo → diag_run b2j a (S i) ≤ best.2
                ∧ newj2len !! i = Some (diag_run b2j a (S i))).

End matcher_vocabulary.

(** ** On the detector *)

(** The tokens a span contributes to the new text and to the old text:
    [_word_diff_html] copies an [equal] span from [a], wraps the [b] side of
    [insert] and [replace] in [<ins>], and the [a] side of [delete] and
    [replace] in [<del>]. *)
Definition new_side {X} (a b : list X) (op : opcode) : list X :=
  match op_tag op with
  | Equal => slice a (op_i1 op) (op_i2 op)
  | Insert | Replace => slice b (op_j1 op) (op_j2 op)
  | Delete => []
  end.

Definition old_side {X} (a b : list X) (op : opcode) : list X :=
  match op_tag op with
  | Equal | Delete | Replace => slice a (op_i1 op) (op_i2 op)
  | Insert => []
  end.

(** The kinds [detect_changes] knows. *)
Definition recognized (t : pystr) : Prop :=
  t = py "docx" ∨ t = py "pdf" ∨ t = py "xlsx".

Definition no_changes : Report :=
  {| text_changes := []; formatting_changes := []; table_changes := [];
     image_changes := []; annotation_changes := []; structural_changes := [];
     summary := {| total_changes := 0; text_changes_count := 0;
                   formatting_changes_count := 0; table_changes_count := 0;
                   image_changes_count := 0; annotation_changes_count := 0;
                   structural_changes_count := 0 |} |}.

(** A document of the given type with nothing in it. *)
Definition empty_document (type : option pystr) : Document :=
  {| d_type := type; d_paragraphs := []; d_tables := []; d_images := [];
     d_pages := []; d_annotations := []; d_sheets := [] |}.

(** The records a list holds for paragraph [i]. *)
Definition paragraph_index (rec : record) : option Z :=
  match dict_get "paragraph_index" rec with
  | Some (JInt z) => Some z
  | _ => None
  end.

Definition at_paragraph (i : nat) (recs : list record) : list record :=
  filter (λ rec, paragraph_index rec = Some (Z.of_nat i)) recs.

(** The record of [_detect_docx_text_changes] for a paragraph that one
    side lacks. *)
Definition docx_text_record (change_type : string) (content : pystr) (i : nat) : record :=
  [("type", JStr (py "text_change")); ("change_type", JStr (py change_type));
   ("content", JStr content); ("paragraph_index", jnat i);
   ("document_type", JStr (py "docx"))].

(** Its record for a paragraph whose text changed. *)
Definition docx_modified_record (diff_html ot nt : pystr) (added deleted : list pystr)
    (i : nat) : record :=
  [("type", JStr (py "text_change")); ("change_type", JStr (py "modified"));
   ("content_html", JStr diff_html); ("old_text", JStr ot); ("new_text", JStr nt);
   ("added_terms", JList (JStr <$> added));
   ("deleted_terms", JList (JStr <$> deleted));
   ("paragraph_index", jnat i); ("document_type", JStr (py "docx"))].

Definition docx_document (paragraphs : list Paragraph) : Document :=
  {| d_type := Some (py "docx"); d_paragraphs := paragraphs; d_tables := [];
     d_images := []; d_pages := []; d_annotations := []; d_sheets := [] |}.

Definition paragraph (text : string) : Paragraph :=
  {| p_text := py text; p_style := VNone; p_runs := [] |}.

(** The ['change_type'] of a record, when it has one. *)
Definition change_type (rec : record) : option pystr :=
  match dict_get "change_type" rec with
  | Some (JStr s) => Some s
  | _ => None
  end.

Definition classified (rec : record) : Prop :=
  change_type rec = Some (py "added")
  ∨ change_type rec = Some (py "deleted")
  ∨ change_type rec = Some (py "modified").

(** The record has no ['change_type'] key. *)
Definition unclassified (rec : record) : Prop := dict_get "change_type" rec = None.

(** [{_annot_key(a): a for a in d['annotations']}] *)
Definition annotation_map `{Runtime} (d : Document) : dict pystr Annotation :=
  dict_comp _annot_key (d_annotations d).

(** The dictionary behind [cell.get(key, {})] for a descriptor that is not
    bound to [None]. *)
Definition descriptor_dict (f : field sdict) : sdict :=
  match f with
  | Present d => d
  | _ => []
  end.

(** The ten attributes the specification lists for a cell: the font's name,
    size, bold, italic and colour, the fill's foreground colour, and the
    border style on each side. *)
Definition cell_attributes (c : Cell) : list (string * scalar) :=
  let font := descriptor_dict (c_font c) in
  let fill := descriptor_dict (c_fill c) in
  let border := descriptor_dict (c_border c) in
  [("font_name", sget "name" font); ("font_size", sget "size" font);
   ("font_bold", sget "bold" font); ("font_italic", sget "italic" font);
   ("font_color", sget "color" font);
   ("fill_color", sget "fg_color" fill);
   ("border_left", sget "left" border); ("border_right", sget "right" border);
   ("border_top", sget "top" border); ("border_bottom", sget "bottom" border)].

(** One entry [label: old → new] for every attribute on which the two
    cells differ. *)
Definition differing_attributes `{Runtime} (oc rc : Cell) : list pystr :=
  flat_map (λ p : (string * scalar) * (string * scalar),
              if py_eqb p.1.2 p.2.2 then []
              else [attr_change (py p.1.1) p.1.2 p.2.2])
           (zip (cell_attributes oc) (cell_attributes rc)).

(** No descriptor of the cell is bound to [None]. *)
Definition cell_described (c : Cell) : Prop :=
  c_font c ≠ Null ∧ c_fill c ≠ Null ∧ c_border c ≠ Null.

Definition well_described (d : Document) : Prop :=
  Forall (λ sh, Forall (Forall cell_described) (s_cells sh)) (d_sheets d).

Definition coordinate (rec : record) : option pystr :=
  match dict_get "coordinate" rec with
  | Some (JStr s) => Some s
  | _ => None
  end.

Definition at_coordinate (coord : pystr) (recs : list record) : list record :=
  filter (λ rec, coordinate rec = Some coord) recs.

Definition cell_formatting_record (coord sheet_name : pystr) (fmt : list pystr) : record :=
  [("type", JStr (py "cell_formatting_change")); ("coordinate", JStr coord);
   ("sheet_name", JStr sheet_name); ("changes", JList (JStr <$> fmt));
   ("document_type", JStr (py "xlsx"))].

(** A list of floats that [_norm_floats] cannot read: [None], or a list
    with an entry that [float] rejects. *)
Definition unreadable `{Runtime} (v : option (list scalar)) : Prop :=
  v = None ∨ ∃ l x, v = Some l ∧ x ∈ l ∧ py_float x = None.

(** The names under ['changed_fields']. *)
Definition changed_fields (rec : record) : list pystr :=
  match dict_get "changed_fields" rec with
  | Some (JList l) => omap (λ j, match j with JStr s => Some s | _ => None end) l
  | _ => []
  end.

(** The fallback key in the words of the specification: ["AUTO-"], then
    the first 10 hex characters of the MD5 of the page number, the subtype,
    the comma-joined rect rounded to 3 decimals and the first 64 characters
    of the contents, joined by [":"]. *)
Definition spec_fallback_key `{Runtime} (page_number : Z) (subtype : pystr)
    (rect : list Q) (contents : pystr) : pystr :=
  py "AUTO-"
  ++ take 10 (md5_hexdigest
                (str_join (py ":")
                   [str_of_Z page_number; subtype;
                    str_join (py ",") ((λ x, float_repr (round3 x)) <$> rect);
                    take 64 contents])).

(** Every image of the document scores at least the threshold against
    itself. *)
Definition self_similar `{Runtime} (d : Document) : Prop :=
  Forall (λ img, Qle_bool image_similarity_threshold
                   (_compare_images (i_data img) (i_data img)) = true)
         (d_images d).

(** ** Sample documents *)

(** A word document with one image, 8 pixels by 8, given by its payload. *)
Definition docx_with_image (data : string) : Document :=
  {| d_type := Some (py "docx"); d_paragraphs := [paragraph "Hello, world"];
     d_tables := []; d_pages := []; d_annotations := []; d_sheets := [];
     d_images := [{| i_size := Some (8, 8)%Z; i_data := py data |}] |}.

(** The base64 of a PNG file, 8 by 8, of one colour. *)
Definition red_square : string :=
  "iVBORw0KGgoAAAANSUhEUgAAAAgAAAAICAIAAABLbSncAAAAEUlEQVR42mM4ISeHFTEMLQkAkL9BAc9woTwAAAAASUVORK5CYII=".

(** A highlight on page 1 that has no name. *)
Definition unnamed_highlight : Annotation :=
  {| a_id := None; a_page_number := VInt 1; a_subtype := Some (py "Highlight");
     a_rect := Some [VFloat (3 # 2); VFloat (9 # 4); VFloat 3; VFloat 4];
     a_quadpoints := None; a_contents := Some (py "hello");
     a_author := None; a_subject := None; a_color := None |}.

(** A paragraph with its style. *)
Definition styled (text style : string) : Paragraph :=
  {| p_text := py text; p_style := VStr (py style); p_runs := [] |}.

(** A font descriptor that holds ['bold'] alone. *)
Definition bold (b : bool) : field sdict := Present [("bold", VBool b)].

(** A workbook of one sheet whose one cell [A1] holds 1. *)
Definition one_cell_workbook (sheet : string) (font : field sdict) : Document :=
  {| d_type := Some (py "xlsx"); d_paragraphs := []; d_tables := []; d_images := [];
     d_pages := []; d_annotations := [];
     d_sheets :=
       [{| s_name := py sheet;
           s_cells := [[{| c_coordinate := py "A1"; c_value := VInt 1;
                           c_font := font; c_fill := Absent; c_border := Absent |}]] |}] |}.

(** ** On the word diff *)

(** A stretch of a word diff: text that both sides have, text of the new
    side alone, text of the old side alone. *)
Inductive segment :=
  | Kept (s : pystr)
  | Inserted (s : pystr)
  | Removed (s : pystr).

Definition seg_text (g : segment) : pystr :=
  match g with Kept s | Inserted s | Removed s => s end.

(** The markup [_word_diff_html] writes for a stretch. *)
Definition render (g : segment) : pystr :=
  match g with
  | Kept s => html_escape s
  | Inserted s => ins_markup (html_escape s)
  | Removed s => del_markup (html_escape s)
  end.

Definition new_text (g : segment) : pystr :=
  match g with Kept s | Inserted s => s | Removed _ => [] end.

Definition old_text (g : segment) : pystr :=
  match g with Kept s | Removed s => s | Inserted _ => [] end.

(** The stretches an opcode stands for. *)
Definition segments_of (a b : list pystr) (op : opcode) : list segment :=
  match op_tag op with
  | Equal => [Kept (concat (slice a (op_i1 op) (op_i2 op)))]
  | Insert => [Inserted (concat (slice b (op_j1 op) (op_j2 op)))]
  | Delete => [Removed (concat (slice a (op_i1 op) (op_i2 op)))]
  | Replace => [Removed (concat (slice a (op_i1 op) (op_i2 op)));
                Inserted (concat (slice b (op_j1 op) (op_j2 op)))]
  end.

(** The tokens an opcode reports as added, and as deleted. *)
Definition inserted_tokens (b : list pystr) (op : opcode) : list pystr :=
  match op_tag op with
  | Insert | Replace => slice b (op_j1 op) (op_j2 op)
  | _ => []
  end.

Definition deleted_tokens (a : list pystr) (op : opcode) : list pystr :=
  match op_tag op with
  | Delete | Replace => slice a (op_i1 op) (op_i2 op)
  | _ => []
  end.

(** The characters [<], [>], the double and the single quote. *)
Definition markup_char (c : N) : Prop :=
  c = 60%N ∨ c = 62%N ∨ c = 34%N ∨ c = 39%N.

(** The three kinds of token of [_tokenize_keep_spaces]. *)
Definition word_run `{Runtime} (t : pystr) : Prop := Forall (λ c, isword_cp c = true) t.
Definition symbol_run `{Runtime} (t : pystr) : Prop :=
  Forall (λ c, isword_cp c = false ∧ isspace_cp c = false) t.
Definition space_run `{Runtime} (t : pystr) : Prop := Forall (λ c, isspace_cp c = true) t.

(** Two tokens of one kind. *)
Definition same_kind `{Runtime} (t u : pystr) : Prop :=
  (word_run t ∧ word_run u) ∨ (symbol_run t ∧ symbol_run u) ∨ (space_run t ∧ space_run u).

(** A character that [_split_sentences] may drop: white space or a line
    feed. *)
Definition is_break `{Runtime} (c : N) : bool := isspace_cp c || bool_decide (c = 10%N).

Definition ink `{Runtime} (s : pystr) : pystr := filter (λ c, is_break c = false) s.

(** ** On PDF documents *)

(** [pages[i].get('text') or ""], and [""] for a page that is not there. *)
Definition page_text (d : Document) (i : nat) : pystr :=
  default [] (d_pages d !! i ≫= pg_text).

(** One record for every sentence of page [i]. *)
Definition page_sentences `{Runtime} (change_type : string) (d : Document) (i : nat)
    : list record :=
  (λ sent, pdf_sentence_record change_type sent i) <$> _split_sentences (page_text d i).

(** The ['page_number'] of a record. *)
Definition page_number (rec : record) : option Z :=
  match dict_get "page_number" rec with
  | Some (JInt z) => Some z
  | _ => None
  end.

(** The annotation with other ['contents']. *)
Definition with_contents (a : Annotation) (contents : option pystr) : Annotation :=
  {| a_id := a_id a; a_page_number := a_page_number a; a_subtype := a_subtype a;
     a_rect := a_rect a; a_quadpoints := a_quadpoints a; a_contents := contents;
     a_author := a_author a; a_subject := a_subject a; a_color := a_color a |}.

(** A PDF document that holds annotations only. *)
Definition pdf_annotations (l : list Annotation) : Document :=
  {| d_type := Some (py "pdf"); d_paragraphs := []; d_tables := []; d_images := [];
     d_pages := []; d_annotations := l; d_sheets := [] |}.

(** The ['id'] of an annotation record. *)
Definition annotation_id (rec : record) : option pystr :=
  match dict_get "id" rec with
  | Some (JStr s) => Some s
  | _ => None
  end.

(** ** On spreadsheets *)

Definition sheet_names (d : Document) : list pystr := s_name <$> d_sheets d.

(** The ['sheet_name'] of a record, and the records of a sheet. *)
Definition sheet_of (rec : record) : option pystr :=
  match dict_get "sheet_name" rec with
  | Some (JStr s) => Some s
  | _ => None
  end.

Definition at_sheet (name : pystr) (recs : list record) : list record :=
  filter (λ rec, sheet_of rec = Some name) recs.

Definition sheet_added_record (name : pystr) : record :=
  [("type", JStr (py "sheet_added")); ("change_type", JStr (py "added"));
   ("content", JStr (py "Sheet added: " ++ name));
   ("sheet_name", JStr name); ("document_type", JStr (py "xlsx"))].

Definition sheet_deleted_record (name : pystr) : record :=
  [("type", JStr (py "sheet_deleted")); ("change_type", JStr (py "deleted"));
   ("content", JStr (py "Sheet deleted: " ++ name));
   ("sheet_name", JStr name); ("document_type", JStr (py "xlsx"))].

Definition cell_added_record (val coord name : pystr) : record :=
  [("type", JStr (py "cell_added")); ("change_type", JStr (py "added"));
   ("content", JStr val); ("value", JStr val);
   ("coordinate", JStr coord); ("sheet_name", JStr name);
   ("document_type", JStr (py "xlsx"))].

Definition cell_deleted_record (val coord name : pystr) : record :=
  [("type", JStr (py "cell_deleted")); ("change_type", JStr (py "deleted"));
   ("content", JStr val); ("value", JStr val);
   ("coordinate", JStr coord); ("sheet_name", JStr name);
   ("document_type", JStr (py "xlsx"))].

Definition cell_modified_record (old_val new_val diff_html : pystr)
    (added deleted : list pystr) (coord name : pystr) : record :=
  [("type", JStr (py "cell_modified")); ("change_type", JStr (py "modified"));
   ("coordinate", JStr coord); ("sheet_name", JStr name);
   ("document_type", JStr (py "xlsx"));
   ("old_value", JStr old_val); ("new_value", JStr new_val);
   ("content_html", JStr diff_html);
   ("added_terms", JList (JStr <$> added));
   ("deleted_terms", JList (JStr <$> deleted))].

(** The body of the inner loop of [_detect_xlsx_text_changes], at a
    coordinate of a sheet that both workbooks have. *)
Definition xlsx_cell_change `{Runtime} (sheet_name : pystr) (ocells rcells : dict pystr Cell)
    (coord : pystr) : res (list record) :=
  match dict_get coord ocells, dict_get coord rcells with
  | None, rc =>
      Ok [cell_added_record (_to_str (from_option c_value (VStr []) rc)) coord sheet_name]
  | Some oc, None => Ok [cell_deleted_record (_to_str (c_value oc)) coord sheet_name]
  | Some oc, Some rc =>
      let old_val := _to_str (c_value oc) in
      let new_val := _to_str (c_value rc) in
      if bool_decide (old_val ≠ new_val) then
        '(diff_html, added, deleted) ← _word_diff_html old_val new_val;
        Ok [cell_modified_record old_val new_val diff_html added deleted coord sheet_name]
      else Ok []
  end.

(** The body of its outer loop, at a sheet name. *)
Definition xlsx_sheet_change `{Runtime} (original_sheets revised_sheets : list Sheet)
    (sheet_name : pystr) : res (list record) :=
  match sheet_named original_sheets sheet_name, sheet_named revised_sheets sheet_name with
  | None, _ => Ok [sheet_added_record sheet_name]
  | Some _, None => Ok [sheet_deleted_record sheet_name]
  | Some osheet, Some rsheet =>
      let ocells := cells_by_coordinate osheet in
      let rcells := cells_by_coordinate rsheet in
      for_each (remove_dups (ocells.*1 ++ rcells.*1))
               (xlsx_cell_change sheet_name ocells rcells)
  end.

(** ** On structure and images *)

(** What [_detect_structural_changes] counts in a document of type [t]:
    paragraphs, pages or sheets. *)
Definition unit_count (t : pystr) (d : Document) : nat :=
  if bool_decide (t = py "docx") then length (d_paragraphs d)
  else if bool_decide (t = py "pdf") then length (d_pages d)
  else if bool_decide (t = py "xlsx") then length (d_sheets d)
  else 0.

Definition image_content_record (i : nat) (sim : Q) : record :=
  [("type", JStr (py "image_content_change")); ("image_index", jnat i);
   ("similarity", JFloat sim); ("document_type", JStr (py "docx"))].

(** ** [app.py]: the file names the upload accepts *)

(** [s.rsplit(sep, 1)] when [sep] occurs in [s]: what precedes its last
    occurrence, and what follows it. *)
Fixpoint rsplit1 (sep : N) (s : pystr) : option (pystr * pystr) :=
  match s with
  | [] => None
  | c :: s' =>
      match rsplit1 sep s' with
      | Some (head, tail) => Some (c :: head, tail)
      | None => if bool_decide (c = sep) then Some ([], s') else None
      end
  end.

(** The code point of the dot. *)
Definition dot : N := 46.

Definition ALLOWED_EXTENSIONS : list pystr := [py "docx"; py "pdf"; py "xlsx"].

(** [allowed_file]; [lower] is [str.lower], which the interpreter
    provides.  The index [[1]] is only evaluated when the name has a dot. *)
Definition allowed_file (lower : pystr → pystr) (filename : pystr) : bool :=
  bool_decide (dot ∈ filename)
  && match rsplit1 dot filename with
     | Some (_, ext) => bool_decide (lower ext ∈ ALLOWED_EXTENSIONS)
     | None => false
     end.

(** ** More sample documents *)

(** A text of 64 characters [x] followed by [tail]. *)
Definition long_note (tail : string) : pystr := replicate 64 120%N ++ py tail.

(** A word document that holds one table. *)
Definition docx_table (rows : list (list string)) : Document :=
  {| d_type := Some (py "docx"); d_paragraphs := []; d_images := []; d_pages := [];
     d_annotations := []; d_sheets := [];
     d_tables :=
       [{| t_rows := (λ row : list string, (λ text, VStr (py text)) <$> row) <$> rows |}] |}.

(** A PDF document with the given page texts. *)
Definition pdf_pages (texts : list pystr) : Document :=
  {| d_type := Some (py "pdf"); d_paragraphs := []; d_tables := []; d_images := [];
     d_pages := (λ text, {| pg_text := Some text |}) <$> texts;
     d_annotations := []; d_sheets := [] |}.

(** ** On the token differ *)

(** What [_word_diff_html] appends to [pieces] for an opcode: the escaped
    tokens of its spans, bare for [equal], inside [<ins>] for the new
    side, inside [<del>] for the old side. *)
Definition span_markup (a b : list pystr) (op : opcode) : pystr :=
  match op_tag op with
  | Equal => escape_join (new_side a b op)
  | Insert => ins_markup (escape_join (new_side a b op))
  | Delete => del_markup (escape_join (old_side a b op))
  | Replace => del_markup (escape_join (old_side a b op))
               ++ ins_markup (escape_join (new_side a b op))
  end.

(** ** On the sides of a text record *)

(** A text field of a record. *)
Definition field_str (key : string) (rec : record) : option pystr :=
  match dict_get key rec with
  | Some (JStr s) => Some s
  | _ => None
  end.

(** The text of paragraph [i], empty for a paragraph that is not there. *)
Definition paragraph_text (d : Document) (i : nat) : pystr :=
  from_option p_text [] (d_paragraphs d !! i).

(** A record on a paragraph: [added] for a text that the revision alone
    has, [deleted] for a text of the original alone, [modified] for two
    texts that differ; a paragraph without text counts as one that is not
    there. *)
Definition docx_sided (original revised : Document) (rec : record) : Prop :=
  ∃ i : nat, paragraph_index rec = Some (Z.of_nat i)
    ∧ let ot := paragraph_text original i in
      let nt := paragraph_text revised i in
      (change_type rec = Some (py "added")
       ∧ ot = [] ∧ nt ≠ [] ∧ field_str "content" rec = Some nt)
      ∨ (change_type rec = Some (py "deleted")
         ∧ ot ≠ [] ∧ nt = [] ∧ field_str "content" rec = Some ot)
      ∨ (change_type rec = Some (py "modified")
         ∧ ot ≠ [] ∧ nt ≠ [] ∧ ot ≠ nt
         ∧ field_str "old_text" rec = Some ot ∧ field_str "new_text" rec = Some nt).

(** A record on a page: [added] carries a sentence of the revised page,
    [deleted] one of the original page, [modified] one of each. *)
Definition pdf_sided `{Runtime} (original revised : Document) (rec : record) : Prop :=
  ∃ i : nat, page_number rec = Some (Z.of_nat (i + 1))
    ∧ let a := _split_sentences (page_text original i) in
      let b := _split_sentences (page_text revised i) in
      (change_type rec = Some (py "added")
       ∧ ∃ sent, field_str "content" rec = Some sent ∧ sent ∈ b)
      ∨ (change_type rec = Some (py "deleted")
         ∧ ∃ sent, field_str "content" rec = Some sent ∧ sent ∈ a)
      ∨ (change_type rec = Some (py "modified")
         ∧ ∃ s_old s_new, field_str "old_text" rec = Some s_old
                          ∧ field_str "new_text" rec = Some s_new
                          ∧ s_old ∈ a ∧ s_new ∈ b).

(** A record on a sheet, for a name that one workbook alone has, or on a
    cell of a sheet that both have: [added] for a coordinate of the revised
    sheet alone, [deleted] for one of the original sheet alone, [modified]
    for one of both whose values read differently. *)
Definition xlsx_sided `{Runtime} (original revised : Document) (rec : record) : Prop :=
  ∃ name, sheet_of rec = Some name
    ∧ ((change_type rec = Some (py "added") ∧ coordinate rec = None
        ∧ name ∈ sheet_names revised ∧ name ∉ sheet_names original)
       ∨ (change_type rec = Some (py "deleted") ∧ coordinate rec = None
          ∧ name ∈ sheet_names original ∧ name ∉ sheet_names revised)
       ∨ ∃ osheet rsheet coord,
           sheet_named (d_sheets original) name = Some osheet
           ∧ sheet_named (d_sheets revised) name = Some rsheet
           ∧ coordinate rec = Some coord
           ∧ let oc := dict_get coord (cells_by_coordinate osheet) in
             let rc := dict_get coord (cells_by_coordinate rsheet) in
             (change_type rec = Some (py "added") ∧ oc = None ∧ is_Some rc)
             ∨ (change_type rec = Some (py "deleted") ∧ is_Some oc ∧ rc = None)
             ∨ (change_type rec = Some (py "modified")
                ∧ ∃ ocell rcell, oc = Some ocell ∧ rc = Some rcell
                    ∧ _to_str (c_value ocell) ≠ _to_str (c_value rcell)
                    ∧ field_str "old_value" rec = Some (_to_str (c_value ocell))
                    ∧ field_str "new_value" rec = Some (_to_str (c_value rcell)))).

Definition text_sided `{Runtime} (original revised : Document) (rec : record) : Prop :=
  docx_sided original revised rec
  ∨ pdf_sided original revised rec
  ∨ xlsx_sided original revised rec.

(** A record on an annotation: [added] for a key of the revision alone,
    [deleted] for a key of the original alone, [modified] for a key of
    both whose annotations differ. *)
Definition annotation_sided `{Runtime} (original revised : Document) (rec : record) : Prop :=
  (∃ k a, dict_get k (annotation_map revised) = Some a
          ∧ dict_get k (annotation_map original) = None
          ∧ rec = annotation_record "added" k a
          ∧ change_type rec = Some (py "added"))
  ∨ (∃ k a, dict_get k (annotation_map original) = Some a
            ∧ dict_get k (annotation_map revised) = None
            ∧ rec = annotation_record "deleted" k a
            ∧ change_type rec = Some (py "deleted"))
  ∨ (∃ k ao ar, dict_get k (annotation_map original) = Some ao
                ∧ dict_get k (annotation_map revised) = Some ar
                ∧ annotation_diffs ao ar ≠ []
                ∧ change_type rec = Some (py "modified")).

(** ** On what the interpreter refuses

    Three paths of the interpreter have no counterpart in the definitions
    above: [str.encode] raises [UnicodeEncodeError] on a surrogate code
    point, [str] raises [ValueError] on an [int] of more than 4300 digits
    (CPython from 3.11 on), and [float] reads some strings as [nan], a
    value that no rational denotes and that differs from itself.  The
    predicates below describe the documents that stay clear of these
    paths; the statements that depend on it assume them. *)

Definition surrogate (c : N) : Prop := (55296 ≤ c ≤ 57343)%N.

(** A text that [encode('utf-8')] accepts. *)
Definition encodable (s : pystr) : Prop := Forall (λ c, ¬ surrogate c) s.

(** A value that [str] writes out. *)
Definition printable (v : scalar) : Prop :=
  match v with
  | VInt z => (Z.abs z < 10 ^ 4300)%Z
  | _ => True
  end.

(** An annotation whose key [_annot_key] can compute: it has a name, or
    the page number, the subtype and the first 64 characters of the
    contents, of which the key is a digest, can be written and encoded. *)
Definition keyed (a : Annotation) : Prop :=
  default [] (a_id a) ≠ []
  ∨ (printable (a_page_number a)
     ∧ encodable (match a_page_number a with VStr s => s | _ => [] end)
     ∧ encodable (default [] (a_subtype a))
     ∧ encodable (take 64 (default [] (a_contents a)))).

(** An entry of ['rect'], ['quadpoints'] or ['color'] that is not a string:
    [None], a [bool], an [int] or a float. *)
Definition not_text (x : scalar) : Prop :=
  match x with
  | VStr _ => False
  | _ => True
  end.

(** The three lists of floats of an annotation hold no string. *)
Definition measured (a : Annotation) : Prop :=
  Forall not_text (default [] (a_rect a))
  ∧ Forall not_text (default [] (a_quadpoints a))
  ∧ Forall not_text (default [] (a_color a)).

(** Every cell value can be written out, as [_to_str] does. *)
Definition cell_values_printable (d : Document) : Prop :=
  Forall (λ sh, Forall (Forall (λ c, printable (c_value c))) (s_cells sh)) (d_sheets d).

Definition printable_attributes (f : field sdict) : Prop :=
  Forall (λ kv : string * scalar, printable kv.2) (descriptor_dict f).

(** Every attribute of a run and of a cell can be written out, as the
    entries [label: old → new] need it. *)
Definition attributes_printable (d : Document) : Prop :=
  Forall (λ p, Forall (Forall (λ kv : string * scalar, printable kv.2)) (p_runs p))
         (d_paragraphs d)
  ∧ Forall (λ sh, Forall (Forall (λ c, printable_attributes (c_font c)
                                       ∧ printable_attributes (c_fill c)
                                       ∧ printable_attributes (c_border c)))
                         (s_cells sh))
           (d_sheets d).

(** A document that [detect_changes] can write out and encode. *)
Definition writable (d : Document) : Prop :=
  Forall keyed (d_annotations d) ∧ cell_values_printable d ∧ attributes_printable d.

(** ** Sample annotations *)

(** A note on page 1 with a name. *)
Definition note (name contents : string) : Annotation :=
  {| a_id := Some (py name); a_page_number := VInt 1; a_subtype := Some (py "Text");
     a_rect := Some [VFloat 10; VFloat 20; VFloat 30; VFloat 40];
     a_quadpoints := None; a_contents := Some (py contents);
     a_author := None; a_subject := None; a_color := None |}.

(** A PDF document with page texts and annotations. *)
Definition pdf_document (texts : list string) (annotations : list Annotation) : Document :=
  {| d_type := Some (py "pdf"); d_paragraphs := []; d_tables := []; d_images := [];
     d_pages := (λ text, {| pg_text := Some (py text) |}) <$> texts;
     d_annotations := annotations; d_sheets := [] |}.

(** * Facts about the matcher *)

Section matcher_facts.
Context {A : Type} `{Countable A}.
Implicit Types a b : list A.
Implicit Types m : block.

Lemma imap_pair_snoc b (y : A) :
  imap pair (b ++ [y]) = imap pair b ++ [(length b, y)].
Proof. rewrite imap_app. simpl. by rewrite Nat.add_0_r. Qed.

Lemma indices_of_snoc x b y :
  indices_of x (b ++ [y]) = indices_of x b ++ (if decide (y = x) then [length b] else []).
Proof.
  unfold indices_of. rewrite imap_pair_snoc, filter_app, fmap_app.
  f_equal. rewrite filter_cons. simpl. by destruct (decide (y = x)).
Qed.

Lemma b2j_fill_snoc b y :
  b2j_fill (b ++ [y]) = <[y := default [] (b2j_fill b !! y) ++ [length b]]> (b2j_fill b).
Proof. unfold b2j_fill. by rewrite imap_pair_snoc, foldl_snoc. Qed.

Lemma b2j_fill_lookup b x :
  b2j_fill b !! x = if decide (indices_of x b = []) then None else Some (indices_of x b).
Proof.
  induction b as [|y b IH] using rev_ind.
  - done.
  - rewrite b2j_fill_snoc, indices_of_snoc.
    destruct (decide (y = x)) as [->|Hne].
    + rewrite lookup_insert_eq, IH.
      destruct (decide (indices_of x b = [])) as [->|?]; simpl.
      * done.
      * destruct (decide (indices_of x b ++ [length b] = [])) as [E|?]; [|done].
        by destruct (indices_of x b).
    + rewrite lookup_insert_ne by done. by rewrite app_nil_r.
Qed.

Lemma elem_of_indices_of x b j : j ∈ indices_of x b ↔ b !! j = Some x.
Proof.
  unfold indices_of. rewrite list_elem_of_fmap. split.
  - intros [[j' y] [-> [Hy Hin]%list_elem_of_filter]]. simpl in *. subst y.
    apply list_elem_of_lookup in Hin as [i Hi].
    rewrite list_lookup_imap in Hi.
    destruct (b !! i) eqn:E; simplify_eq/=. done.
  - intros Hj. exists (j, x). split; [done|].
    apply list_elem_of_filter. split; [done|].
    apply list_elem_of_lookup. exists j. by rewrite list_lookup_imap, Hj.
Qed.

Lemma indices_of_sorted x b : StronglySorted lt (indices_of x b).
Proof.
  induction b as [|y b IH] using rev_ind.
  - constructor.
  - rewrite indices_of_snoc.
    destruct (decide (y = x)); [|by rewrite app_nil_r].
    apply StronglySorted_app_2; [|done|repeat constructor].
    intros j1 j2 Hj1 ->%list_elem_of_singleton.
    apply elem_of_indices_of, lookup_lt_Some in Hj1. done.
Qed.

Lemma chain_b_sub b x js : chain_b b !! x = Some js → b2j_fill b !! x = Some js.
Proof.
  unfold chain_b. case_bool_decide; [|done].
  by intros [? _]%map_lookup_filter_Some.
Qed.

Lemma chain_b_indices b x js : chain_b b !! x = Some js → js = indices_of x b.
Proof.
  intros Hx%chain_b_sub. rewrite b2j_fill_lookup in Hx.
  by destruct (decide _); simplify_eq.
Qed.

Lemma chain_b_sound b : b2j_sound (chain_b b) b.
Proof.
  intros x js j ->%chain_b_indices Hj. by apply elem_of_indices_of.
Qed.


#[local] Arguments is_match : simpl never.

Lemma is_match_eq a b i j k i' j' k' :
  is_match a b (i, j, k) → i = i' → j = j' → k = k' → is_match a b (i', j', k').
Proof. by intros ? <- <- <-. Qed.

Lemma is_match_snoc a b i j k x :
  is_match a b (i, j, k) →
  a !! (i + k) = Some x → b !! (j + k) = Some x →
  is_match a b (i, j, k + 1).
Proof.
  intros Hm Ha Hb d Hd. destruct (decide (d = k)) as [->|]; [eauto|].
  apply Hm. lia.
Qed.

Lemma is_match_cons a b i j k x :
  is_match a b (S i, S j, k) →
  a !! i = Some x → b !! j = Some x →
  is_match a b (i, j, k + 1).
Proof.
  intros Hm Ha Hb [|d] Hd.
  - rewrite !Nat.add_0_r. eauto.
  - destruct (Hm d) as (y & ? & ?); [lia|].
    exists y. by rewrite <-!Nat.add_succ_comm.
Qed.

Lemma j2len_get_pred_ok a b alo blo bhi e j2len j x :
  j2len_ok a b alo blo bhi e j2len →
  alo ≤ e → blo ≤ j → j < bhi →
  a !! e = Some x → b !! j = Some x →
  let k := j2len_get_pred j2len j + 1 in
  alo + k ≤ e + 1 ∧ blo + k ≤ j + 1 ∧ is_match a b (e + 1 - k, j + 1 - k, k).
Proof.
  intros Hok Hae Hbj Hjb Ha Hb. simpl.
  assert (Hone : ∀ i' j', i' = e → j' = j → is_match a b (i', j', 1)).
  { intros i' j' -> -> d Hd. assert (d = 0) as -> by lia.
    exists x. by rewrite !Nat.add_0_r. }
  destruct j as [|j']; simpl.
  { split_and!; [lia|lia|apply Hone; lia]. }
  destruct (j2len !! j') as [k|] eqn:Hk; simpl; [|split_and!; [lia|lia|apply Hone; lia]].
  destruct (Hok _ _ Hk) as (Hk1 & Hk2 & Hk3 & _ & Hm).
  split_and!; [lia|lia|].
  eapply is_match_eq; [apply (is_match_snoc a b (e - k) (j' + 1 - k) k x); [done|..]|lia..].
  - by replace (e - k + k) with e by lia.
  - by replace (j' + 1 - k + k) with (S j') by lia.
Qed.

Lemma flm_row_good a b alo ahi blo bhi i x j2len js newj2len best :
  alo ≤ i → i < ahi →
  a !! i = Some x →
  (∀ j, j ∈ js → b !! j = Some x) →
  j2len_ok a b alo blo bhi i j2len →
  j2len_ok a b alo blo bhi (i + 1) newj2len →
  good_match a b alo ahi blo bhi best →
  j2len_ok a b alo blo bhi (i + 1) (flm_row i blo bhi j2len js newj2len best).1
  ∧ good_match a b alo ahi blo bhi (flm_row i blo bhi j2len js newj2len best).2.
Proof.
  intros Hlo Hhi Ha Hjs Hold.
  revert newj2len best. induction js as [|j js IH]; intros newj2len best Hnew Hbest.
  - done.
  - simpl. case_bool_decide; [apply IH; [intros; apply Hjs; by right|done..]|].
    case_bool_decide; [done|].
    assert (Hb : b !! j = Some x) by (apply Hjs; by left).
    destruct (j2len_get_pred_ok a b alo blo bhi i j2len j x) as (Hk1 & Hk2 & Hm);
      [done|done|lia|lia|done|done|].
    apply IH; [intros; apply Hjs; by right| |].
    + intros j0 k0. destruct (decide (j = j0)) as [->|].
      * rewrite lookup_insert_eq. intros [= <-]. split_and!; [lia|lia|lia|lia|done].
      * rewrite lookup_insert_ne by done. apply Hnew.
    + case_bool_decide; [|done].
      split; [|done]. simpl. lia.
Qed.

Lemma j2len_ok_empty a b alo blo bhi e : j2len_ok a b alo blo bhi e ∅.
Proof. intros j k. by rewrite lookup_empty. Qed.

Lemma flm_rows_good a b b2j alo ahi blo bhi i n j2len best :
  b2j_sound b2j b →
  alo ≤ i → i + n = ahi → ahi ≤ length a →
  j2len_ok a b alo blo bhi i j2len →
  good_match a b alo ahi blo bhi best →
  good_match a b alo ahi blo bhi (flm_rows a b2j blo bhi (seq i n) j2len best).
Proof.
  intros Hb2j. revert i j2len best.
  induction n as [|n IH]; intros i j2len best Hlo Hn Hla Hj Hbest; [done|].
  simpl.
  destruct (lookup_lt_is_Some_2 a i) as [x Hx]; [lia|]. rewrite Hx.
  pose proof (flm_row_good a b alo ahi blo bhi i x j2len (default [] (b2j !! x)) ∅ best)
    as Hrow.
  destruct (flm_row i blo bhi j2len (default [] (b2j !! x)) ∅ best) as [newj2len best'].
  destruct Hrow as [Hn1 Hn2]; [lia|lia|done| |done|apply j2len_ok_empty|done|].
  { intros j Hj'. destruct (b2j !! x) as [js|] eqn:E; simpl in Hj'; [|by apply elem_of_nil in Hj'].
    by eapply Hb2j. }
  simpl in *. apply IH; [lia|lia|done| |done].
  by replace (S i) with (i + 1) by lia.
Qed.

Lemma extend_down_good cond a b alo ahi blo bhi besti bestj bestsize :
  good_match a b alo ahi blo bhi (besti, bestj, bestsize) →
  good_match a b alo ahi blo bhi (extend_down cond a b alo blo besti bestj bestsize).
Proof.
  revert bestj bestsize. induction besti as [|i' IH]; intros bestj bestsize Hg; [done|].
  destruct bestj as [|j']; [done|]. simpl.
  destruct (a !! i') as [x|] eqn:Ha; [|done].
  destruct (b !! j') as [y|] eqn:Hb; [|done].
  destruct (_ && _) eqn:Hc; [|done].
  apply andb_prop in Hc as [[[Hc1 Hc2]%andb_prop _]%andb_prop Hc4].
  apply bool_decide_eq_true in Hc1, Hc2, Hc4. subst y.
  destruct Hg as [Hbox Hm]. apply IH. split.
  - simpl in *. lia.
  - by apply (is_match_cons _ _ _ _ _ x).
Qed.

Lemma extend_up_good cond a b alo ahi blo bhi besti bestj bestsize n :
  good_match a b alo ahi blo bhi (besti, bestj, bestsize) →
  good_match a b alo ahi blo bhi (extend_up cond a b ahi bhi besti bestj bestsize n).
Proof.
  revert bestsize. induction n as [|n IH]; intros bestsize Hg; [done|]. simpl.
  destruct (a !! (besti + bestsize)) as [x|] eqn:Ha; [|done].
  destruct (b !! (bestj + bestsize)) as [y|] eqn:Hb; [|done].
  destruct (_ && _) eqn:Hc; [|done].
  apply andb_prop in Hc as [[[Hc1 Hc2]%andb_prop _]%andb_prop Hc4].
  apply bool_decide_eq_true in Hc1, Hc2, Hc4. subst y.
  destruct Hg as [Hbox Hm]. apply IH. split.
  - simpl in *. lia.
  - by apply (is_match_snoc _ _ _ _ _ x).
Qed.

Lemma extend_good cond a b alo ahi blo bhi m :
  good_match a b alo ahi blo bhi m →
  good_match a b alo ahi blo bhi (extend cond a b alo ahi blo bhi m).
Proof.
  intros Hg. unfold extend. destruct m as [[besti bestj] bestsize].
  pose proof (extend_down_good cond a b alo ahi blo bhi besti bestj bestsize Hg) as Hd.
  destruct (extend_down cond a b alo blo besti bestj bestsize) as [[i j] k].
  by apply extend_up_good.
Qed.

Lemma find_longest_match_good a b b2j alo ahi blo bhi :
  b2j_sound b2j b →
  alo ≤ ahi → ahi ≤ length a → blo ≤ bhi →
  good_match a b alo ahi blo bhi (find_longest_match a b b2j alo ahi blo bhi).
Proof.
  intros Hb2j Ha Hla Hb. unfold find_longest_match.
  do 2 apply extend_good.
  apply flm_rows_good; [done|lia|lia|done|apply j2len_ok_empty|].
  split; [simpl; lia|]. intros d Hd. lia.
Qed.

(** *** The work list of [get_matching_blocks] *)

Lemma pairwise_app {X} (R : relation X) l1 l2 :
  pairwise R (l1 ++ l2) ↔
  pairwise R l1 ∧ pairwise R l2 ∧ ∀ x y, x ∈ l1 → y ∈ l2 → R x y.
Proof.
  induction l1 as [|x l1 IH]; simpl.
  - split; [intros ?; split_and!; [done|done|]|tauto].
    intros ?? []%elem_of_nil.
  - rewrite Forall_app, IH. split.
    + intros [[H1 H2] (H3 & H4 & H5)]. split_and!; [done..|].
      intros x' y [->|?]%elem_of_cons Hy; [|by apply H5].
      by eapply Forall_forall in H2.
    + intros ([H1 H2] & H3 & H4). split_and!; [done| |done|done|].
      * apply Forall_forall. intros y Hy. apply H4; [by left|done].
      * intros x' y ??. apply H4; [by right|done].
Qed.

Lemma pairwise_submseteq {X} (R : relation X) `{!Symmetric R} l1 l2 :
  pairwise R l2 → l1 ⊆+ l2 → pairwise R l1.
Proof.
  intros Hp Hsub. revert Hp.
  induction Hsub as [|x l1 l2 Hsub IH|x y l|x l1 l2 Hsub IH|l1 l2 l3 _ IH1 _ IH2]; simpl.
  - done.
  - intros [H1 H2]. split; [|by apply IH].
    apply Forall_forall. intros y Hy. eapply Forall_forall in H1; [done|].
    by eapply elem_of_submseteq.
  - intros [[H1 H2]%Forall_cons [H3 H4]]. split_and!; [|done..].
    constructor; [done|done].
  - intros [_ H2]. by apply IH.
  - auto.
Qed.

#[local] Instance apart_sym : Symmetric apart.
Proof. intros X Y [?|?]; [by right|by left]. Qed.

Lemma apart_sub_box W Q X : apart W Q → sub_box Q X → apart W X.
Proof.
  destruct W as [[[??]?]?], Q as [[[??]?]?], X as [[[??]?]?].
  unfold apart, before, sub_box. lia.
Qed.

Lemma pairwise_replace (l1 l2 subs : list box) Q :
  pairwise apart (l1 ++ Q :: l2) →
  pairwise apart subs →
  Forall (sub_box Q) subs →
  pairwise apart (l1 ++ subs ++ l2).
Proof.
  intros (H1 & [H2 H3] & H4)%pairwise_app Hsubs Hin.
  apply pairwise_app. split_and!; [done| |].
  - apply pairwise_app. split_and!; [done|done|].
    intros x y Hx Hy. symmetry. eapply apart_sub_box; [|by eapply Forall_forall in Hin].
    symmetry. by eapply Forall_forall in H2.
  - intros x y Hx [Hy|Hy]%elem_of_app.
    + eapply apart_sub_box; [|by eapply Forall_forall in Hin].
      apply H4; [done|by left].
    + apply H4; [done|by right].
Qed.

Lemma weight_cons alo ahi blo bhi queue :
  weight ((alo, ahi, blo, bhi) :: queue) = 2 * (ahi - alo) + 1 + weight queue.
Proof. done. Qed.

Lemma gmb_loop_spec a b b2j fuel queue blocks :
  b2j_sound b2j b →
  gmb_inv a b queue blocks →
  weight queue ≤ fuel →
  ∃ res, gmb_loop fuel a b b2j queue blocks = Some res ∧ gmb_inv a b [] res.
Proof.
  intros Hb2j. revert queue blocks.
  induction fuel as [|fuel IH]; intros queue blocks Hinv Hw.
  - destruct queue as [|[[[alo ahi] blo] bhi] queue]; [by eexists|].
    rewrite weight_cons in Hw. lia.
  - destruct queue as [|[[[alo ahi] blo] bhi] queue]; [by eexists|].
    destruct Hinv as (Hpw & Hbl & [Hreg Hq]%Forall_cons).
    simpl.
    destruct Hreg as (? & ? & ? & ?).
    assert (Hg : good_match a b alo ahi blo bhi (find_longest_match a b b2j alo ahi blo bhi)).
    { apply find_longest_match_good; [done|lia..]. }
    destruct (find_longest_match a b b2j alo ahi blo bhi) as [[i j] k].
    destruct Hg as [Hbox Hm]. simpl in Hbox.
    rewrite weight_cons in Hw.
    case_bool_decide as Hk; cycle 1.
    { apply IH; [|lia]. split_and!; [|done|done].
      eapply pairwise_submseteq; [apply _|exact Hpw|].
      apply submseteq_app; [done|]. by apply submseteq_cons. }
    set (Z := (i, j, k)).
    set (Q1 := (alo, i, blo, j)). set (Q2 := (i + k, ahi, j + k, bhi)).
    assert (Hbig : pairwise apart ((bbox <$> blocks) ++ [bbox Z; Q2; Q1] ++ queue)).
    { eapply pairwise_replace; [exact Hpw| |].
      - simpl. unfold apart, before. repeat constructor; lia.
      - repeat constructor; simpl; lia. }
    assert (HZ : block_ok a b Z).
    { split; [done|]. split; [simpl; lia|done]. }
    assert (HQ1 : region_ok a b Q1) by (simpl; lia).
    assert (HQ2 : region_ok a b Q2) by (simpl; lia).
    apply IH.
    + split_and!.
      * eapply pairwise_submseteq; [apply _|exact Hbig|].
        rewrite fmap_app, <-app_assoc. simpl.
        apply submseteq_app; [done|]. apply submseteq_skip.
        destruct (bool_decide (alo < i) && bool_decide (blo < j)) eqn:E1,
          (bool_decide (i + k < ahi) && bool_decide (j + k < bhi)) eqn:E2;
          repeat first [done|apply submseteq_skip|apply submseteq_cons].
      * apply Forall_app_2; [done|by constructor].
      * destruct (bool_decide (alo < i) && bool_decide (blo < j)) eqn:E1,
          (bool_decide (i + k < ahi) && bool_decide (j + k < bhi)) eqn:E2; repeat apply Forall_cons_2; done.
    + subst Z Q1 Q2.
      destruct (bool_decide (alo < i) && bool_decide (blo < j)) eqn:E1,
          (bool_decide (i + k < ahi) && bool_decide (j + k < bhi)) eqn:E2;
        rewrite ?weight_cons; lia.
Qed.

(** *** Sorting and collapsing the blocks *)

#[local] Instance block_le_trans : Transitive block_le.
Proof. intros [[??]?] [[??]?] [[??]?]; unfold block_le; lia. Qed.

#[local] Instance block_le_total : Total block_le.
Proof. intros [[??]?] [[??]?]; unfold block_le; lia. Qed.

Lemma cend_cons i j ai bj k l : cend i j ((ai, bj, k) :: l) = cend (ai + k) (bj + k) l.
Proof. done. Qed.

Lemma chain_app i j l1 l2 :
  chain i j (l1 ++ l2) ↔ chain i j l1 ∧ chain (cend i j l1).1 (cend i j l1).2 l2.
Proof.
  revert i j. induction l1 as [|[[ai bj] k] l1 IH]; intros i j; simpl.
  - tauto.
  - rewrite IH, cend_cons. tauto.
Qed.

Lemma chain_mono i j i' j' l : i' ≤ i → j' ≤ j → chain i j l → chain i' j' l.
Proof. destruct l as [|[[??]?] l]; simpl; [done|]. intros ?? (? & ? & ?). split_and!; [lia|lia|done]. Qed.

Lemma chain_delete_middle i j l1 m l2 :
  chain i j (l1 ++ m :: l2) → chain i j (l1 ++ l2).
Proof.
  rewrite !chain_app. destruct m as [[ai bj] k]. simpl.
  intros (? & ? & ? & ?). split; [done|]. eapply chain_mono; [| |done]; lia.
Qed.

Lemma chain_merge i j l1 i1 j1 k1 k2 l2 :
  chain i j (l1 ++ (i1, j1, k1) :: (i1 + k1, j1 + k1, k2) :: l2) →
  chain i j (l1 ++ (i1, j1, k1 + k2) :: l2).
Proof.
  rewrite !chain_app. simpl. rewrite !Nat.add_assoc. tauto.
Qed.

Lemma sorted_chain i j (l : list block) :
  StronglySorted block_le l →
  pairwise apart (bbox <$> l) →
  Forall (λ m, m.2 ≠ 0) l →
  Forall (λ m, i ≤ m.1.1 ∧ j ≤ m.1.2) l →
  chain i j l.
Proof.
  intros Hs. revert i j. induction Hs as [|[[ai bj] k] l Hs IH Hle]; intros i j; [done|].
  simpl. intros [Hap Hpw] [Hk Hks]%Forall_cons [[??] _]%Forall_cons. simpl in *.
  split_and!; [done..|]. apply IH; [done..|].
  apply Forall_forall. intros [[ai' bj'] k'] Hin.
  eapply Forall_forall in Hle; [|done].
  eapply Forall_forall in Hks; [|done].
  eapply Forall_forall in Hap; [|by apply (list_elem_of_fmap_2 bbox)].
  unfold apart, before, block_le in *. simpl in *. lia.
Qed.

Lemma is_match_merge a b i j k1 k2 :
  is_match a b (i, j, k1) → is_match a b (i + k1, j + k1, k2) →
  is_match a b (i, j, k1 + k2).
Proof.
  intros H1 H2 d Hd. destruct (decide (d < k1)); [by apply H1|].
  destruct (H2 (d - k1)) as (x & ? & ?); [lia|].
  exists x. by replace (i + d) with (i + k1 + (d - k1)) by lia;
    replace (j + d) with (j + k1 + (d - k1)) by lia.
Qed.

Lemma collapse_spec a b la lb blocks cur acc :
  chain 0 0 (acc ++ cur :: blocks) →
  Forall (good_match a b 0 la 0 lb) (acc ++ cur :: blocks) →
  chain 0 0 (collapse blocks cur acc)
  ∧ Forall (good_match a b 0 la 0 lb) (collapse blocks cur acc).
Proof.
  revert cur acc.
  induction blocks as [|[[i2 j2] k2] blocks IH]; intros [[i1 j1] k1] acc Hc Hg; simpl.
  - case_bool_decide; [done|]. split.
    + apply chain_delete_middle in Hc. by rewrite app_nil_r in *.
    + apply Forall_app in Hg as [? _]. done.
  - destruct (_ && _) eqn:Hadj.
    + apply andb_prop in Hadj as [<-%bool_decide_eq_true <-%bool_decide_eq_true].
      apply IH.
      * by apply chain_merge.
      * apply Forall_app in Hg as [? [[Hb1 Hm1] [[Hb2 Hm2] ?]%Forall_cons]%Forall_cons].
        apply Forall_app_2; [done|]. constructor; [|done].
        split; [simpl in *; lia|by apply is_match_merge].
    + apply IH; destruct (bool_decide (k1 ≠ 0)).
      * by rewrite <-app_assoc.
      * by apply chain_delete_middle in Hc.
      * by rewrite <-app_assoc.
      * apply Forall_app in Hg as [? [_ ?]%Forall_cons]. by apply Forall_app_2.
Qed.

Lemma cend_snoc i j l ai bj k : cend i j (l ++ [(ai, bj, k)]) = (ai + k, bj + k).
Proof. unfold cend. by rewrite foldl_snoc. Qed.

Lemma cend_in_box i j la lb l :
  Forall (in_box 0 la 0 lb) l → i ≤ la → j ≤ lb →
  (cend i j l).1 ≤ la ∧ (cend i j l).2 ≤ lb.
Proof.
  destruct l as [|m l _] using rev_ind; [done|]. destruct m as [[ai bj] k].
  intros [_ [Hm _]%Forall_cons]%Forall_app ??. rewrite cend_snoc. simpl in *. lia.
Qed.

(** *** From blocks to opcodes *)

Lemma opcodes_loop_acc blocks i j answer :
  opcodes_loop blocks i j answer = answer ++ opcodes_loop blocks i j [].
Proof.
  revert i j answer.
  induction blocks as [|[[ai bj] size] blocks IH]; intros i j answer; simpl.
  - by rewrite app_nil_r.
  - rewrite IH. symmetry. rewrite IH. symmetry.
    rewrite app_assoc. f_equal.
    repeat case_bool_decide; simpl; by rewrite <-?app_assoc, ?app_nil_r.
Qed.

Lemma slice_nil {X} (l : list X) i j : j ≤ i → slice l i j = [].
Proof. intros. unfold slice. by replace (j - i) with 0 by lia. Qed.

Lemma slice_app {X} (l : list X) (i p n : nat) :
  i ≤ p → p ≤ n → slice l i p ++ slice l p n = slice l i n.
Proof.
  intros. unfold slice.
  replace (drop p l) with (drop (p - i) (drop i l)) by (rewrite drop_drop; f_equal; lia).
  rewrite take_take_drop. f_equal. lia.
Qed.

Lemma slice_all {X} (l : list X) : slice l 0 (length l) = l.
Proof. unfold slice. rewrite Nat.sub_0_r. simpl. by rewrite firstn_all. Qed.

Lemma is_match_slice a b i j k :
  is_match a b (i, j, k) → slice a i (i + k) = slice b j (j + k).
Proof.
  intros Hm. unfold slice. apply list_eq. intros d.
  replace (i + k - i) with k by lia. replace (j + k - j) with k by lia.
  destruct (decide (d < k)).
  - rewrite !lookup_take_lt, !lookup_drop by done.
    destruct (Hm d) as (x & -> & ->); done.
  - by rewrite !lookup_take_ge by lia.
Qed.

Lemma opcodes_loop_spec a b blocks i j :
  chain i j blocks →
  Forall (is_match a b) blocks →
  let ops := opcodes_loop blocks i j [] in
  flat_map (a_span a) ops = slice a i (cend i j blocks).1
  ∧ flat_map (b_span b) ops = slice b j (cend i j blocks).2
  ∧ Forall (opcode_ok a b) ops.
Proof.
  revert i j. induction blocks as [|[[ai bj] size] blocks IH]; intros i j Hc Hm; simpl.
  - by rewrite !slice_nil.
  - destruct Hc as (Hi & Hj & Hc). apply Forall_cons in Hm as [Hm Hms].
    destruct (IH _ _ Hc Hms) as (IHa & IHb & IHok).
    rewrite opcodes_loop_acc, !flat_map_app, IHa, IHb, cend_cons.
    assert (ai + size ≤ (cend (ai + size) (bj + size) blocks).1
            ∧ bj + size ≤ (cend (ai + size) (bj + size) blocks).2) as [Hea Heb].
    { clear -Hc. revert Hc. generalize (ai + size) (bj + size).
      induction blocks as [|[[x y] k] blocks IH]; intros i j; simpl; [done|].
      intros (? & ? & Hc). rewrite cend_cons. specialize (IH _ _ Hc). lia. }
    rewrite <-(slice_app a i (ai + size)) by lia.
    rewrite <-(slice_app b j (bj + size)) by lia.
    rewrite <-(slice_app a i ai (ai + size)) by lia.
    rewrite <-(slice_app b j bj (bj + size)) by lia.
    apply is_match_slice in Hm as Hsl.
    split_and!.
    + f_equal. repeat case_bool_decide; simpl; unfold a_span; simpl;
        rewrite ?(slice_nil a i ai), ?(slice_nil a ai (ai + size)) by lia;
        by rewrite ?app_nil_r.
    + f_equal. repeat case_bool_decide; simpl; unfold b_span; simpl;
        rewrite ?(slice_nil b j bj), ?(slice_nil b bj (bj + size)) by lia;
        by rewrite ?app_nil_r.
    + apply Forall_app_2; [|done].
      repeat case_bool_decide; simpl; repeat constructor; unfold opcode_ok; simpl; try done; lia.
Qed.

(** [get_matching_blocks] returns, and its blocks are matches in increasing
    order closed by the sentinel. *)
Lemma get_matching_blocks_spec a b :
  ∃ blocks, get_matching_blocks a b = Some blocks
    ∧ chain 0 0 blocks
    ∧ Forall (is_match a b) blocks
    ∧ cend 0 0 blocks = (length a, length b).
Proof.
  unfold get_matching_blocks.
  destruct (gmb_loop_spec a b (chain_b b) (gmb_fuel a) [(0, length a, 0, length b)] [])
    as (res & -> & Hpw & Hok & _).
  { apply chain_b_sound. }
  { split_and!; [by repeat constructor| constructor |repeat constructor; simpl; lia]. }
  { rewrite weight_cons. unfold gmb_fuel, weight. simpl. lia. }
  simpl. eexists. split; [done|].
  rewrite app_nil_r in Hpw.
  set (sorted := merge_sort block_le res).
  assert (Hperm : sorted ≡ₚ res) by apply merge_sort_Permutation.
  assert (Hsc : chain 0 0 sorted).
  { apply sorted_chain.
    - by apply StronglySorted_merge_sort; apply _.
    - eapply pairwise_submseteq; [apply _|exact Hpw|]. by rewrite Hperm.
    - rewrite Hperm. eapply Forall_impl; [exact Hok|]. by intros ? [? _].
    - apply Forall_forall. intros [[??]?] _. simpl. lia. }
  assert (Hsg : Forall (good_match a b 0 (length a) 0 (length b)) sorted).
  { rewrite Hperm. eapply Forall_impl; [exact Hok|]. by intros ? [_ ?]. }
  destruct (collapse_spec a b (length a) (length b) sorted (0, 0, 0) []) as [Hcc Hcg].
  { simpl. split_and!; [lia|lia|done]. }
  { constructor; [|done]. split; [simpl; lia|]. intros d ?. lia. }
  split_and!.
  - apply chain_app. split; [done|]. simpl.
    destruct (cend_in_box 0 0 (length a) (length b) (collapse sorted (0, 0, 0) [])).
    + eapply Forall_impl; [exact Hcg|]. by intros ? [? _].
    + lia.
    + lia.
    + lia.
  - apply Forall_app_2.
    + eapply Forall_impl; [exact Hcg|]. by intros ? [_ ?].
    + constructor; [|done]. intros d ?. lia.
  - by rewrite cend_snoc, !Nat.add_0_r.
Qed.

(** [get_opcodes] returns, and its opcodes cut both sequences into
    consecutive spans. *)
Lemma get_opcodes_spec a b :
  ∃ ops, get_opcodes a b = Some ops
    ∧ flat_map (a_span a) ops = a
    ∧ flat_map (b_span b) ops = b
    ∧ Forall (opcode_ok a b) ops.
Proof.
  destruct (get_matching_blocks_spec a b) as (blocks & Hb & Hc & Hm & He).
  unfold get_opcodes. rewrite Hb. simpl. eexists. split; [done|].
  destruct (opcodes_loop_spec a b blocks 0 0 Hc Hm) as (Ha' & Hb' & Hok).
  rewrite He in Ha', Hb'. simpl in Ha', Hb'.
  by rewrite slice_all in Ha', Hb'.
Qed.

(** *** A sequence against itself *)

Lemma diag_run_S b2j a e x js :
  a !! e = Some x → b2j !! x = Some js → diag_run b2j a (S e) = diag_run b2j a e + 1.
Proof. intros Ha Hx. simpl. by rewrite Ha; simpl; rewrite Hx. Qed.

Lemma self_row a b2j i x js0 j2len todo newj2len best :
  a !! i = Some x → b2j !! x = Some js0 →
  (∀ j k, j2len !! j = Some k → k ≤ diag_run b2j a (i `min` S j)) →
  j2len_get_pred j2len i = diag_run b2j a i →
  StronglySorted lt todo →
  (∀ j, j ∈ todo → a !! j = Some x) →
  self_row_inv b2j a i todo newj2len best →
  let r := flm_row i 0 (length a) j2len todo newj2len best in
  self_row_inv b2j a i [] r.1 r.2.
Proof.
  intros Ha Hx Hc Hd. revert newj2len best.
  induction todo as [|j todo IH]; intros newj2len best Hs Hjs Hinv; [done|].
  simpl.
  assert (Haj : a !! j = Some x) by (apply Hjs; by left).
  rewrite (bool_decide_eq_false_2 (length a ≤ j)) by (apply lookup_lt_Some in Haj; lia).
  apply StronglySorted_inv in Hs as [Hs Hlt].
  apply IH; [done|intros; apply Hjs; by right|].
  destruct Hinv as (Hdiag & Hb & Hc' & Hdone).
  assert (Hk0 : j2len_get_pred j2len j ≤ diag_run b2j a (i `min` j)).
  { destruct j as [|j']; simpl; [lia|].
    destruct (j2len !! j') as [k0|] eqn:Hk0; simpl; [|lia]. by apply Hc. }
  assert (HDj : diag_run b2j a (S j) = diag_run b2j a j + 1) by by eapply diag_run_S.
  assert (HDi : diag_run b2j a (S i) = diag_run b2j a i + 1) by by eapply diag_run_S.
  destruct (lt_eq_lt_dec j i) as [[Hji| ->]|Hij].
  - (* below the diagonal: row [j] has already set the bar *)
    assert (diag_run b2j a (S j) ≤ best.2) by (apply Hb; lia).
    replace (i `min` j) with j in Hk0 by lia.
    rewrite bool_decide_eq_false_2 by lia.
    split_and!; [done|done| |].
    + intros j1 k1. destruct (decide (j = j1)) as [<-|].
      * rewrite lookup_insert_eq. intros [= <-].
        replace (S i `min` S j) with (S j) by lia. lia.
      * rewrite lookup_insert_ne by done. apply Hc'.
    + intros Hni. destruct Hdone as [? Hl].
      { intros [->|?]%elem_of_cons; [lia|done]. }
      split; [done|]. rewrite lookup_insert_ne by lia. done.
  - (* on the diagonal *)
    rewrite Hd.
    split_and!.
    + case_bool_decide; [done|done].
    + intros e He. specialize (Hb e He). case_bool_decide; simpl; lia.
    + intros j1 k1. destruct (decide (i = j1)) as [<-|].
      * rewrite lookup_insert_eq. intros [= <-].
        replace (S i `min` S i) with (S i) by lia. lia.
      * rewrite lookup_insert_ne by done. apply Hc'.
    + intros _. rewrite lookup_insert_eq, HDi. split; [|done].
      case_bool_decide; simpl; lia.
  - (* above the diagonal: the diagonal cell came first *)
    replace (i `min` j) with i in Hk0 by lia.
    destruct Hdone as [Hbs Hl].
    { intros [->|Hin]%elem_of_cons; [lia|].
      eapply Forall_forall in Hlt; [|done]. lia. }
    rewrite bool_decide_eq_false_2 by lia.
    split_and!; [done|done| |].
    + intros j1 k1. destruct (decide (j = j1)) as [<-|].
      * rewrite lookup_insert_eq. intros [= <-].
        replace (S i `min` S j) with (S i) by lia. lia.
      * rewrite lookup_insert_ne by done. apply Hc'.
    + intros _. split; [done|]. rewrite lookup_insert_ne by lia. done.
Qed.

Lemma self_rows a b2j i n j2len best :
  b2j_exact b2j a →
  i + n = length a →
  best.1.1 = best.1.2 →
  (∀ e, e ≤ i → diag_run b2j a e ≤ best.2) →
  (∀ j k, j2len !! j = Some k → k ≤ diag_run b2j a (i `min` S j)) →
  j2len_get_pred j2len i = diag_run b2j a i →
  let r := flm_rows a b2j 0 (length a) (seq i n) j2len best in
  r.1.1 = r.1.2.
Proof.
  intros Hex. revert i j2len best.
  induction n as [|n IH]; intros i j2len best Hn Hdiag Hb Hc Hd; [done|].
  simpl. destruct (lookup_lt_is_Some_2 a i) as [x Hx]; [lia|]. rewrite Hx.
  destruct (b2j !! x) as [js|] eqn:Hjs; simpl.
  - pose proof (self_row a b2j i x js j2len js ∅ best Hx Hjs Hc Hd) as Hrow.
    destruct (flm_row i 0 (length a) j2len js ∅ best) as [newj2len best'].
    rewrite (Hex _ _ Hjs) in Hrow.
    destruct Hrow as (H1 & H2 & H3 & H4).
    { apply indices_of_sorted. }
    { intros j. by rewrite elem_of_indices_of. }
    { split_and!; [done|done|by intros ??; rewrite lookup_empty|].
      intros Hni. exfalso. apply Hni. by apply elem_of_indices_of. }
    destruct H4 as [H4 H5]; [by intros ?%elem_of_nil|].
    cbn [fst snd] in *. apply IH; [lia|done| |done|].
    + intros e He. destruct (decide (e = S i)) as [->|]; [done|]. apply H2. lia.
    + unfold j2len_get_pred. by rewrite H5.
  - apply IH; [lia|done| |by intros ??; rewrite lookup_empty|].
    + intros e He. destruct (decide (e = S i)) as [->|]; [|apply Hb; lia].
      simpl. rewrite Hx. simpl. rewrite Hjs. lia.
    + simpl. rewrite lookup_empty, Hx. simpl. by rewrite Hjs.
Qed.

Lemma extend_down_self a (i k : nat) :
  i ≤ length a →
  extend_down (λ y, negb (isbjunk y)) a a 0 0 i i k = (0, 0, k + i).
Proof.
  revert k. induction i as [|i IH]; intros k Hi; [by rewrite Nat.add_0_r|].
  simpl. destruct (lookup_lt_is_Some_2 a i) as [x ->]; [lia|].
  rewrite !bool_decide_eq_true_2 by (done || lia). simpl.
  rewrite IH by lia. f_equal. lia.
Qed.

Lemma extend_up_self a (k n : nat) :
  k + n = length a →
  extend_up (λ y, negb (isbjunk y)) a a (length a) (length a) 0 0 k n = (0, 0, length a).
Proof.
  revert k. induction n as [|n IH]; intros k Hk; simpl.
  - by rewrite Nat.add_0_r in Hk; subst.
  - destruct (lookup_lt_is_Some_2 a k) as [x ->]; [lia|].
    rewrite !bool_decide_eq_true_2 by (done || lia). simpl.
    apply IH. lia.
Qed.

Lemma extend_isbjunk a b alo ahi blo bhi m :
  extend isbjunk a b alo ahi blo bhi m = m.
Proof.
  destruct m as [[i j] k]. unfold extend.
  assert (extend_down isbjunk a b alo blo i j k = (i, j, k)) as ->.
  { destruct i as [|i], j as [|j]; simpl; try done.
    destruct (a !! i), (b !! j); try done. by rewrite andb_false_r. }
  destruct (ahi - (i + k)) as [|n]; simpl; [done|].
  destruct (a !! (i + k)), (b !! (j + k)); try done. by rewrite andb_false_r.
Qed.

Lemma find_longest_match_self a :
  find_longest_match a a (chain_b a) 0 (length a) 0 (length a) = (0, 0, length a).
Proof.
  unfold find_longest_match. rewrite extend_isbjunk, Nat.sub_0_r.
  pose proof (self_rows a (chain_b a) 0 (length a) ∅ (0, 0, 0)) as Hdiag.
  pose proof (flm_rows_good a a (chain_b a) 0 (length a) 0 (length a) 0 (length a)
                ∅ (0, 0, 0)) as Hgood.
  destruct (flm_rows a (chain_b a) 0 (length a) (seq 0 (length a)) ∅ (0, 0, 0))
    as [[bi bj] bs].
  simpl in Hdiag. rewrite <-Hdiag; cycle 1.
  { intros x js. apply chain_b_indices. }
  { done. }
  { done. }
  { intros e He. assert (e = 0) as -> by lia. done. }
  { by intros ??; rewrite lookup_empty. }
  { done. }
  destruct Hgood as [Hbox _].
  { apply chain_b_sound. }
  { lia. } { done. } { done. } { apply j2len_ok_empty. }
  { split; [simpl; lia|]. intros d ?. lia. }
  simpl in Hbox. unfold extend.
  rewrite extend_down_self by lia.
  rewrite extend_up_self by lia. done.
Qed.

(** A sequence compared with itself is one [equal] span, or nothing when
    it is empty. *)
Lemma get_opcodes_self a :
  get_opcodes a a =
  Some (if decide (a = []) then [] else [Opcode Equal 0 (length a) 0 (length a)]).
Proof.
  unfold get_opcodes, get_matching_blocks, gmb_fuel.
  replace (2 * length a + 1) with (S (2 * length a)) by lia.
  simpl gmb_loop. rewrite find_longest_match_self.
  destruct a as [|x a]; [done|].
  rewrite bool_decide_eq_true_2 by done.
  rewrite (bool_decide_eq_false_2 (0 < 0)) by lia.
  rewrite (bool_decide_eq_false_2 (0 + length (x :: a) < length (x :: a))) by lia.
  simpl andb. cbv iota.
  assert (∀ fuel blocks, gmb_loop fuel (x :: a) (x :: a) (chain_b (x :: a)) [] blocks
                          = Some blocks) as -> by (by intros []).
  cbn [app mbind option_bind].
  assert (merge_sort block_le [(0, 0, length (x :: a))] = [(0, 0, length (x :: a))]) as ->.
  { apply Permutation_singleton_r, merge_sort_Permutation. }
  simpl. by rewrite (bool_decide_eq_false_2 (S (length a) < S (length a))) by lia.
Qed.

End matcher_facts.

(** * The detector *)

(** ** Loops and the tokenizer *)

Lemma bind_Ok {X Y} (m : res X) (f : X → res Y) (y : Y) :
  m ≫= f = Ok y → ∃ x, m = Ok x ∧ f x = Ok y.
Proof. destruct m as [x|]; simpl; [|done]. by exists x. Qed.

Lemma for_each_Ok {X Y} (l : list X) (body : X → res (list Y)) recs :
  for_each l body = Ok recs →
  ∃ outs, Forall2 (λ x out, body x = Ok out) l outs ∧ recs = concat outs.
Proof.
  revert recs. induction l as [|x l IH]; intros recs; simpl.
  - intros [= <-]. by exists [].
  - destruct (body x) as [out|] eqn:Hx; simpl; [|done].
    destruct (for_each l body) as [zs|]; simpl; [|done].
    intros [= <-]. destruct (IH _ eq_refl) as (outs & ? & ->).
    exists (out :: outs). split; [by constructor|done].
Qed.

Lemma for_each_total {X Y} (l : list X) (body : X → res (list Y)) :
  (∀ x, x ∈ l → ∃ out, body x = Ok out) → ∃ recs, for_each l body = Ok recs.
Proof.
  induction l as [|x l IH]; intros Hb; simpl; [by eexists|].
  destruct (Hb x) as [out ->]; [by left|].
  destruct IH as [zs ->]; [intros; apply Hb; by right|].
  simpl. by eexists.
Qed.

Lemma for_each_Forall {X Y} (P : Y → Prop) (l : list X) (body : X → res (list Y)) recs :
  (∀ x out, x ∈ l → body x = Ok out → Forall P out) →
  for_each l body = Ok recs → Forall P recs.
Proof.
  intros Hb (outs & Hf & ->)%for_each_Ok.
  apply Forall_concat. revert Hb. induction Hf as [|x out l outs Hx Hf IH]; intros Hb.
  - constructor.
  - constructor; [apply (Hb x); [by left|done]|].
    apply IH. intros ????. eapply Hb; [by right|done].
Qed.

Lemma for_each_nil {X Y} (l : list X) (body : X → res (list Y)) :
  (∀ x, x ∈ l → body x = Ok []) → for_each l body = Ok [].
Proof.
  induction l as [|x l IH]; intros Hb; simpl; [done|].
  rewrite Hb by by left. simpl. rewrite IH; [done|]. intros; apply Hb; by right.
Qed.

Lemma re_plus_app p s : (re_plus p s).1 ++ (re_plus p s).2 = s.
Proof.
  induction s as [|c s IH]; simpl; [done|].
  destruct (p c); [|done]. destruct (re_plus p s). simpl in *. by rewrite IH.
Qed.

Lemma re_plus_head p c s : p c = true → (re_plus p (c :: s)).1 ≠ [].
Proof. intros Hc. simpl. rewrite Hc. by destruct (re_plus p s). Qed.

Lemma re_alt_Some ps s m rest :
  re_alt ps s = Some (m, rest) → m ≠ [] ∧ m ++ rest = s.
Proof.
  induction ps as [|p ps IH]; simpl; [done|].
  pose proof (re_plus_app p s) as Happ.
  destruct (re_plus p s) as [[|c m'] rest']; [done|].
  intros [= <- <-]. done.
Qed.

Lemma re_alt_covering ps c s :
  Exists (λ p, p c = true) ps → is_Some (re_alt ps (c :: s)).
Proof.
  induction 1 as [p ps Hp|p ps _ IH].
  - pose proof (re_plus_head p c s Hp) as Hne.
    cbn [re_alt]. destruct (re_plus p (c :: s)) as [[|??] ?]; [done|by eexists].
  - cbn [re_alt]. destruct (re_plus p (c :: s)) as [[|??] ?]; [done|by eexists].
Qed.

Lemma re_findall_concat ps n s :
  (∀ c, Exists (λ p, p c = true) ps) → length s ≤ n → concat (re_findall ps n s) = s.
Proof.
  intros Hcov. revert s. induction n as [|n IH]; intros [|c s] Hn; simpl in *; try done; [lia|].
  destruct (re_alt_covering ps c s (Hcov c)) as [[m rest] Hm].
  simpl in Hm. rewrite Hm.
  apply re_alt_Some in Hm as [Hne Happ]. simpl.
  rewrite IH; [done|].
  destruct m; [done|]. simplify_eq/=. rewrite length_app in Hn. lia.
Qed.

(** ** Dictionaries *)

Lemma dict_set_keys {K V} `{EqDecision K} (k : K) (v : V) (d : dict K V) :
  (dict_set k v d).*1 = if decide (k ∈ d.*1) then d.*1 else d.*1 ++ [k].
Proof.
  induction d as [|[k' v'] d IH]; cbn [dict_set].
  - destruct (decide (k ∈ _)) as [?%elem_of_nil|]; done.
  - destruct (decide (k = k')) as [->|Hne]; rewrite !fmap_cons; cbn [fst].
    + destruct (decide (k' ∈ k' :: d.*1)) as [|[]]; [done|by left].
    + rewrite IH.
      destruct (decide (k ∈ d.*1)), (decide (k ∈ k' :: d.*1)) as [Hin|Hnin]; try done.
      * exfalso. apply Hnin. by right.
      * by apply elem_of_cons in Hin as [?|?].
Qed.

Lemma dict_set_NoDup {K V} `{EqDecision K} (k : K) (v : V) (d : dict K V) :
  NoDup d.*1 → NoDup (dict_set k v d).*1.
Proof.
  intros Hd. rewrite dict_set_keys. destruct (decide _); [done|].
  apply NoDup_app. split_and!; [done| |apply NoDup_singleton].
  intros x Hx ->%list_elem_of_singleton. done.
Qed.

Lemma dict_comp_NoDup {K V} `{EqDecision K} (key : V → K) (l : list V) :
  NoDup (dict_comp key l).*1.
Proof.
  unfold dict_comp. induction l as [|x l IH] using rev_ind; [constructor|].
  rewrite foldl_snoc. by apply dict_set_NoDup.
Qed.

Lemma dict_get_Some {K V} `{EqDecision K} (k : K) (v : V) (d : dict K V) :
  dict_get k d = Some v → (k, v) ∈ d.
Proof.
  induction d as [|[k' v'] d IH]; simpl; [done|].
  destruct (decide (k = k')) as [->|]; [intros [= ->]; by left|].
  intros ?. right. by apply IH.
Qed.

Lemma dict_get_None {K V} `{EqDecision K} (k : K) (d : dict K V) :
  dict_get k d = None ↔ k ∉ d.*1.
Proof.
  induction d as [|[k' v'] d IH]; simpl.
  - split; [intros _; apply not_elem_of_nil|done].
  - destruct (decide (k = k')) as [->|].
    + split; [done|]. intros []. by left.
    + rewrite IH. rewrite not_elem_of_cons. tauto.
Qed.

Lemma dict_get_elem {K V} `{EqDecision K} (k : K) (v : V) (d : dict K V) :
  NoDup d.*1 → (k, v) ∈ d → dict_get k d = Some v.
Proof.
  induction d as [|[k' v'] d IH]; simpl.
  - by intros _ ?%elem_of_nil.
  - intros [Hk' Hd]%NoDup_cons [[= -> ->]|Hin]%elem_of_cons.
    + by rewrite decide_True.
    + rewrite decide_False; [by apply IH|].
      intros ->. apply Hk'. by apply (list_elem_of_fmap_2 fst) in Hin.
Qed.

Lemma dict_set_elem {K V} `{EqDecision K} (k k0 : K) (v v0 : V) (d : dict K V) :
  (k0, v0) ∈ dict_set k v d → (k0, v0) = (k, v) ∨ (k0, v0) ∈ d.
Proof.
  induction d as [|[k' v'] d IH]; simpl.
  - intros ->%list_elem_of_singleton. by left.
  - destruct (decide (k = k')) as [->|].
    + intros [->|?]%elem_of_cons; [by left|]. right. by right.
    + intros [->|Hin]%elem_of_cons; [right; by left|].
      destruct (IH Hin) as [?|?]; [by left|]. right. by right.
Qed.

(** An entry of [{key(x): x for x in l}] is an element of [l] under its
    own key. *)
Lemma dict_comp_elem {K V} `{EqDecision K} (key : V → K) (l : list V) k v :
  (k, v) ∈ dict_comp key l → k = key v ∧ v ∈ l.
Proof.
  unfold dict_comp. induction l as [|x l IH] using rev_ind.
  - by intros ?%elem_of_nil.
  - rewrite foldl_snoc. intros [[= -> ->]|Hin]%dict_set_elem.
    + split; [done|]. apply elem_of_app. right. by left.
    + destruct (IH Hin). split; [done|]. apply elem_of_app. by left.
Qed.

Lemma Forall_concat_imap {X Y} (P : Y → Prop) (f : nat → X → list Y) (l : list X) :
  (∀ i x, l !! i = Some x → Forall P (f i x)) → Forall P (concat (imap f l)).
Proof.
  revert f. induction l as [|x l IH]; intros f Hf; simpl; [constructor|].
  apply Forall_app_2; [by apply (Hf 0)|]. apply IH. intros i y Hy. by apply (Hf (S i)).
Qed.

Lemma concat_imap_nil {X Y} (f : nat → X → list Y) (l : list X) :
  (∀ i x, l !! i = Some x → f i x = []) → concat (imap f l) = [].
Proof.
  revert f. induction l as [|x l IH]; intros f Hf; simpl; [done|].
  rewrite (Hf 0 x) by done. apply IH. intros i y Hy. by apply (Hf (S i)).
Qed.

Lemma lookup_zip_same {X} (l : list X) i x y : zip l l !! i = Some (x, y) → x = y.
Proof.
  intros (x' & y' & [= <- <-] & Hx & Hy)%lookup_zip_with_Some. congruence.
Qed.

Lemma elem_of_zip_same {X} (l : list X) x y : (x, y) ∈ zip l l → x = y.
Proof. intros [i Hi]%list_elem_of_lookup. by eapply lookup_zip_same. Qed.

Lemma py_eqb_refl (v : scalar) : py_eqb v v = true.
Proof.
  destruct v as [|b|z|q|s]; simpl; try done.
  - by destruct b.
  - apply Qeq_bool_iff. reflexivity.
  - apply Qeq_bool_iff. reflexivity.
  - by apply bool_decide_eq_true_2.
Qed.

Section detector_facts.
Context `{Runtime}.

(** Joining the tokens gives the text back, white space included. *)
Lemma tokenize_join (s : pystr) : concat (_tokenize_keep_spaces s) = s.
Proof.
  apply re_findall_concat; [|done].
  intros c. destruct (isword_cp c) eqn:Hw; [by left|].
  destruct (isspace_cp c) eqn:Hs.
  - right. right. by left.
  - right. left. by rewrite Hw, Hs.
Qed.

Lemma word_diff_html_total (old new : pystr) : ∃ r, _word_diff_html old new = Ok r.
Proof.
  unfold _word_diff_html.
  destruct (get_opcodes_spec (_tokenize_keep_spaces old) (_tokenize_keep_spaces new))
    as (ops & -> & _).
  simpl. destruct (foldl _ _ ops) as [[??]?]. by eexists.
Qed.

Lemma flat_map_ext_Forall {X Y} (f g : X → list Y) (l : list X) :
  Forall (λ x, f x = g x) l → flat_map f l = flat_map g l.
Proof. induction 1; simpl; [done|]. by f_equal. Qed.

(** ** Dispatch on the document type *)

Lemma both_of_type_distinct (o r : Document) t1 t2 kind :
  d_type o = Some t1 → d_type r = Some t2 → t1 ≠ t2 →
  both_of_type o r kind = Ok false.
Proof.
  intros Ho Hr Hne. unfold both_of_type, get_type. rewrite Ho, Hr. simpl.
  case_bool_decide; simpl; [|done]. by rewrite bool_decide_eq_false_2 by congruence.
Qed.

Lemma both_of_type_same (o r : Document) t kind :
  d_type o = Some t → d_type r = Some t →
  both_of_type o r kind = Ok (bool_decide (t = kind)).
Proof.
  intros Ho Hr. unfold both_of_type, get_type. rewrite Ho, Hr. simpl.
  by case_bool_decide.
Qed.

(** C4: documents whose types differ give one [document_type_change]
    record under [structural_changes], nothing in the other five lists, and
    a total of 1. *)
Theorem detect_changes_type_mismatch (o r : Document) (t1 t2 : pystr) :
  d_type o = Some t1 → d_type r = Some t2 → t1 ≠ t2 →
  detect_changes o r = Ok
    {| text_changes := []; formatting_changes := []; table_changes := [];
       image_changes := []; annotation_changes := [];
       structural_changes :=
         [[("type", JStr (py "document_type_change")); ("original_type", JStr t1);
           ("revised_type", JStr t2)]];
       summary := {| total_changes := 1; text_changes_count := 0;
                     formatting_changes_count := 0; table_changes_count := 0;
                     image_changes_count := 0; annotation_changes_count := 0;
                     structural_changes_count := 1 |} |}.
Proof.
  intros Ho Hr Hne.
  unfold detect_changes, _detect_text_changes, _detect_formatting_changes,
    _detect_table_changes, _detect_image_changes, _detect_annotation_changes,
    _detect_structural_changes.
  rewrite !(both_of_type_distinct o r t1 t2) by done.
  unfold get_type. rewrite Ho, Hr. simpl.
  rewrite (bool_decide_eq_false_2 (t1 = t2)) by done. simpl.
  by rewrite (bool_decide_eq_true_2 (t1 ≠ t2)) by done.
Qed.

(** C7, as the code has it: a missing ['type'] raises [KeyError]; a type
    that is present on both sides, the same, and not one of [docx], [pdf],
    [xlsx] gives the empty report. *)
Theorem detect_changes_unchecked_type (o r : Document) :
  (d_type o = None ∨ d_type r = None → detect_changes o r = Raise (KeyError "type"))
  ∧ (∀ t, d_type o = Some t → d_type r = Some t → ¬ recognized t →
       detect_changes o r = Ok no_changes).
Proof.
  split.
  - intros Hnone.
    unfold detect_changes, _detect_text_changes, _detect_formatting_changes,
      _detect_table_changes, _detect_image_changes, _detect_annotation_changes,
      both_of_type, get_type.
    destruct (d_type o) as [t1|], (d_type r) as [t2|]; simpl; try done; [by destruct Hnone|].
    repeat (case_bool_decide; simpl); done.
  - intros t Ho Hr Hun.
    unfold detect_changes, _detect_text_changes, _detect_formatting_changes,
      _detect_table_changes, _detect_image_changes, _detect_annotation_changes,
      _detect_structural_changes.
    rewrite !(both_of_type_same o r t) by done.
    unfold get_type. rewrite Ho, Hr. simpl.
    unfold recognized in Hun.
    rewrite !(bool_decide_eq_false_2 (t = py _)) by tauto. simpl.
    rewrite (bool_decide_eq_true_2 (t = t)) by done. simpl.
    by rewrite (bool_decide_eq_false_2 (t ≠ t)) by tauto.
Qed.

(** ** Paragraph text *)

Lemma docx_paragraph_change_total (op rp : list Paragraph) i :
  ∃ out, docx_paragraph_change op rp i = Ok out.
Proof.
  unfold docx_paragraph_change.
  destruct (_ && _); [by eexists|]. destruct (_ && _); [by eexists|].
  case_bool_decide; [|by eexists].
  destruct (word_diff_html_total (from_option p_text [] (op !! i))
              (from_option p_text [] (rp !! i))) as [[[??]?] ->].
  by eexists.
Qed.

Lemma docx_paragraph_change_index (op rp : list Paragraph) i out :
  docx_paragraph_change op rp i = Ok out →
  Forall (λ rec, paragraph_index rec = Some (Z.of_nat i)) out.
Proof.
  unfold docx_paragraph_change. intros Hout.
  repeat (destruct (_ && _) in Hout ||
          destruct (bool_decide _) in Hout ||
          destruct (_word_diff_html _ _) as [[[??]?]|] in Hout);
    simplify_eq/=; repeat (apply Forall_cons_2; [reflexivity|]); apply Forall_nil_2.
Qed.

Lemma filter_all {X} (P : X → Prop) `{∀ x, Decision (P x)} (l : list X) :
  Forall P l → filter P l = l.
Proof.
  induction 1 as [|x l Hx _ IH]; [done|]. rewrite filter_cons_True by done. by f_equal.
Qed.

Lemma filter_none {X} (P : X → Prop) `{∀ x, Decision (P x)} (l : list X) :
  Forall (λ x, ¬ P x) l → filter P l = [].
Proof.
  induction 1 as [|x l Hx _ IH]; [done|]. by rewrite filter_cons_False.
Qed.

Lemma at_paragraph_elsewhere (body : nat → res (list record)) s n outs i :
  (∀ j out, body j = Ok out → Forall (λ rec, paragraph_index rec = Some (Z.of_nat j)) out) →
  Forall2 (λ j out, body j = Ok out) (seq s n) outs →
  i < s ∨ s + n ≤ i →
  at_paragraph i (concat outs) = [].
Proof.
  intros Hbody. revert s outs. induction n as [|n IH]; intros s outs Hf Hi.
  - by apply Forall2_nil_inv_l in Hf as ->.
  - simpl in Hf. apply Forall2_cons_inv_l in Hf as (out & outs' & Hout & Hf & ->).
    simpl. unfold at_paragraph. rewrite filter_app.
    fold (at_paragraph i (concat outs')). rewrite (IH (S s)) by (done || lia).
    rewrite app_nil_r. apply Hbody in Hout. apply filter_none.
    eapply Forall_impl; [exact Hout|]. intros rec -> [= ?]. lia.
Qed.

Lemma at_paragraph_here (body : nat → res (list record)) s n outs i out :
  (∀ j out, body j = Ok out → Forall (λ rec, paragraph_index rec = Some (Z.of_nat j)) out) →
  Forall2 (λ j out, body j = Ok out) (seq s n) outs →
  s ≤ i → i < s + n → body i = Ok out →
  at_paragraph i (concat outs) = out.
Proof.
  intros Hbody. revert s outs. induction n as [|n IH]; intros s outs Hf Hs Hi Hout; [lia|].
  simpl in Hf. apply Forall2_cons_inv_l in Hf as (out0 & outs' & Hout0 & Hf & ->).
  simpl. unfold at_paragraph. rewrite filter_app.
  fold (at_paragraph i (concat outs')).
  destruct (decide (i = s)) as [->|].
  - rewrite (at_paragraph_elsewhere body (S s) n) by (done || lia).
    rewrite app_nil_r. rewrite Hout in Hout0. injection Hout0 as <-.
    apply Hbody in Hout. by apply filter_all.
  - rewrite (IH (S s) outs') by (done || lia).
    apply Hbody in Hout0.
    rewrite filter_none; [done|].
    eapply Forall_impl; [exact Hout0|]. intros rec -> [= ?]. lia.
Qed.

(** [_detect_docx_text_changes] returns, and what it holds for paragraph
    [i] is what the body of its loop yields at [i]. *)
Lemma docx_text_changes_at (original revised : Document) :
  ∃ recs, _detect_docx_text_changes original revised = Ok recs
    ∧ ∀ i, docx_paragraph_change (d_paragraphs original) (d_paragraphs revised) i
           = Ok (at_paragraph i recs).
Proof.
  unfold _detect_docx_text_changes.
  set (op := d_paragraphs original). set (rp := d_paragraphs revised).
  set (n := length op `max` length rp).
  destruct (for_each_total (seq 0 n) (docx_paragraph_change op rp)) as [recs Hrecs].
  { intros i _. apply docx_paragraph_change_total. }
  exists recs. split; [done|]. intros i.
  apply for_each_Ok in Hrecs as (outs & Hf & ->).
  destruct (docx_paragraph_change_total op rp i) as [out Hout].
  destruct (decide (i < n)).
  - rewrite (at_paragraph_here (docx_paragraph_change op rp) 0 n outs i out); try done.
    + apply docx_paragraph_change_index.
    + lia.
  - rewrite (at_paragraph_elsewhere (docx_paragraph_change op rp) 0 n outs i); try done.
    + unfold docx_paragraph_change.
      rewrite !lookup_ge_None_2 by (subst n op rp; lia). done.
    + apply docx_paragraph_change_index.
    + lia.
Qed.

(** C9: in the word text comparison an empty text counts as no text.  Where
    both sides have paragraph [i], a non-empty original against an empty
    revision gives the one record [deleted], and the converse the one record
    [added], never [modified]; where both texts are empty nothing is
    recorded, a paragraph missing on one side counting as empty. *)
Theorem docx_empty_text_is_absence (original revised : Document) :
  ∃ recs, _detect_docx_text_changes original revised = Ok recs
    ∧ (∀ i po pr,
         d_paragraphs original !! i = Some po → d_paragraphs revised !! i = Some pr →
         p_text po ≠ [] → p_text pr = [] →
         at_paragraph i recs = [docx_text_record "deleted" (p_text po) i])
    ∧ (∀ i po pr,
         d_paragraphs original !! i = Some po → d_paragraphs revised !! i = Some pr →
         p_text po = [] → p_text pr ≠ [] →
         at_paragraph i recs = [docx_text_record "added" (p_text pr) i])
    ∧ (∀ i,
         from_option p_text [] (d_paragraphs original !! i) = [] →
         from_option p_text [] (d_paragraphs revised !! i) = [] →
         at_paragraph i recs = []).
Proof.
  destruct (docx_text_changes_at original revised) as (recs & Hrecs & Hat).
  exists recs. split; [done|]. split_and!.
  - intros i po pr Ho Hr Hot Hnt. specialize (Hat i).
    unfold docx_paragraph_change in Hat. rewrite Ho, Hr in Hat. simpl in Hat.
    rewrite bool_decide_eq_true_2, bool_decide_eq_true_2 in Hat by done.
    simpl in Hat. by injection Hat as <-.
  - intros i po pr Ho Hr Hot Hnt. specialize (Hat i).
    unfold docx_paragraph_change in Hat. rewrite Ho, Hr in Hat. simpl in Hat.
    rewrite Hot in Hat.
    rewrite (bool_decide_eq_true_2 (p_text pr ≠ [])) in Hat by done.
    simpl in Hat. by injection Hat as <-.
  - intros i Hot Hnt. specialize (Hat i).
    unfold docx_paragraph_change in Hat. rewrite Hot, Hnt in Hat. simpl in Hat.
    by injection Hat as <-.
Qed.

(** C5, as the code has it: every record carries an index below
    [max(len(original), len(revised))]; a paragraph with text that only one
    side has gives the one record [added] or [deleted] with that text; and
    paragraphs on both sides whose texts differ, neither empty, give the one
    record [modified] with what [_word_diff_html] returns. *)
Theorem docx_text_changes_by_index (original revised : Document) :
  ∃ recs, _detect_docx_text_changes original revised = Ok recs
    ∧ Forall (λ rec, ∃ i, i < length (d_paragraphs original) `max` length (d_paragraphs revised)
                          ∧ paragraph_index rec = Some (Z.of_nat i)) recs
    ∧ (∀ i pr,
         d_paragraphs original !! i = None → d_paragraphs revised !! i = Some pr →
         p_text pr ≠ [] →
         at_paragraph i recs = [docx_text_record "added" (p_text pr) i])
    ∧ (∀ i po,
         d_paragraphs original !! i = Some po → d_paragraphs revised !! i = None →
         p_text po ≠ [] →
         at_paragraph i recs = [docx_text_record "deleted" (p_text po) i])
    ∧ (∀ i po pr,
         d_paragraphs original !! i = Some po → d_paragraphs revised !! i = Some pr →
         p_text po ≠ [] → p_text pr ≠ [] → p_text po ≠ p_text pr →
         ∃ diff_html added deleted,
           _word_diff_html (p_text po) (p_text pr) = Ok (diff_html, added, deleted)
           ∧ at_paragraph i recs =
               [docx_modified_record diff_html (p_text po) (p_text pr) added deleted i]).
Proof.
  destruct (docx_text_changes_at original revised) as (recs & Hrecs & Hat).
  exists recs. split; [done|]. split_and!.
  - unfold _detect_docx_text_changes in Hrecs.
    eapply for_each_Forall; [|exact Hrecs].
    intros i out [_ Hi]%elem_of_seq Hout%docx_paragraph_change_index.
    eapply Forall_impl; [exact Hout|]. intros rec Hrec. exists i. split; [lia|done].
  - intros i pr Ho Hr Hnt. specialize (Hat i).
    unfold docx_paragraph_change in Hat. rewrite Ho, Hr in Hat. simpl in Hat.
    rewrite bool_decide_eq_true_2, bool_decide_eq_true_2 in Hat by done.
    simpl in Hat. by injection Hat as <-.
  - intros i po Ho Hr Hot. specialize (Hat i).
    unfold docx_paragraph_change in Hat. rewrite Ho, Hr in Hat. simpl in Hat.
    rewrite bool_decide_eq_true_2, bool_decide_eq_true_2 in Hat by done.
    simpl in Hat. by injection Hat as <-.
  - intros i po pr Ho Hr Hot Hnt Hne. specialize (Hat i).
    unfold docx_paragraph_change in Hat. rewrite Ho, Hr in Hat. simpl in Hat.
    rewrite (bool_decide_eq_false_2 (p_text pr = [])) in Hat by done.
    rewrite (bool_decide_eq_false_2 (p_text po = [])) in Hat by done.
    rewrite !andb_false_r in Hat.
    rewrite (bool_decide_eq_true_2 (p_text po ≠ p_text pr)) in Hat by done.
    destruct (_word_diff_html (p_text po) (p_text pr)) as [[[diff_html added] deleted]|];
      simpl in Hat; [|done].
    injection Hat as <-. by exists diff_html, added, deleted.
Qed.

(** ** The ['change_type'] field *)

#[local] Ltac classified_records :=
  repeat first
    [ apply Forall_nil_2
    | apply Forall_cons_2;
      [first [by left|by (right; left)|by (right; right)|reflexivity]|]
    | apply Forall_app_2
    | apply Forall_fmap, Forall_true; intros ?;
      first [by left|by (right; left)|by (right; right)|reflexivity] ].

Lemma docx_text_classified (o r : Document) recs :
  _detect_docx_text_changes o r = Ok recs → Forall classified recs.
Proof.
  apply for_each_Forall. intros i out _. unfold docx_paragraph_change. intros Hout.
  repeat (destruct (_ && _) in Hout ||
          destruct (bool_decide _) in Hout ||
          destruct (_word_diff_html _ _) as [[[??]?]|] in Hout);
    simplify_eq/=; classified_records.
Qed.

Lemma pdf_text_classified (o r : Document) recs :
  _detect_pdf_text_changes o r = Ok recs → Forall classified recs.
Proof.
  apply for_each_Forall. intros i out _. cbv beta zeta.
  destruct (get_opcodes _ _) as [ops|]; simpl; [|done].
  apply for_each_Forall. intros [tg i1 i2 j1 j2] out' _.
  destruct tg; try (intros [= <-]; classified_records).
  destruct (for_each _ _) as [modified|] eqn:Hmod; simpl; [|done].
  intros [= <-]. apply Forall_app_2; [|classified_records].
  eapply for_each_Forall; [|exact Hmod].
  intros [s_old s_new] out'' _.
  destruct (_word_diff_html _ _) as [[[??]?]|]; simpl; [|done].
  intros [= <-]. classified_records.
Qed.

Lemma xlsx_text_classified (o r : Document) recs :
  _detect_xlsx_text_changes o r = Ok recs → Forall classified recs.
Proof.
  apply for_each_Forall. intros sheet_name out _. cbv beta zeta.
  destruct (sheet_named _ _) as [osheet|]; [|intros [= <-]; classified_records].
  destruct (sheet_named _ _) as [rsheet|]; [|intros [= <-]; classified_records].
  apply for_each_Forall. intros coord out' _.
  destruct (dict_get _ _) as [oc|]; [|intros [= <-]; classified_records].
  destruct (dict_get _ _) as [rc|]; [|intros [= <-]; classified_records].
  case_bool_decide; [|intros [= <-]; classified_records].
  destruct (_word_diff_html _ _) as [[[??]?]|]; simpl; [|done].
  intros [= <-]. classified_records.
Qed.

Lemma text_classified (o r : Document) recs :
  _detect_text_changes o r = Ok recs → Forall classified recs.
Proof.
  unfold _detect_text_changes.
  destruct (both_of_type o r (py "docx")) as [[]|]; simpl; [apply docx_text_classified| |done].
  destruct (both_of_type o r (py "pdf")) as [[]|]; simpl; [apply pdf_text_classified| |done].
  destruct (both_of_type o r (py "xlsx")) as [[]|]; simpl; [apply xlsx_text_classified| |done].
  intros [= <-]. constructor.
Qed.

(** Where each annotation record comes from. *)
Lemma annotation_changes_origin (o r : Document) recs :
  _detect_annotation_changes o r = Ok recs →
  Forall (λ rec,
    (∃ k a, dict_get k (annotation_map r) = Some a ∧ dict_get k (annotation_map o) = None
            ∧ rec = annotation_record "added" k a)
    ∨ (∃ k a, dict_get k (annotation_map o) = Some a ∧ dict_get k (annotation_map r) = None
              ∧ rec = annotation_record "deleted" k a)
    ∨ (∃ k ao ar, dict_get k (annotation_map o) = Some ao
                  ∧ dict_get k (annotation_map r) = Some ar
                  ∧ annotation_diffs ao ar ≠ []
                  ∧ annotation_modified k ao ar = Ok [rec])) recs.
Proof.
  unfold _detect_annotation_changes, annotation_map.
  destruct (get_type o) as [ot|]; simpl; [|done].
  destruct (get_type r) as [rt|]; simpl; [|done].
  destruct (negb _); [intros [= <-]; constructor|].
  set (omap := dict_comp _annot_key (d_annotations o)).
  set (rmap := dict_comp _annot_key (d_annotations r)).
  intros (added & Hadd & (deleted & Hdel & (modified & Hmod & [= <-])%bind_Ok)%bind_Ok)%bind_Ok.
  repeat apply Forall_app_2.
  - eapply for_each_Forall; [|exact Hadd]. intros [k a] out Hin.
    destruct (dict_get k omap) eqn:Hk; intros [= <-]; [constructor|].
    apply Forall_cons_2; [|constructor]. left. exists k, a. split_and!; [|done..].
    apply dict_get_elem; [apply dict_comp_NoDup|done].
  - eapply for_each_Forall; [|exact Hdel]. intros [k a] out Hin.
    destruct (dict_get k rmap) eqn:Hk; intros [= <-]; [constructor|].
    apply Forall_cons_2; [|constructor]. right. left. exists k, a. split_and!; [|done..].
    apply dict_get_elem; [apply dict_comp_NoDup|done].
  - eapply for_each_Forall; [|exact Hmod]. intros [k ao] out Hin.
    destruct (dict_get k rmap) as [ar|] eqn:Hk; [|intros [= <-]; constructor].
    intros Hout. pose proof Hout as Hout'. unfold annotation_modified in Hout.
    destruct (if bool_decide _ then _ else _) as [diff_html|]; simpl in Hout; [|done].
    case_bool_decide as Hd; [|injection Hout as <-; constructor].
    injection Hout as <-. apply Forall_cons_2; [|constructor]. right. right.
    exists k, ao, ar. split_and!; [|done..].
    apply dict_get_elem; [apply dict_comp_NoDup|done].
Qed.

Lemma annotation_classified (o r : Document) recs :
  _detect_annotation_changes o r = Ok recs → Forall classified recs.
Proof.
  intros Hrecs%annotation_changes_origin.
  eapply Forall_impl; [exact Hrecs|].
  intros rec [(k & a & _ & _ & ->)|[(k & a & _ & _ & ->)|(k & ao & ar & _ & _ & _ & Hm)]].
  - by left.
  - right. by left.
  - right. right. unfold annotation_modified in Hm.
    destruct (if bool_decide _ then _ else _); simpl in Hm; [|done].
    case_bool_decide; by simplify_eq.
Qed.

#[local] Ltac unclassified_records :=
  repeat first
    [ apply Forall_nil_2
    | apply Forall_cons_2; [reflexivity|]
    | apply Forall_app_2
    | progress cbv beta zeta
    | match goal with |- context [if ?b then _ else _] => destruct b end ].

Lemma docx_formatting_unclassified (o r : Document) :
  Forall unclassified (_detect_docx_formatting_changes o r).
Proof.
  apply Forall_concat_imap. intros i [orig_para rev_para] _.
  apply Forall_app_2; [unclassified_records|].
  apply Forall_concat_imap. intros j [orun rrun] _. unclassified_records.
Qed.

Lemma xlsx_formatting_unclassified (o r : Document) recs :
  _detect_xlsx_formatting_changes o r = Ok recs → Forall unclassified recs.
Proof.
  apply for_each_Forall. intros [os rs] out _. unfold sheet_pair_formatting.
  case_bool_decide; [intros [= <-]; constructor|].
  apply for_each_Forall. intros [coord oc] out' _.
  destruct (dict_get _ _) as [rc|]; [|intros [= <-]; constructor].
  destruct (py_eqb _ _); [|intros [= <-]; constructor].
  destruct (_compare_cell_formatting oc rc) as [fmt|]; simpl; [|done].
  case_bool_decide; intros [= <-]; unclassified_records.
Qed.

Lemma formatting_unclassified (o r : Document) recs :
  _detect_formatting_changes o r = Ok recs → Forall unclassified recs.
Proof.
  unfold _detect_formatting_changes.
  destruct (both_of_type o r (py "docx")) as [[]|]; simpl; [| |done].
  { intros [= <-]. apply docx_formatting_unclassified. }
  destruct (both_of_type o r (py "xlsx")) as [[]|]; simpl;
    [apply xlsx_formatting_unclassified| |done].
  intros [= <-]. constructor.
Qed.

Lemma table_unclassified (o r : Document) recs :
  _detect_table_changes o r = Ok recs → Forall unclassified recs.
Proof.
  unfold _detect_table_changes, _detect_docx_table_changes.
  destruct (both_of_type o r (py "docx")) as [[]|]; simpl; [| |done];
    intros [= <-]; [|constructor].
  apply Forall_app_2; [unclassified_records|].
  apply Forall_concat_imap. intros i [ot rt] _.
  apply Forall_app_2; [unclassified_records|].
  apply Forall_concat_imap. intros j [orow rrow] _.
  apply Forall_concat_imap. intros k [ocell rcell] _. unclassified_records.
Qed.

Lemma image_unclassified (o r : Document) recs :
  _detect_image_changes o r = Ok recs → Forall unclassified recs.
Proof.
  unfold _detect_image_changes, _detect_docx_image_changes.
  destruct (both_of_type o r (py "docx")) as [[]|]; simpl; [| |done];
    intros [= <-]; [|constructor].
  apply Forall_app_2; [unclassified_records|].
  apply Forall_concat_imap. intros i [oi ri] _. unclassified_records.
Qed.

Lemma structural_unclassified (o r : Document) recs :
  _detect_structural_changes o r = Ok recs → Forall unclassified recs.
Proof.
  unfold _detect_structural_changes, count_change.
  destruct (get_type o) as [ot|]; simpl; [|done].
  destruct (get_type r) as [rt|]; simpl; [|done].
  repeat case_bool_decide; intros [= <-]; unclassified_records.
Qed.

(** ** Cell formatting *)

Lemma for_each_at {X K} `{EqDecision K} (key : X → K) (kof : record → option K)
    (l : list X) (body : X → res (list record)) recs x out :
  NoDup (key <$> l) →
  for_each l body = Ok recs →
  (∀ x out, x ∈ l → body x = Ok out → Forall (λ rec, kof rec = Some (key x)) out) →
  x ∈ l → body x = Ok out →
  filter (λ rec, kof rec = Some (key x)) recs = out.
Proof.
  revert recs. induction l as [|x0 l IH]; intros recs Hnd Hrecs Hkey Hx Hout.
  - by apply elem_of_nil in Hx.
  - rewrite fmap_cons in Hnd. apply NoDup_cons in Hnd as [Hx0 Hnd].
    simpl in Hrecs.
    apply bind_Ok in Hrecs as (out0 & Hout0 & (zs & Hzs & [= <-])%bind_Ok).
    rewrite filter_app.
    assert (Hrest : ∀ y out', y ∈ l → body y = Ok out' →
                    Forall (λ rec, kof rec = Some (key y)) out').
    { intros y out' Hy. apply Hkey. by right. }
    apply elem_of_cons in Hx as [->|Hx].
    + rewrite Hout in Hout0. injection Hout0 as <-.
      rewrite filter_all by (apply (Hkey x0); [by left|done]).
      rewrite filter_none; [by rewrite app_nil_r|].
      eapply for_each_Forall; [|exact Hzs].
      intros y out' Hy Hout'. eapply Forall_impl; [by apply Hrest|].
      intros rec -> [= Heq]. apply Hx0. rewrite <-Heq. by apply list_elem_of_fmap_2.
    + rewrite (IH zs Hnd Hzs Hrest Hx Hout).
      rewrite filter_none; [done|].
      eapply Forall_impl; [apply (Hkey x0); [by left|done]|].
      intros rec -> [= Heq]. apply Hx0. rewrite Heq. by apply list_elem_of_fmap_2.
Qed.

Lemma compare_cell_formatting_described (oc rc : Cell) :
  cell_described oc → cell_described rc →
  _compare_cell_formatting oc rc = Ok (differing_attributes oc rc).
Proof.
  intros (? & ? & ?) (? & ? & ?).
  unfold _compare_cell_formatting, differing_attributes, cell_attributes.
  destruct (c_font oc), (c_font rc), (c_fill oc), (c_fill rc), (c_border oc), (c_border rc);
    try done; simpl; unfold compare_attrs; simpl;
    by rewrite <-?app_assoc, ?app_nil_r.
Qed.

Lemma cells_by_coordinate_described (sh : Sheet) coord c :
  Forall (Forall cell_described) (s_cells sh) →
  dict_get coord (cells_by_coordinate sh) = Some c →
  cell_described c ∧ c_coordinate c = coord.
Proof.
  intros Hsh [-> Hin]%dict_get_Some%dict_comp_elem. split; [|done].
  apply Forall_concat in Hsh. by eapply Forall_forall in Hsh.
Qed.

Lemma sheet_pair_formatting_spec (os rs : Sheet) :
  Forall (Forall cell_described) (s_cells os) →
  Forall (Forall cell_described) (s_cells rs) →
  ∃ out, sheet_pair_formatting os rs = Ok out
    ∧ (s_name os ≠ s_name rs → out = [])
    ∧ (s_name os = s_name rs →
       ∀ coord oc rc,
         dict_get coord (cells_by_coordinate os) = Some oc →
         dict_get coord (cells_by_coordinate rs) = Some rc →
         py_eqb (c_value oc) (c_value rc) = true →
         at_coordinate coord out =
           if decide (differing_attributes oc rc = []) then []
           else [cell_formatting_record coord (s_name os) (differing_attributes oc rc)]).
Proof.
  intros Hos Hrs. unfold sheet_pair_formatting.
  case_bool_decide as Hname.
  { exists []. split_and!; done. }
  set (ocells := cells_by_coordinate os). set (rcells := cells_by_coordinate rs).
  set (body := λ '(coord, oc), match dict_get coord rcells with
                 | Some rc => _ | None => _ end).
  assert (Hbody : ∀ coord oc, (coord, oc) ∈ ocells →
            body (coord, oc) = Ok
              match dict_get coord rcells with
              | Some rc =>
                  if py_eqb (c_value oc) (c_value rc) then
                    if decide (differing_attributes oc rc = []) then []
                    else [cell_formatting_record coord (s_name os)
                            (differing_attributes oc rc)]
                  else []
              | None => []
              end).
  { intros coord oc Hin. unfold body.
    destruct (dict_get coord rcells) as [rc|] eqn:Hrc; [|done].
    destruct (py_eqb _ _); [|done].
    rewrite compare_cell_formatting_described.
    - simpl. by destruct (decide _); [rewrite bool_decide_eq_false_2 by tauto
                                     |rewrite bool_decide_eq_true_2 by done].
    - eapply (cells_by_coordinate_described os coord); [done|].
      apply dict_get_elem; [apply dict_comp_NoDup|done].
    - by eapply (cells_by_coordinate_described rs coord). }
  destruct (for_each_total ocells body) as [out Hout].
  { intros [coord oc] Hin. rewrite Hbody by done. by eexists. }
  exists out. split; [done|]. split; [by intros []|].
  intros _ coord oc rc Ho Hr Heq.
  assert (Hin : (coord, oc) ∈ ocells) by by apply dict_get_Some.
  rewrite <-(for_each_at fst coordinate ocells body out (coord, oc)
               (if decide (differing_attributes oc rc = []) then []
                else [cell_formatting_record coord (s_name os)
                        (differing_attributes oc rc)])
               (dict_comp_NoDup _ _) Hout); [done| |done|].
  - intros [coord' oc'] out' Hin'. rewrite Hbody by done. intros [= <-].
    destruct (dict_get coord' rcells) as [rc'|]; [|constructor].
    destruct (py_eqb (c_value oc') (c_value rc')); [|constructor].
    destruct (decide (differing_attributes oc' rc' = [])); [constructor|].
    by repeat constructor.
  - rewrite Hbody by done. by rewrite Hr, Heq.
Qed.

(** C8, as the code has it.  The sheets are paired by position, and a pair
    whose names differ is skipped.  Within a pair of equal names, a
    coordinate that both sheets hold with equal values gets one
    [cell_formatting_change] record listing every differing attribute when
    at least one of the ten attributes differs, and none otherwise.  No
    cell has a descriptor bound to [None]. *)
Theorem xlsx_formatting_by_position (original revised : Document) :
  well_described original → well_described revised →
  ∃ outs, _detect_xlsx_formatting_changes original revised = Ok (concat outs)
    ∧ length outs = length (d_sheets original) `min` length (d_sheets revised)
    ∧ ∀ p os rs,
        d_sheets original !! p = Some os → d_sheets revised !! p = Some rs →
        ∃ out, outs !! p = Some out
          ∧ (s_name os ≠ s_name rs → out = [])
          ∧ (s_name os = s_name rs →
             ∀ coord oc rc,
               dict_get coord (cells_by_coordinate os) = Some oc →
               dict_get coord (cells_by_coordinate rs) = Some rc →
               py_eqb (c_value oc) (c_value rc) = true →
               at_coordinate coord out =
                 if decide (differing_attributes oc rc = []) then []
                 else [cell_formatting_record coord (s_name os)
                         (differing_attributes oc rc)]).
Proof.
  intros Ho Hr. unfold _detect_xlsx_formatting_changes.
  set (pairs := zip (d_sheets original) (d_sheets revised)).
  assert (Hpairs : ∀ os rs, (os, rs) ∈ pairs →
            Forall (Forall cell_described) (s_cells os)
            ∧ Forall (Forall cell_described) (s_cells rs)).
  { intros os rs [p Hp]%list_elem_of_lookup.
    apply lookup_zip_with_Some in Hp as (os' & rs' & [= <- <-] & Hos & Hrs).
    split; [eapply Forall_forall in Ho|eapply Forall_forall in Hr]; try done;
      by eapply list_elem_of_lookup_2. }
  destruct (for_each_total pairs (λ '(os, rs), sheet_pair_formatting os rs)) as [recs Hrecs].
  { intros [os rs] [Hos Hrs]%Hpairs.
    destruct (sheet_pair_formatting_spec os rs Hos Hrs) as (out & -> & _). by eexists. }
  rewrite Hrecs. apply for_each_Ok in Hrecs as (outs & Hf & ->).
  exists outs. split; [done|].
  apply Forall2_length in Hf as Hlen. split.
  { rewrite <-Hlen. unfold pairs. by rewrite length_zip_with. }
  intros p os rs Hos Hrs.
  assert (Hp : pairs !! p = Some (os, rs)).
  { unfold pairs. apply lookup_zip_with_Some. by exists os, rs. }
  destruct (Forall2_lookup_l _ _ _ _ _ Hf Hp) as (out & Hout & Hspec).
  exists out. split; [done|].
  destruct (Hpairs os rs) as [Hdo Hdr]; [by eapply list_elem_of_lookup_2|].
  destruct (sheet_pair_formatting_spec os rs Hdo Hdr) as (out' & Hout' & Hdiff & Hsame).
  simpl in Hspec. rewrite Hspec in Hout'. injection Hout' as <-. done.
Qed.

(** ** Annotations *)

Lemma round_floats_unreadable (l : list scalar) x :
  x ∈ l → py_float x = None → round_floats l = None.
Proof.
  intros Hx Hf. unfold round_floats. apply mapM_None.
  apply Exists_exists. exists x. split; [done|]. by rewrite Hf.
Qed.

Lemma norm_floats_None (v : option (list scalar)) : unreadable v → _norm_floats v = None.
Proof.
  intros [->|(l & x & -> & Hx & Hf)]; [done|]. by eapply round_floats_unreadable.
Qed.

Lemma norm_eqb_refl (x : option (list Q)) : norm_eqb x x = true.
Proof.
  destruct x as [l|]; simpl; [|done].
  rewrite bool_decide_eq_true_2 by done. simpl.
  induction l as [|q l IH]; simpl; [done|].
  rewrite IH, andb_true_r. apply Qeq_bool_iff. reflexivity.
Qed.

Lemma omap_JStr (l : list pystr) :
  omap (λ j, match j with JStr s => Some s | _ => None end) (JStr <$> l) = l.
Proof. induction l as [|s l IH]; [done|]. rewrite fmap_cons. cbn. by rewrite IH. Qed.

Lemma annotation_modified_fields k (ao ar : Annotation) out rec :
  annotation_modified k ao ar = Ok out → rec ∈ out →
  changed_fields rec = py <$> annotation_diffs ao ar.
Proof.
  unfold annotation_modified.
  intros (diff_html & _ & Hout)%bind_Ok.
  case_bool_decide; injection Hout as <-; [|by intros ?%elem_of_nil].
  intros ->%list_elem_of_singleton. unfold changed_fields.
  match goal with
  | |- context [dict_get ?key ?d] =>
      change (dict_get key d)
        with (Some (JList ((λ f, JStr (py f)) <$> annotation_diffs ao ar)))
  end.
  cbv beta iota. by rewrite (list_fmap_compose py JStr), omap_JStr.
Qed.

Lemma ascii_of_py (s : string) : map ascii_of_N (py s) = list_ascii_of_string s.
Proof.
  unfold py. rewrite map_map. induction (list_ascii_of_string s) as [|c l IH]; [done|].
  simpl. by rewrite ascii_N_embedding, IH.
Qed.

Lemma py_inj (s t : string) : py s = py t → s = t.
Proof.
  intros Heq%(f_equal (map ascii_of_N)). rewrite !ascii_of_py in Heq.
  apply (f_equal string_of_list_ascii) in Heq.
  by rewrite !string_of_list_ascii_of_string in Heq.
Qed.

Lemma annotation_diffs_field (ao ar : Annotation) (f : string) :
  py f ∈ py <$> annotation_diffs ao ar → f ∈ annotation_diffs ao ar.
Proof. by intros (f' & ->%py_inj & ?)%list_elem_of_fmap. Qed.

#[local] Ltac not_listed Hin :=
  repeat (apply elem_of_cons in Hin as [Hin|Hin]; [discriminate|]);
  by apply elem_of_nil in Hin.

(** C10: [_norm_floats] gives [None] for a list it cannot read, so between
    two annotations found under one key an unreadable [rect], [quadpoints]
    or [color] on both sides adds no name to ['changed_fields']; and every
    [modified] record of the report is the record of such a pair. *)
Theorem norm_floats_unreadable :
  (∀ v, unreadable v → _norm_floats v = None)
  ∧ (∀ k ao ar out rec,
       annotation_modified k ao ar = Ok out → rec ∈ out →
       (unreadable (a_rect ao) → unreadable (a_rect ar) →
        py "rect" ∉ changed_fields rec)
       ∧ (unreadable (a_quadpoints ao) → unreadable (a_quadpoints ar) →
          py "quadpoints" ∉ changed_fields rec)
       ∧ (unreadable (a_color ao) → unreadable (a_color ar) →
          py "color" ∉ changed_fields rec))
  ∧ (∀ original revised recs rec,
       _detect_annotation_changes original revised = Ok recs →
       rec ∈ recs → change_type rec = Some (py "modified") →
       ∃ k ao ar,
         dict_get k (annotation_map original) = Some ao
         ∧ dict_get k (annotation_map revised) = Some ar
         ∧ annotation_modified k ao ar = Ok [rec]).
Proof.
  split_and!.
  - apply norm_floats_None.
  - intros k ao ar out rec Hout Hrec.
    rewrite (annotation_modified_fields k ao ar out rec Hout Hrec).
    split_and!; intros Ho%norm_floats_None Hr%norm_floats_None Hin%annotation_diffs_field;
      unfold annotation_diffs in Hin; rewrite Ho, Hr in Hin; simpl in Hin;
      repeat match type of Hin with context [if ?b then _ else _] => destruct b end;
      simpl in Hin; not_listed Hin.
  - intros original revised recs rec Hrecs%annotation_changes_origin Hrec Hct.
    eapply Forall_forall in Hrecs; [|done].
    destruct Hrecs as [(k & a & _ & _ & ->)|[(k & a & _ & _ & ->)|(k & ao & ar & ? & ? & _ & ?)]];
      [done|done|by exists k, ao, ar].
Qed.

Lemma norm_floats_floats (v : option (list scalar)) (rect : list Q) :
  default [] v = VFloat <$> rect → default [] (_norm_floats v) = round3 <$> rect.
Proof.
  destruct v as [l|]; simpl.
  - intros ->. unfold round_floats.
    assert (mapM (λ x, round3 <$> py_float x) (VFloat <$> rect) = Some (round3 <$> rect)) as ->;
      [|done].
    apply mapM_Some. induction rect; constructor; done.
  - by destruct rect.
Qed.

(** C2, as the code has it: for an annotation without an identity name the
    comparator's key is the one the specification spells out; the
    identifier given at extraction is built otherwise, and is never that
    key.  (An MD5 digest has 32 hex characters.) *)
Theorem annot_key_fallback (a : Annotation) (page_number : Z) (subtype : pystr)
    (rect : list Q) (contents : pystr) :
  (∀ s, length (md5_hexdigest s) = 32) →
  default [] (a_id a) = [] →
  a_page_number a = VInt page_number →
  default [] (a_subtype a) = subtype →
  default [] (a_rect a) = VFloat <$> rect →
  default [] (a_contents a) = contents →
  _annot_key a = spec_fallback_key page_number subtype rect contents
  ∧ _annot_key a ≠ _compute_annot_fallback_id page_number subtype rect contents.
Proof.
  intros Hmd5 Hid Hpage Hsub Hrect Hcont.
  assert (Hkey : _annot_key a = spec_fallback_key page_number subtype rect contents).
  { unfold _annot_key, spec_fallback_key.
    rewrite Hid, Hpage, Hsub, Hcont, (norm_floats_floats _ rect Hrect).
    rewrite bool_decide_eq_false_2 by tauto.
    rewrite <-list_fmap_compose. cbn [str_join py_str]. by do 3 f_equal. }
  split; [done|]. rewrite Hkey. intros Heq%(f_equal length).
  unfold spec_fallback_key, _compute_annot_fallback_id in Heq.
  rewrite !length_app, !length_take, !Hmd5 in Heq. simpl in Heq. lia.
Qed.

(** ** A document against itself *)

Lemma compare_attrs_refl (prefix : string) (attrs : list string) (d : sdict) :
  compare_attrs prefix attrs d d = [].
Proof.
  unfold compare_attrs. induction attrs as [|attr attrs IH]; simpl; [done|].
  by rewrite py_eqb_refl.
Qed.

Lemma docx_text_self (d : Document) : _detect_docx_text_changes d d = Ok [].
Proof.
  apply for_each_nil. intros i _. unfold docx_paragraph_change.
  destruct (from_option p_text [] (d_paragraphs d !! i)) as [|c s].
  - done.
  - rewrite (bool_decide_eq_false_2 (c :: s = [])) by done.
    rewrite !andb_false_r. by rewrite bool_decide_eq_false_2 by (by intros []).
Qed.

Lemma pdf_text_self (d : Document) : _detect_pdf_text_changes d d = Ok [].
Proof.
  apply for_each_nil. intros i _. cbv beta zeta.
  rewrite get_opcodes_self. simpl.
  by destruct (decide _).
Qed.

Lemma sheet_named_elem (sheets : list Sheet) (name : pystr) :
  name ∈ s_name <$> sheets → is_Some (sheet_named sheets name).
Proof.
  intros (sh & -> & Hsh)%list_elem_of_fmap. unfold sheet_named.
  destruct (list_find _ sheets) as [[? ?]|] eqn:Hfind; [by eexists|].
  apply list_find_None in Hfind. by eapply Forall_forall in Hfind.
Qed.

Lemma xlsx_text_self (d : Document) : _detect_xlsx_text_changes d d = Ok [].
Proof.
  apply for_each_nil. intros sheet_name Hname. cbv beta zeta.
  apply elem_of_remove_dups, elem_of_app in Hname. 
  destruct (sheet_named_elem (d_sheets d) sheet_name) as [sh ->]; [tauto|].
  apply for_each_nil. intros coord Hcoord.
  apply elem_of_remove_dups, elem_of_app in Hcoord.
  destruct (dict_get coord (cells_by_coordinate sh)) as [c|] eqn:Hc.
  - by rewrite bool_decide_eq_false_2 by (by intros []).
  - apply dict_get_None in Hc. tauto.
Qed.

Lemma text_self (d : Document) t : d_type d = Some t → _detect_text_changes d d = Ok [].
Proof.
  intros Ht. unfold _detect_text_changes.
  rewrite !(both_of_type_same d d t) by done. simpl.
  case_bool_decide; [apply docx_text_self|].
  case_bool_decide; [apply pdf_text_self|].
  case_bool_decide; [apply xlsx_text_self|done].
Qed.

Lemma docx_formatting_self (d : Document) : _detect_docx_formatting_changes d d = [].
Proof.
  apply concat_imap_nil. intros i [orig_para rev_para] ->%lookup_zip_same.
  rewrite py_eqb_refl. simpl.
  apply concat_imap_nil. intros j [orun rrun] ->%lookup_zip_same.
  rewrite py_eqb_refl. unfold _compare_run_formatting. by rewrite compare_attrs_refl.
Qed.

Lemma compare_cell_formatting_self (c : Cell) :
  cell_described c → _compare_cell_formatting c c = Ok [].
Proof.
  intros (? & ? & ?). unfold _compare_cell_formatting.
  destruct (c_font c), (c_fill c), (c_border c); try done; simpl;
    by rewrite ?compare_attrs_refl, ?py_eqb_refl.
Qed.

Lemma xlsx_formatting_self (d : Document) :
  well_described d → _detect_xlsx_formatting_changes d d = Ok [].
Proof.
  intros Hd. apply for_each_nil. intros [os rs] Hin.
  pose proof (elem_of_zip_same _ _ _ Hin) as <-.
  apply elem_of_zip_l in Hin. eapply Forall_forall in Hd; [|done].
  unfold sheet_pair_formatting. rewrite bool_decide_eq_false_2 by (by intros []).
  apply for_each_nil. intros [coord oc] Hc.
  rewrite (dict_get_elem coord oc) by (apply dict_comp_NoDup || done).
  rewrite py_eqb_refl, compare_cell_formatting_self; [done|].
  eapply cells_by_coordinate_described; [done|].
  apply dict_get_elem; [apply dict_comp_NoDup|done].
Qed.

Lemma formatting_self (d : Document) t :
  d_type d = Some t → well_described d → _detect_formatting_changes d d = Ok [].
Proof.
  intros Ht Hd. unfold _detect_formatting_changes.
  rewrite !(both_of_type_same d d t) by done. simpl.
  case_bool_decide; [by rewrite docx_formatting_self|].
  case_bool_decide; [by apply xlsx_formatting_self|done].
Qed.

Lemma table_self (d : Document) t : d_type d = Some t → _detect_table_changes d d = Ok [].
Proof.
  intros Ht. unfold _detect_table_changes, _detect_docx_table_changes.
  rewrite !(both_of_type_same d d t) by done. simpl.
  case_bool_decide; [|done]. f_equal.
  rewrite bool_decide_eq_false_2 by (by intros []). simpl.
  apply concat_imap_nil. intros i [ot rt] ->%lookup_zip_same.
  rewrite bool_decide_eq_false_2 by (by intros []). simpl.
  apply concat_imap_nil. intros j [orow rrow] ->%lookup_zip_same.
  apply concat_imap_nil. intros k [ocell rcell] ->%lookup_zip_same.
  by rewrite py_eqb_refl.
Qed.

Lemma image_self (d : Document) t :
  d_type d = Some t → self_similar d → _detect_image_changes d d = Ok [].
Proof.
  intros Ht Hd. unfold _detect_image_changes, _detect_docx_image_changes.
  rewrite !(both_of_type_same d d t) by done. simpl.
  case_bool_decide; [|done]. f_equal.
  rewrite bool_decide_eq_false_2 by (by intros []). simpl.
  apply concat_imap_nil. intros i [oi ri] Hi.
  pose proof (lookup_zip_same _ _ _ _ Hi) as <-.
  rewrite bool_decide_eq_false_2 by (by intros []). simpl.
  apply lookup_zip_with_Some in Hi as (? & ? & [= <- _] & Hoi & _).
  eapply Forall_forall in Hd; [|by eapply list_elem_of_lookup_2].
  by rewrite Hd.
Qed.

Lemma annotation_diffs_self (a : Annotation) : annotation_diffs a a = [].
Proof.
  unfold annotation_diffs. rewrite !norm_eqb_refl.
  by rewrite !bool_decide_eq_false_2 by (by intros []).
Qed.

Lemma bind_for_each_nil {X Y Z} (l : list X) (body : X → res (list Y))
    (k : list Y → res Z) :
  (∀ x, x ∈ l → body x = Ok []) → for_each l body ≫= k = k [].
Proof. intros Hb. by rewrite for_each_nil. Qed.

Lemma annotation_self (d : Document) t :
  d_type d = Some t → _detect_annotation_changes d d = Ok [].
Proof.
  intros Ht. unfold _detect_annotation_changes, get_type. rewrite Ht. simpl.
  destruct (negb _); [done|].
  set (m := dict_comp _annot_key (d_annotations d)).
  assert (Hm : ∀ k a, (k, a) ∈ m → dict_get k m = Some a).
  { intros k a. apply dict_get_elem, dict_comp_NoDup. }
  rewrite !bind_for_each_nil; [done|..];
    intros [k a] Hin; cbv beta iota; rewrite (Hm k a Hin); try done;
    unfold annotation_modified; cbv zeta; rewrite annotation_diffs_self;
    by rewrite (bool_decide_eq_false_2 (default [] (a_contents a) ≠ _))
      by (by intros []).
Qed.

Lemma structural_self (d : Document) t :
  d_type d = Some t → _detect_structural_changes d d = Ok [].
Proof.
  intros Ht. unfold _detect_structural_changes, get_type, count_change. rewrite Ht. simpl.
  rewrite (bool_decide_eq_false_2 (t ≠ t)) by (by intros []).
  by rewrite !(bool_decide_eq_false_2 (length _ ≠ length _)) by (by intros []);
    repeat case_bool_decide.
Qed.


End detector_facts.

(** ** Instances of the statements above *)

Lemma detect_changes_type_mismatch_witness :
  let o := empty_document (Some (py "docx")) in
  let r := empty_document (Some (py "xlsx")) in
  d_type o = Some (py "docx") ∧ d_type r = Some (py "xlsx") ∧ py "docx" ≠ py "xlsx"
  ∧ detect_changes (H := Reference.runtime) o r = Ok
      {| text_changes := []; formatting_changes := []; table_changes := [];
         image_changes := []; annotation_changes := [];
         structural_changes :=
           [[("type", JStr (py "document_type_change"));
             ("original_type", JStr (py "docx")); ("revised_type", JStr (py "xlsx"))]];
         summary := {| total_changes := 1; text_changes_count := 0;
                       formatting_changes_count := 0; table_changes_count := 0;
                       image_changes_count := 0; annotation_changes_count := 0;
                       structural_changes_count := 1 |} |}.
Proof.
  intros o r.
  assert (Hne : py "docx" ≠ py "xlsx") by discriminate.
  split; [reflexivity|]. split; [reflexivity|]. split; [exact Hne|].
  exact (detect_changes_type_mismatch (H := Reference.runtime) o r
           (py "docx") (py "xlsx") eq_refl eq_refl Hne).
Defined.

(** Two documents of the unknown type [txt] compare silently. *)
Lemma detect_changes_unknown_type_counterexample :
  let d := empty_document (Some (py "txt")) in
  ¬ recognized (py "txt")
  ∧ detect_changes (H := Reference.runtime) d d = Ok no_changes.
Proof. split; [|reflexivity]. by intros [|[|]]. Qed.

Lemma detect_changes_unchecked_type_witness :
  let d := empty_document (Some (py "txt")) in
  let m := empty_document None in
  (d_type m = None ∨ d_type d = None)
  ∧ detect_changes (H := Reference.runtime) m d = Raise (KeyError "type")
  ∧ d_type d = Some (py "txt") ∧ ¬ recognized (py "txt")
  ∧ detect_changes (H := Reference.runtime) d d = Ok no_changes.
Proof.
  intros d m.
  assert (Hm : d_type m = None ∨ d_type d = None) by (left; reflexivity).
  assert (Hun : ¬ recognized (py "txt")) by (by intros [|[|]]).
  split; [exact Hm|].
  split; [exact (proj1 (detect_changes_unchecked_type (H := Reference.runtime) m d) Hm)|].
  split; [reflexivity|]. split; [exact Hun|].
  exact (proj2 (detect_changes_unchecked_type (H := Reference.runtime) d d)
           (py "txt") eq_refl eq_refl Hun).
Defined.


(** *** A document against itself *)



(** *** The fallback key of an annotation *)

Lemma md5_hex_length (bytes : list N) : length (Reference.md5_hex bytes) = 32.
Proof.
  unfold Reference.md5_hex. by destruct (foldl _ _ _) as [[[A B] C] D].
Qed.

Lemma annot_key_fallback_witness :
  let a := unnamed_highlight in
  let rect := [3 # 2; 9 # 4; 3; 4]%Q in
  (∀ s, length (md5_hexdigest (Runtime := Reference.runtime) s) = 32)
  ∧ default [] (a_id a) = []
  ∧ a_page_number a = VInt 1
  ∧ default [] (a_subtype a) = py "Highlight"
  ∧ default [] (a_rect a) = VFloat <$> rect
  ∧ default [] (a_contents a) = py "hello"
  ∧ _annot_key (H := Reference.runtime) a
      = spec_fallback_key (H := Reference.runtime) 1 (py "Highlight") rect (py "hello")
  ∧ _annot_key (H := Reference.runtime) a
      ≠ _compute_annot_fallback_id (H := Reference.runtime) 1 (py "Highlight") rect (py "hello").
Proof.
  intros a rect.
  assert (Hmd5 : ∀ s, length (md5_hexdigest (Runtime := Reference.runtime) s) = 32).
  { intros s. apply md5_hex_length. }
  split; [exact Hmd5|]. do 5 (split; [reflexivity|]).
  exact (annot_key_fallback (H := Reference.runtime) a 1 (py "Highlight") rect (py "hello")
           Hmd5 eq_refl eq_refl eq_refl eq_refl eq_refl).
Defined.

(** The comparator hashes [1:Highlight:1.5,2.25,3.0,4.0:hello], the
    extractor [1:Highlight:1.50,2.25,3.00,4.00:hello], and the extractor
    puts the page and the subtype in front of the digest. *)
Lemma annot_key_fallback_counterexample :
  _annot_key (H := Reference.runtime) unnamed_highlight = py "AUTO-5d46d26991"
  ∧ _compute_annot_fallback_id (H := Reference.runtime) 1 (py "Highlight")
      [3 # 2; 9 # 4; 3; 4]%Q (py "hello") = py "AUTO-1-Highlight-cb74e9dbf4".
Proof. split; vm_compute; reflexivity. Qed.

(** *** Paragraphs *)

(** An empty paragraph that only the revision has gives no record. *)
Lemma docx_text_changes_by_index_counterexample :
  let o := docx_document [] in
  let r := docx_document [paragraph ""] in
  d_paragraphs o !! 0 = None
  ∧ d_paragraphs r !! 0 = Some (paragraph "")
  ∧ _detect_docx_text_changes (H := Reference.runtime) o r = Ok [].
Proof. repeat split. Qed.

(** *** Cells *)

Lemma xlsx_formatting_by_position_witness :
  let o := one_cell_workbook "Sheet1" (bold false) in
  let r := one_cell_workbook "Sheet1" (bold true) in
  well_described o ∧ well_described r
  ∧ _detect_xlsx_formatting_changes (H := Reference.runtime) o r = Ok
      [cell_formatting_record (py "A1") (py "Sheet1")
         [py "font_bold: False " ++ [8594%N] ++ py " True"]]
  ∧ ∃ outs, _detect_xlsx_formatting_changes (H := Reference.runtime) o r = Ok (concat outs)
      ∧ length outs = length (d_sheets o) `min` length (d_sheets r)
      ∧ ∀ p os rs,
          d_sheets o !! p = Some os → d_sheets r !! p = Some rs →
          ∃ out, outs !! p = Some out
            ∧ (s_name os ≠ s_name rs → out = [])
            ∧ (s_name os = s_name rs →
               ∀ coord oc rc,
                 dict_get coord (cells_by_coordinate os) = Some oc →
                 dict_get coord (cells_by_coordinate rs) = Some rc →
                 py_eqb (c_value oc) (c_value rc) = true →
                 at_coordinate coord out =
                   if decide (differing_attributes (H := Reference.runtime) oc rc = []) then []
                   else [cell_formatting_record coord (s_name os)
                           (differing_attributes (H := Reference.runtime) oc rc)]).
Proof.
  intros o r.
  assert (Ho : well_described o) by (repeat constructor; discriminate).
  assert (Hr : well_described r) by (repeat constructor; discriminate).
  split; [exact Ho|]. split; [exact Hr|]. split; [reflexivity|].
  exact (xlsx_formatting_by_position (H := Reference.runtime) o r Ho Hr).
Defined.

(** Two sheets at position 0 whose names differ: the cell [A1] has the
    same value on both sides and a different font, and nothing is
    recorded. *)
Lemma xlsx_formatting_by_position_counterexample :
  let o := one_cell_workbook "Sheet1" (bold false) in
  let r := one_cell_workbook "Data" (bold true) in
  (∃ os rs oc rc,
     d_sheets o !! 0 = Some os ∧ d_sheets r !! 0 = Some rs
     ∧ dict_get (py "A1") (cells_by_coordinate os) = Some oc
     ∧ dict_get (py "A1") (cells_by_coordinate rs) = Some rc
     ∧ py_eqb (c_value oc) (c_value rc) = true
     ∧ differing_attributes (H := Reference.runtime) oc rc
         = [py "font_bold: False " ++ [8594%N] ++ py " True"])
  ∧ _detect_xlsx_formatting_changes (H := Reference.runtime) o r = Ok [].
Proof. split; [|reflexivity]. do 4 eexists. repeat split. Qed.


(** * More of the detector *)

(** ** The matcher against an empty sequence *)

Section matcher_edges.
Context {A : Type} `{Countable A}.
Implicit Types a b : list A.

Lemma flm_rows_no_index a blo bhi rows j2len best :
  flm_rows a ∅ blo bhi rows j2len best = best.
Proof.
  revert j2len. induction rows as [|i rows IH]; intros j2len; simpl; [done|].
  destruct (a !! i); simpl; rewrite ?lookup_empty; simpl; apply IH.
Qed.

Lemma extend_up_nil cond a ahi bhi besti bestj bestsize n :
  extend_up cond a [] ahi bhi besti bestj bestsize n = (besti, bestj, bestsize).
Proof. destruct n; simpl; [done|]. by destruct (a !! _). Qed.

Lemma get_opcodes_nil_l b :
  get_opcodes [] b
  = Some (if decide (b = []) then [] else [Opcode Insert 0 0 0 (length b)]).
Proof.
  destruct b as [|y b]; reflexivity.
Qed.

Lemma get_opcodes_nil_r a :
  get_opcodes a []
  = Some (if decide (a = []) then [] else [Opcode Delete 0 (length a) 0 0]).
Proof.
  destruct a as [|x a]; [done|].
  unfold get_opcodes, get_matching_blocks, gmb_fuel.
  rewrite Nat.add_1_r. cbn [gmb_loop].
  assert (find_longest_match (x :: a) [] (chain_b []) 0 (length (x :: a)) 0
            (length (@nil A)) = (0, 0, 0)) as ->.
  { unfold find_longest_match. change (chain_b []) with (∅ : gmap A (list nat)).
    rewrite flm_rows_no_index. unfold extend. cbn [extend_down].
    by rewrite !extend_up_nil. }
  reflexivity.
Qed.

End matcher_edges.

(** ** The word diff *)

Lemma html_escape_app (s t : pystr) : html_escape (s ++ t) = html_escape s ++ html_escape t.
Proof. apply List.flat_map_app. Qed.

Lemma escape_join_concat (ts : list pystr) : escape_join ts = html_escape (concat ts).
Proof.
  unfold escape_join. induction ts as [|t ts IH]; simpl; [done|].
  by rewrite html_escape_app, IH.
Qed.

Lemma html_escape_no_markup (s : pystr) : Forall (λ c, ¬ markup_char c) (html_escape s).
Proof.
  unfold html_escape. induction s as [|c s IH]; simpl; [constructor|].
  apply Forall_app_2; [|done].
  repeat case_bool_decide; subst;
    repeat (apply Forall_cons_2; [by intros [|[|[|]]]|]); apply Forall_nil_2.
Qed.

Lemma flat_map_flat_map {X Y Z} (f : X → list Y) (g : Y → list Z) (l : list X) :
  flat_map g (flat_map f l) = flat_map (λ x, flat_map g (f x)) l.
Proof. induction l as [|x l IH]; simpl; [done|]. by rewrite List.flat_map_app, IH. Qed.

Lemma concat_flat_map {X Y} (f : X → list (list Y)) (l : list X) :
  concat (flat_map f l) = flat_map (λ x, concat (f x)) l.
Proof. induction l as [|x l IH]; simpl; [done|]. by rewrite concat_app, IH. Qed.

Lemma concat_fmap {X Y} (f : X → list Y) (l : list X) : concat (f <$> l) = flat_map f l.
Proof. induction l as [|x l IH]; simpl; [done|]. by f_equal. Qed.

Lemma flat_map_sublist {X Y} (f g : X → list Y) (l : list X) :
  Forall (λ x, f x `sublist_of` g x) l → flat_map f l `sublist_of` flat_map g l.
Proof. induction 1; simpl; [done|]. by apply sublist_app. Qed.

Section detector_more.
Context `{Runtime}.

Lemma visible_terms_app (ts us : list pystr) :
  visible_terms (ts ++ us) = visible_terms ts ++ visible_terms us.
Proof. apply filter_app. Qed.

Lemma visible_terms_flat_map {X} (f : X → list pystr) (l : list X) :
  visible_terms (flat_map f l) = flat_map (λ x, visible_terms (f x)) l.
Proof. induction l as [|x l IH]; simpl; [done|]. by rewrite visible_terms_app, IH. Qed.

(** What the loop of [_word_diff_html] leaves in [pieces], [added] and
    [deleted]. *)
Lemma word_diff_fold (a b : list pystr) (ops : list opcode) pieces added deleted :
  foldl (word_diff_step a b) (pieces, added, deleted) ops
  = (pieces ++ ((λ op, flat_map render (segments_of a b op)) <$> ops),
     added ++ flat_map (λ op, visible_terms (inserted_tokens b op)) ops,
     deleted ++ flat_map (λ op, visible_terms (deleted_tokens a op)) ops).
Proof.
  revert pieces added deleted.
  induction ops as [|[tg i1 i2 j1 j2] ops IH]; intros pieces added deleted; simpl.
  - by rewrite !app_nil_r.
  - destruct tg; rewrite IH; unfold segments_of, inserted_tokens, deleted_tokens; simpl;
      rewrite !escape_join_concat, <-?app_assoc, ?app_nil_r; done.
Qed.

Lemma word_diff_html_eq (old new : pystr) (ops : list opcode) :
  let a := _tokenize_keep_spaces old in
  let b := _tokenize_keep_spaces new in
  get_opcodes a b = Some ops →
  _word_diff_html old new = Ok
    (flat_map render (flat_map (segments_of a b) ops),
     visible_terms (flat_map (inserted_tokens b) ops),
     visible_terms (flat_map (deleted_tokens a) ops)).
Proof.
  intros a b Hops. unfold _word_diff_html. fold a b. rewrite Hops. simpl.
  rewrite word_diff_fold. simpl.
  rewrite flat_map_flat_map, !visible_terms_flat_map.
  by rewrite concat_fmap.
Qed.

Lemma opcode_new_text (a b : list pystr) (op : opcode) :
  opcode_ok a b op → flat_map new_text (segments_of a b op) = concat (b_span b op).
Proof.
  destruct op as [tg i1 i2 j1 j2]. unfold opcode_ok, segments_of, b_span. simpl.
  destruct tg; simpl; rewrite ?app_nil_r; try done.
  - by intros ->.
  - intros ->. by rewrite slice_nil.
Qed.

Lemma opcode_old_text (a b : list pystr) (op : opcode) :
  opcode_ok a b op → flat_map old_text (segments_of a b op) = concat (a_span a op).
Proof.
  destruct op as [tg i1 i2 j1 j2]. unfold opcode_ok, segments_of, a_span. simpl.
  destruct tg; simpl; rewrite ?app_nil_r; try done.
  intros ->. by rewrite slice_nil.
Qed.

Lemma span_markup_render (a b : list pystr) (op : opcode) :
  flat_map render (segments_of a b op) = span_markup a b op.
Proof.
  destruct op as [tg i1 i2 j1 j2]. unfold segments_of, span_markup, new_side, old_side.
  destruct tg; simpl; by rewrite ?escape_join_concat, ?app_nil_r.
Qed.

(** C6: [_word_diff_html] returns, and the markup it returns is, opcode by
    opcode of the matcher on the two token lists, the escaped tokens of
    the spans: bare for [equal], inside [<ins>] for the new side of
    [insert] and [replace], inside [<del>] for the old side of [delete]
    and [replace].  Joining the tokens of the [equal] spans with the
    new-side tokens of the [insert] and [replace] spans gives [new];
    joining them with the old-side tokens of the [delete] and [replace]
    spans gives [old]; and joining all the tokens of a string gives the
    string back. *)
Theorem token_diff_round_trip (old new : pystr) :
  let a := _tokenize_keep_spaces old in
  let b := _tokenize_keep_spaces new in
  ∃ ops added deleted,
    get_opcodes a b = Some ops
    ∧ _word_diff_html old new = Ok (concat (span_markup a b <$> ops), added, deleted)
    ∧ concat (flat_map (new_side a b) ops) = new
    ∧ concat (flat_map (old_side a b) ops) = old
    ∧ concat a = old
    ∧ concat b = new.
Proof.
  intros a b.
  destruct (get_opcodes_spec a b) as (ops & Hops & Ha & Hb & Hok).
  pose proof (word_diff_html_eq old new ops Hops) as Heq.
  exists ops, (visible_terms (flat_map (inserted_tokens b) ops)),
    (visible_terms (flat_map (deleted_tokens a) ops)).
  split; [done|]. split.
  { rewrite Heq. fold a b.
    assert (flat_map render (flat_map (segments_of a b) ops)
            = concat (span_markup a b <$> ops)) as ->; [|done].
    rewrite flat_map_flat_map. etrans; [|symmetry; apply concat_fmap].
    apply flat_map_ext_Forall, Forall_forall. intros op _. apply span_markup_render. }
  assert (flat_map (new_side a b) ops = b) as ->.
  { rewrite <-Hb at 2. apply flat_map_ext_Forall.
    eapply Forall_impl; [exact Hok|]. intros [tg i1 i2 j1 j2].
    unfold opcode_ok, new_side, b_span. simpl.
    destruct tg; try done. intros ->. by rewrite slice_nil. }
  assert (flat_map (old_side a b) ops = a) as ->.
  { rewrite <-Ha at 2. apply flat_map_ext_Forall.
    eapply Forall_impl; [exact Hok|]. intros [tg i1 i2 j1 j2].
    unfold opcode_ok, old_side, a_span. simpl.
    destruct tg; try done. intros ->. by rewrite slice_nil. }
  subst a b. by rewrite !tokenize_join.
Qed.

(** X1: the markup is a sequence of stretches, kept, inserted or removed,
    each written with [html.escape]; the kept and inserted stretches spell
    [new], the kept and removed ones [old]; and the characters [<], [>] and
    the quotes occur in the markup only in the tags of the differ. *)
Theorem word_diff_html_markup (old new : pystr) :
  ∃ segs added deleted,
    _word_diff_html old new = Ok (flat_map render segs, added, deleted)
    ∧ flat_map new_text segs = new
    ∧ flat_map old_text segs = old
    ∧ Forall (λ g, Forall (λ c, ¬ markup_char c) (html_escape (seg_text g))) segs.
Proof.
  set (a := _tokenize_keep_spaces old). set (b := _tokenize_keep_spaces new).
  destruct (get_opcodes_spec a b) as (ops & Hops & Ha & Hb & Hok).
  eexists _, _, _. split; [by apply word_diff_html_eq|]. split_and!.
  - rewrite flat_map_flat_map.
    rewrite (flat_map_ext_Forall _ (λ op, concat (b_span b op))).
    + rewrite <-(concat_flat_map (b_span b)), <-(tokenize_join new). f_equal. exact Hb.
    + eapply Forall_impl; [exact Hok|]. apply opcode_new_text.
  - rewrite flat_map_flat_map.
    rewrite (flat_map_ext_Forall _ (λ op, concat (a_span a op))).
    + rewrite <-(concat_flat_map (a_span a)), <-(tokenize_join old). f_equal. exact Ha.
    + eapply Forall_impl; [exact Hok|]. apply opcode_old_text.
  - apply Forall_forall. intros g _. apply html_escape_no_markup.
Qed.

(** X2: the terms reported as added are tokens of [new], in their order and
    none of them blank; those reported as deleted are tokens of [old]. *)
Theorem word_diff_html_terms (old new : pystr) :
  ∃ html added deleted,
    _word_diff_html old new = Ok (html, added, deleted)
    ∧ added `sublist_of` visible_terms (_tokenize_keep_spaces new)
    ∧ deleted `sublist_of` visible_terms (_tokenize_keep_spaces old).
Proof.
  set (a := _tokenize_keep_spaces old). set (b := _tokenize_keep_spaces new).
  destruct (get_opcodes_spec a b) as (ops & Hops & Ha & Hb & Hok).
  eexists _, _, _. split; [by apply word_diff_html_eq|].
  fold a b.
  assert (Hb' : visible_terms b = visible_terms (flat_map (b_span b) ops))
    by (f_equal; symmetry; exact Hb).
  assert (Ha' : visible_terms a = visible_terms (flat_map (a_span a) ops))
    by (f_equal; symmetry; exact Ha).
  rewrite Ha', Hb', !visible_terms_flat_map.
  split; apply flat_map_sublist, Forall_forall; intros [tg i1 i2 j1 j2] _;
    unfold inserted_tokens, deleted_tokens, a_span, b_span; simpl;
    destruct tg; try done; apply sublist_nil_l.
Qed.

(** X3: a text against itself is returned escaped, with no tag and no term. *)
Theorem word_diff_html_same (s : pystr) :
  _word_diff_html s s = Ok (html_escape s, [], []).
Proof.
  rewrite (word_diff_html_eq s s _ (get_opcodes_self _)).
  pose proof (tokenize_join s) as Hs.
  destruct (decide (_tokenize_keep_spaces s = [])) as [Hnil|_].
  - rewrite Hnil in Hs. by rewrite <-Hs.
  - unfold segments_of, inserted_tokens, deleted_tokens. simpl.
    by rewrite slice_all, Hs, !app_nil_r.
Qed.

(** X4: against the empty text, the whole text is one insertion, and every
    token of it that is not blank a term; and the other way round. *)
Theorem word_diff_html_empty (s : pystr) :
  s ≠ [] →
  _word_diff_html [] s
    = Ok (ins_markup (html_escape s), visible_terms (_tokenize_keep_spaces s), [])
  ∧ _word_diff_html s []
    = Ok (del_markup (html_escape s), [], visible_terms (_tokenize_keep_spaces s)).
Proof.
  intros Hs. pose proof (tokenize_join s) as Hj.
  assert (Hne : _tokenize_keep_spaces s ≠ []) by (intros Hnil; by rewrite Hnil in Hj).
  split.
  - rewrite (word_diff_html_eq [] s _ (get_opcodes_nil_l _)).
    rewrite decide_False by done.
    unfold segments_of, inserted_tokens, deleted_tokens. simpl.
    by rewrite slice_all, Hj, !app_nil_r.
  - rewrite (word_diff_html_eq s [] _ (get_opcodes_nil_r _)).
    rewrite decide_False by done.
    unfold segments_of, inserted_tokens, deleted_tokens. simpl.
    by rewrite slice_all, Hj, !app_nil_r.
Qed.

(** ** The tokenizer *)

Lemma re_plus_spec p s m rest :
  re_plus p s = (m, rest) →
  s = m ++ rest ∧ Forall (λ c, p c = true) m
  ∧ match rest with c :: _ => p c = false | [] => True end.
Proof.
  revert m rest. induction s as [|c s IH]; intros m rest; simpl.
  - by intros [= <- <-].
  - destruct (p c) eqn:Hc; [|by intros [= <- <-]].
    destruct (re_plus p s) as [m' rest']. intros [= <- <-].
    destruct (IH _ _ eq_refl) as (-> & ? & ?). split_and!; [done|by constructor|done].
Qed.

Lemma re_plus_nil p c s rest : re_plus p (c :: s) = ([], rest) → p c = false.
Proof. simpl. destruct (p c); [|done]. by destruct (re_plus p s). Qed.

Lemma re_alt_run ps s m rest :
  re_alt ps s = Some (m, rest) → Exists (λ p, Forall (λ c, p c = true) m) ps.
Proof.
  induction ps as [|p ps IH]; simpl; [done|].
  destruct (re_plus p s) as [[|c m'] rest'] eqn:Hp; [intros; right; auto|].
  intros [= <- <-]. left. by apply re_plus_spec in Hp as (_ & ? & _).
Qed.

Lemma re_findall_runs ps n s :
  Forall (λ m, m ≠ [] ∧ Exists (λ p, Forall (λ c, p c = true) m) ps) (re_findall ps n s).
Proof.
  revert s. induction n as [|n IH]; intros [|c s]; simpl; try constructor.
  destruct (re_alt ps (c :: s)) as [[m rest]|] eqn:Hm; [|apply IH].
  constructor; [|apply IH]. split; [by eapply re_alt_Some|by eapply re_alt_run].
Qed.

(** X5: every token is a non-empty run of word characters, of characters
    that are neither word characters nor white space, or of white space. *)
Theorem tokens_are_runs (s : pystr) :
  Forall (λ t, t ≠ [] ∧ (word_run t ∨ symbol_run t ∨ space_run t))
         (_tokenize_keep_spaces s).
Proof.
  eapply Forall_impl; [apply re_findall_runs|]. intros t [Hne Hrun]. split; [done|].
  apply Exists_cons in Hrun as [Hw|Hrun]; [by left|].
  apply Exists_cons in Hrun as [Ho|Hrun].
  { right. left. eapply Forall_impl; [exact Ho|].
    intros c [?%negb_true_iff ?%negb_true_iff]%andb_true_iff. done. }
  apply Exists_cons in Hrun as [Hs|Hrun]; [by right; right|].
  by apply Exists_nil in Hrun.
Qed.

Lemma token_stop (s m rest u : pystr) (c : N) :
  (∀ x, isword_cp x = true → isspace_cp x = false) →
  re_alt [isword_cp; (λ c, negb (isword_cp c) && negb (isspace_cp c)); isspace_cp] s
    = Some (m, c :: rest) →
  ¬ same_kind m (c :: u).
Proof.
  intros Hdisj. cbn [re_alt].
  destruct (re_plus isword_cp s) as [[|x m1] r1] eqn:H1.
  - destruct (re_plus _ s) as [[|x m2] r2] eqn:H2 in |- *.
    + destruct (re_plus isspace_cp s) as [[|x m3] r3] eqn:H3; [done|].
      intros [= <- ->]. apply re_plus_spec in H3 as (-> & Hm & Hc).
      apply re_plus_nil in H1. apply re_plus_nil in H2.
      apply Forall_cons in Hm as [Hx _].
      intros [[Hw _]|[[Ho _]|[_ Hs]]].
      * apply Forall_cons in Hw as [? _]. congruence.
      * apply Forall_cons in Ho as [[_ ?] _]. congruence.
      * apply Forall_cons in Hs as [? _]. congruence.
    + intros [= <- ->]. apply re_plus_spec in H2 as (-> & Hm & Hc).
      apply Forall_cons in Hm as [[Hxw Hxs]%andb_true_iff _].
      apply negb_true_iff in Hxw, Hxs.
      intros [[Hw _]|[[_ Ho]|[Hs _]]].
      * apply Forall_cons in Hw as [? _]. congruence.
      * apply Forall_cons in Ho as [[Hcw Hcs] _]. by rewrite Hcw, Hcs in Hc.
      * apply Forall_cons in Hs as [? _]. congruence.
  - intros [= <- ->]. apply re_plus_spec in H1 as (-> & Hm & Hc).
    apply Forall_cons in Hm as [Hx _].
    intros [[_ Hw]|[[Ho _]|[Hs _]]].
    + apply Forall_cons in Hw as [? _]. congruence.
    + apply Forall_cons in Ho as [[? _] _]. congruence.
    + apply Forall_cons in Hs as [? _]. apply Hdisj in Hx. congruence.
Qed.

Lemma tokenizer_covering (c : N) :
  Exists (λ p : N → bool, p c = true)
    [isword_cp; (λ c, negb (isword_cp c) && negb (isspace_cp c)); isspace_cp].
Proof.
  destruct (isword_cp c) eqn:Hw; [by left|].
  destruct (isspace_cp c) eqn:Hs.
  - right. right. by left.
  - right. left. by rewrite Hw, Hs.
Qed.

Lemma tokens_adjacent (n : nat) (s : pystr) (i : nat) (t u : pystr) :
  (∀ x, isword_cp x = true → isspace_cp x = false) →
  length s ≤ n →
  let toks := re_findall [isword_cp; (λ c, negb (isword_cp c) && negb (isspace_cp c));
                          isspace_cp] n s in
  toks !! i = Some t → toks !! S i = Some u → ¬ same_kind t u.
Proof.
  intros Hdisj. revert s i.
  induction n as [|n IH]; intros [|c s] i Hn; cbn [re_findall]; try done;
    try (simpl in Hn; lia).
  destruct (re_alt_covering _ c s (tokenizer_covering c)) as [[m rest] Hm].
  rewrite Hm. cbv zeta. pose proof (re_alt_Some _ _ _ _ Hm) as [Hne Happ].
  assert (Hrest : length rest ≤ n).
  { apply (f_equal length) in Happ. rewrite length_app in Happ. simpl in *.
    destruct m; [done|]. simpl in *. lia. }
  destruct i as [|i]; [|by apply IH].
  intros [= <-] Hu.
  pose proof (re_findall_concat _ n rest tokenizer_covering Hrest) as Hcat.
  pose proof (re_findall_runs
    [isword_cp; (λ c, negb (isword_cp c) && negb (isspace_cp c)); isspace_cp] n rest) as Hruns.
  destruct (re_findall _ n rest) as [|u' toks]; [done|].
  injection Hu as ->. apply Forall_cons in Hruns as [[Hu _] _].
  destruct u as [|c' u]; [done|]. simpl in Hcat. subst rest.
  by eapply token_stop.
Qed.

(** X6: no two neighbouring tokens are of one kind, so every token is a
    run that cannot be made longer.  ([\w] and [\s] share no character.) *)
Theorem tokens_are_maximal (s : pystr) (i : nat) (t u : pystr) :
  (∀ x, isword_cp x = true → isspace_cp x = false) →
  _tokenize_keep_spaces s !! i = Some t →
  _tokenize_keep_spaces s !! S i = Some u →
  ¬ same_kind t u.
Proof. intros Hdisj. by apply tokens_adjacent. Qed.

(** ** Sentences *)

Lemma ink_app (s t : pystr) : ink (s ++ t) = ink s ++ ink t.
Proof. apply filter_app. Qed.

Lemma ink_breaks (m : pystr) : Forall (λ c, is_break c = true) m → ink m = [].
Proof.
  intros Hm. apply filter_none. eapply Forall_impl; [exact Hm|]. intros c -> . done.
Qed.

Lemma re_split_sentences_spec (n : nat) (prev : option N) (cur s : pystr) :
  length s ≤ n → 10%N ∉ cur →
  Forall (λ p, 10%N ∉ p) (re_split_sentences n prev cur s)
  ∧ ink (concat (re_split_sentences n prev cur s)) = ink (cur ++ s).
Proof.
  revert prev cur s. induction n as [|n IH]; intros prev cur [|c s] Hn Hcur;
    cbn [re_split_sentences]; try (simpl in Hn; lia).
  - split; [by repeat constructor|]. simpl. by rewrite !app_nil_r.
  - split; [by repeat constructor|]. simpl. by rewrite !app_nil_r.
  - match goal with
    | |- context [match ?t with pair _ _ => _ end] => destruct t as [m rest] eqn:Hm
    end.
    assert (Hsplit : c :: s = m ++ rest ∧ Forall (λ c, is_break c = true) m
                     ∧ (m = [] → c ≠ 10%N)).
    { assert (Hlf : re_plus (λ x, bool_decide (x = 10%N)) (c :: s) = (m, rest) →
                    c :: s = m ++ rest ∧ Forall (λ c, is_break c = true) m
                    ∧ (m = [] → c ≠ 10%N)).
      { intros Hlf. pose proof (re_plus_spec _ _ _ _ Hlf) as (Happ & Hall & _).
        split_and!; [done| |].
        - eapply Forall_impl; [exact Hall|]. intros x Hx. unfold is_break.
          rewrite Hx. apply orb_true_r.
        - intros ->. apply re_plus_nil in Hlf. by case_bool_decide. }
      destruct (from_option is_sentence_end false prev); [|by apply Hlf].
      destruct (re_plus isspace_cp (c :: s)) as [[|x bs] r] eqn:Hbs; [by apply Hlf|].
      injection Hm as <- <-.
      apply re_plus_spec in Hbs as (Happ & Hall & _). split_and!; [done| |done].
      eapply Forall_impl; [exact Hall|]. intros y Hy. unfold is_break. by rewrite Hy. }
    destruct Hsplit as (Happ & Hall & Hnil).
    destruct m as [|x m].
    + simpl in Happ. subst rest.
      destruct (IH (Some c) (cur ++ [c]) s) as [Hparts Hink]; [simpl in Hn; lia| |].
      { rewrite elem_of_app, list_elem_of_singleton. intros [?|?]; [done|].
        by apply Hnil. }
      split; [done|]. by rewrite Hink, <-app_assoc.
    + assert (Hrest : length rest ≤ n).
      { apply (f_equal length) in Happ. rewrite length_app in Happ. simpl in *. lia. }
      destruct (IH (last (x :: m)) [] rest Hrest) as [Hparts Hink]; [apply not_elem_of_nil|].
      split; [by constructor|].
      cbn [concat]. rewrite ink_app, Hink, Happ, !ink_app, (ink_breaks (x :: m)) by done.
      done.
Qed.

Lemma concat_filter_nonempty {X} `{∀ p : list X, Decision (p ≠ [])} (l : list (list X)) :
  concat (filter (λ p, p ≠ []) l) = concat l.
Proof.
  induction l as [|p l IH]; [done|].
  destruct p as [|x p].
  - rewrite filter_cons_False by (by intros []). done.
  - rewrite filter_cons_True by done. simpl. by rewrite IH.
Qed.

(** X7: no sentence is empty and none holds a line feed; and what the
    sentences leave out of the text is white space and line feeds only. *)
Theorem split_sentences_content (s : pystr) :
  Forall (λ p, p ≠ [] ∧ 10%N ∉ p) (_split_sentences s)
  ∧ ink (concat (_split_sentences s)) = ink s.
Proof.
  unfold _split_sentences.
  destruct (re_split_sentences_spec (length s) None [] s) as [Hparts Hink];
    [done|apply not_elem_of_nil|].
  split.
  - apply Forall_forall. intros p [Hne Hin]%list_elem_of_filter. split; [done|].
    by eapply Forall_forall in Hparts.
  - simpl in Hink. rewrite <-Hink. f_equal. apply concat_filter_nonempty.
Qed.

(** ** What [detect_changes] returns and raises *)

Lemma for_each_Raise {X Y} (l : list X) (body : X → res (list Y)) e :
  for_each l body = Raise e → ∃ x, x ∈ l ∧ body x = Raise e.
Proof.
  induction l as [|x l IH]; simpl; [done|].
  destruct (body x) as [out|e'] eqn:Hx; simpl.
  - destruct (for_each l body) as [zs|e'']; simpl; [done|].
    intros [= ->]. destruct (IH eq_refl) as (y & ? & ?). exists y. split; [by right|done].
  - intros [= ->]. exists x. split; [by left|done].
Qed.

Lemma pdf_text_total (o r : Document) : ∃ recs, _detect_pdf_text_changes o r = Ok recs.
Proof.
  apply for_each_total. intros i _. cbv beta zeta.
  match goal with
  | |- context [get_opcodes ?a ?b] => destruct (get_opcodes_spec a b) as (ops & -> & _)
  end.
  simpl. apply for_each_total. intros [tg i1 i2 j1 j2] _.
  destruct tg; try by eexists.
  match goal with
  | |- context [for_each ?l ?body] => destruct (for_each_total l body) as [modified ->]
  end; [|by eexists].
  intros [s_old s_new] _.
  destruct (word_diff_html_total s_old s_new) as [[[??]?] ->]. by eexists.
Qed.

Lemma xlsx_text_total (o r : Document) : ∃ recs, _detect_xlsx_text_changes o r = Ok recs.
Proof.
  apply for_each_total. intros sheet_name _. cbv beta zeta.
  destruct (sheet_named _ _) as [osheet|]; [|by eexists].
  destruct (sheet_named _ _) as [rsheet|]; [|by eexists].
  apply for_each_total. intros coord _.
  destruct (dict_get _ _) as [oc|]; [|by eexists].
  destruct (dict_get _ _) as [rc|]; [|by eexists].
  case_bool_decide; [|by eexists].
  destruct (word_diff_html_total (_to_str (c_value oc)) (_to_str (c_value rc)))
    as [[[??]?] ->].
  by eexists.
Qed.

Lemma both_of_type_total (o r : Document) kind :
  is_Some (d_type o) → is_Some (d_type r) → ∃ b, both_of_type o r kind = Ok b.
Proof.
  intros [ot Ho] [rt Hr]. unfold both_of_type, get_type. rewrite Ho, Hr. simpl.
  case_bool_decide; by eexists.
Qed.

Lemma text_total (o r : Document) :
  is_Some (d_type o) → is_Some (d_type r) → ∃ recs, _detect_text_changes o r = Ok recs.
Proof.
  intros Ho Hr. unfold _detect_text_changes.
  destruct (both_of_type_total o r (py "docx") Ho Hr) as [[] ->]; simpl.
  { destruct (docx_text_changes_at o r) as (recs & -> & _). by eexists. }
  destruct (both_of_type_total o r (py "pdf") Ho Hr) as [[] ->]; simpl;
    [apply pdf_text_total|].
  destruct (both_of_type_total o r (py "xlsx") Ho Hr) as [[] ->]; simpl;
    [apply xlsx_text_total|by eexists].
Qed.

Lemma annotation_modified_total k (ao ar : Annotation) :
  ∃ out, annotation_modified k ao ar = Ok out.
Proof.
  unfold annotation_modified.
  destruct (word_diff_html_total (default [] (a_contents ao)) (default [] (a_contents ar)))
    as [[[??]?] Hd].
  repeat case_bool_decide; rewrite ?Hd; simpl; by eexists.
Qed.

Lemma annotation_total (o r : Document) :
  is_Some (d_type o) → is_Some (d_type r) →
  ∃ recs, _detect_annotation_changes o r = Ok recs.
Proof.
  intros [ot Ho] [rt Hr]. unfold _detect_annotation_changes, get_type.
  rewrite Ho, Hr. simpl. destruct (negb _); [by eexists|].
  match goal with
  | |- context [for_each ?l ?body ≫= _] => destruct (for_each_total l body) as [added ->]
  end.
  { intros [k a] _. destruct (dict_get _ _); by eexists. }
  simpl.
  match goal with
  | |- context [for_each ?l ?body ≫= _] => destruct (for_each_total l body) as [deleted ->]
  end.
  { intros [k a] _. destruct (dict_get _ _); by eexists. }
  simpl.
  match goal with
  | |- context [for_each ?l ?body ≫= _] => destruct (for_each_total l body) as [modified ->]
  end.
  { intros [k a] _. destruct (dict_get _ _); [apply annotation_modified_total|by eexists]. }
  by eexists.
Qed.

Lemma structural_total (o r : Document) :
  is_Some (d_type o) → is_Some (d_type r) →
  ∃ recs, _detect_structural_changes o r = Ok recs.
Proof.
  intros [ot Ho] [rt Hr]. unfold _detect_structural_changes, get_type.
  rewrite Ho, Hr. simpl. repeat case_bool_decide; by eexists.
Qed.

Lemma compare_cell_formatting_raises (oc rc : Cell) e :
  _compare_cell_formatting oc rc = Raise e → e = AttributeError.
Proof.
  unfold _compare_cell_formatting.
  destruct (c_font oc), (c_font rc), (c_fill oc), (c_fill rc), (c_border oc), (c_border rc);
    simpl; congruence.
Qed.

Lemma xlsx_formatting_raises (o r : Document) e :
  _detect_xlsx_formatting_changes o r = Raise e → e = AttributeError.
Proof.
  intros ([os rs] & _ & Hpair)%for_each_Raise. unfold sheet_pair_formatting in Hpair.
  case_bool_decide; [done|].
  apply for_each_Raise in Hpair as ([coord oc] & _ & Hcell).
  destruct (dict_get _ _) as [rc|]; [|done].
  destruct (py_eqb _ _); [|done].
  destruct (_compare_cell_formatting oc rc) as [fmt|e'] eqn:Hfmt; simpl in Hcell.
  - by case_bool_decide.
  - injection Hcell as <-. by eapply compare_cell_formatting_raises.
Qed.

Lemma xlsx_formatting_total (o r : Document) :
  well_described o → well_described r →
  ∃ recs, _detect_xlsx_formatting_changes o r = Ok recs.
Proof.
  intros Ho Hr. apply for_each_total.
  intros [os rs] [p Hp]%list_elem_of_lookup.
  apply lookup_zip_with_Some in Hp as (os' & rs' & [= <- <-] & Hos & Hrs).
  destruct (sheet_pair_formatting_spec os rs) as (out & -> & _); [| |by eexists].
  - eapply Forall_forall in Ho; [done|]. by eapply list_elem_of_lookup_2.
  - eapply Forall_forall in Hr; [done|]. by eapply list_elem_of_lookup_2.
Qed.

(** X8: when both documents have a ['type'] and hold nothing that [str]
    or [encode] refuses, [detect_changes] returns a report, unless both are
    spreadsheets and a cell has a descriptor bound to [None], in which case
    it may raise [AttributeError]; it raises nothing else, and the matcher
    never runs short of iterations.  (On a document that is not [writable]
    the interpreter may raise [ValueError] or [UnicodeEncodeError], paths
    that the definitions do not have.) *)
Theorem detect_changes_outcome (o r : Document) :
  is_Some (d_type o) → is_Some (d_type r) → writable o → writable r →
  (∃ rep, detect_changes o r = Ok rep)
  ∨ (detect_changes o r = Raise AttributeError
     ∧ d_type o = Some (py "xlsx") ∧ d_type r = Some (py "xlsx")
     ∧ ¬ (well_described o ∧ well_described r)).
Proof.
  intros Ho Hr _ _. unfold detect_changes.
  destruct (text_total o r Ho Hr) as [text ->].
  destruct (annotation_total o r Ho Hr) as [annotation ->].
  destruct (structural_total o r Ho Hr) as [structural ->].
  unfold _detect_table_changes, _detect_image_changes, _detect_formatting_changes.
  destruct (both_of_type_total o r (py "docx") Ho Hr) as [[] ->]; simpl.
  { left. by eexists. }
  destruct (both_of_type o r (py "xlsx")) as [[]|] eqn:Hx; simpl.
  - destruct (_detect_xlsx_formatting_changes o r) as [formatting|e] eqn:Hf; simpl.
    { left. by eexists. }
    right. apply xlsx_formatting_raises in Hf as Hf'. subst e.
    destruct Ho as [ot Ho], Hr as [rt Hr].
    unfold both_of_type, get_type in Hx. rewrite Ho, Hr in Hx. simpl in Hx.
    case_bool_decide as Hot; [|done]. simpl in Hx. injection Hx as Hrt.
    apply bool_decide_eq_true in Hrt. subst ot rt. split_and!; [done..|].
    intros [Hwo Hwr]. destruct (xlsx_formatting_total o r Hwo Hwr) as [? Hok].
    congruence.
  - left. by eexists.
  - destruct (both_of_type_total o r (py "xlsx") Ho Hr) as [? ?]. congruence.
Qed.

(** X9: the counts of the summary are the lengths of the six lists, and
    [total_changes] is the number of records in them all. *)
Theorem summary_counts (o r : Document) (rep : Report) :
  detect_changes o r = Ok rep →
  text_changes_count (summary rep) = length (text_changes rep)
  ∧ formatting_changes_count (summary rep) = length (formatting_changes rep)
  ∧ table_changes_count (summary rep) = length (table_changes rep)
  ∧ image_changes_count (summary rep) = length (image_changes rep)
  ∧ annotation_changes_count (summary rep) = length (annotation_changes rep)
  ∧ structural_changes_count (summary rep) = length (structural_changes rep)
  ∧ total_changes (summary rep)
    = length (text_changes rep ++ formatting_changes rep ++ table_changes rep
              ++ image_changes rep ++ annotation_changes rep ++ structural_changes rep).
Proof.
  unfold detect_changes.
  intros (text & _ & (formatting & _ & (table & _ & (image & _ & (annotation & _ &
    (structural & _ & [= <-])%bind_Ok)%bind_Ok)%bind_Ok)%bind_Ok)%bind_Ok)%bind_Ok.
  simpl. rewrite !length_app. split_and!; try done. lia.
Qed.

(** X10: tables and images are compared between word documents only,
    annotations between PDF documents only, formatting between word
    documents and between spreadsheets only: for two documents of one type
    the other lists are empty whatever the documents hold. *)
Theorem categories_by_kind (o r : Document) (t : pystr) (rep : Report) :
  d_type o = Some t → d_type r = Some t → detect_changes o r = Ok rep →
  (t ≠ py "docx" → table_changes rep = [] ∧ image_changes rep = [])
  ∧ (t ≠ py "pdf" → annotation_changes rep = [])
  ∧ (t ≠ py "docx" → t ≠ py "xlsx" → formatting_changes rep = []).
Proof.
  intros Ho Hr. unfold detect_changes.
  intros (text & _ & (formatting & Hf & (table & Htb & (image & Hi & (annotation & Ha &
    (structural & _ & [= <-])%bind_Ok)%bind_Ok)%bind_Ok)%bind_Ok)%bind_Ok)%bind_Ok.
  simpl.
  unfold _detect_table_changes in Htb. unfold _detect_image_changes in Hi.
  unfold _detect_formatting_changes in Hf.
  rewrite !(both_of_type_same o r t) in * by done.
  unfold _detect_annotation_changes, get_type in Ha. rewrite Ho, Hr in Ha. simpl in *.
  split_and!.
  - intros Hne. rewrite bool_decide_eq_false_2 in Htb, Hi by done. by simplify_eq.
  - intros Hne. rewrite (bool_decide_eq_false_2 (t = py "pdf")) in Ha by done.
    rewrite andb_false_r in Ha. by simplify_eq/=.
  - intros Hd Hx. rewrite !bool_decide_eq_false_2 in Hf by done. by simplify_eq/=.
Qed.

(** X11: [structural_changes] holds at most one record, and none exactly
    when the two types are the same and the documents have as many
    paragraphs (word), pages (PDF) or sheets (spreadsheet); for any other
    type nothing is counted. *)
Theorem structural_changes_when (o r : Document) (t t' : pystr) :
  d_type o = Some t → d_type r = Some t' →
  ∃ recs, _detect_structural_changes o r = Ok recs
    ∧ length recs ≤ 1
    ∧ (recs = [] ↔ t = t' ∧ unit_count t o = unit_count t r).
Proof.
  intros Ho Hr. unfold _detect_structural_changes, get_type, count_change, unit_count.
  rewrite Ho, Hr. simpl.
  repeat case_bool_decide; eexists; (split; [reflexivity|]); simpl;
    (split; [lia|]); split; try done; try tauto; intros [? ?]; done.
Qed.

(** ** Word documents *)

Lemma zip_prefix {X} (l k : list X) : zip l (l ++ k) = zip l l.
Proof. induction l as [|x l IH]; simpl; [by destruct k|]. by rewrite IH. Qed.

(** X12: cells appended at the end of the rows of a table are not reported:
    when every row of the original is the beginning of the row of the
    revision, the table comparison finds nothing. *)
Theorem appended_cells_unreported (o r : Document) :
  Forall2 (λ ot rt, Forall2 (λ orow rrow, orow `prefix_of` rrow) (t_rows ot) (t_rows rt))
          (d_tables o) (d_tables r) →
  _detect_docx_table_changes o r = [].
Proof.
  intros Htables. unfold _detect_docx_table_changes.
  rewrite bool_decide_eq_false_2 by (apply Forall2_length in Htables; lia).
  simpl. apply concat_imap_nil. intros i [ot rt] Hi. cbv zeta.
  apply lookup_zip_with_Some in Hi as (ot' & rt' & [= <- <-] & Hot & Hrt).
  pose proof (Forall2_lookup_lr _ _ _ _ _ _ Htables Hot Hrt) as Hrows.
  rewrite bool_decide_eq_false_2 by (apply Forall2_length in Hrows; lia).
  simpl. apply concat_imap_nil. intros j [orow rrow] Hj.
  apply lookup_zip_with_Some in Hj as (orow' & rrow' & [= <- <-] & Horow & Hrrow).
  destruct (Forall2_lookup_lr _ _ _ _ _ _ Hrows Horow Hrrow) as [k ->].
  rewrite zip_prefix. apply concat_imap_nil. intros c [ocell rcell] <-%lookup_zip_same.
  by rewrite py_eqb_refl.
Qed.

(** X13: the formatting of a paragraph that only one document has is never
    looked at: every record names a paragraph that both documents have. *)
Theorem docx_formatting_paired (o r : Document) :
  Forall (λ rec, ∃ i, paragraph_index rec = Some (Z.of_nat i)
                      ∧ i < length (d_paragraphs o) `min` length (d_paragraphs r))
         (_detect_docx_formatting_changes o r).
Proof.
  apply Forall_concat_imap. intros i [orig_para rev_para] Hi.
  apply lookup_lt_Some in Hi as Hlt. rewrite length_zip_with in Hlt.
  apply Forall_app_2.
  - destruct (py_eqb _ _); [constructor|].
    apply Forall_cons_2; [|constructor]. by exists i.
  - apply Forall_concat_imap. intros j [orun rrun] _.
    destruct (py_eqb _ _); [|constructor]. cbv zeta.
    case_bool_decide; [|constructor].
    apply Forall_cons_2; [|constructor]. by exists i.
Qed.

(** ** PDF text *)

Lemma for_each_pure {X Y} (l : list X) (body : X → res (list Y)) (g : X → list Y) :
  (∀ x, x ∈ l → body x = Ok (g x)) → for_each l body = Ok (flat_map g l).
Proof.
  induction l as [|x l IH]; intros Hb; simpl; [done|].
  rewrite Hb by by left. simpl. rewrite IH; [done|]. intros; apply Hb; by right.
Qed.

(** X14: the PDF comparison sees a page as its list of sentences: pages whose
    sentences are the same give no record, whatever white space separates
    them. *)
Theorem pdf_same_sentences (o r : Document) :
  (∀ i, _split_sentences (page_text o i) = _split_sentences (page_text r i)) →
  _detect_pdf_text_changes o r = Ok [].
Proof.
  intros Hsame. apply for_each_nil. intros i _. cbv beta zeta.
  change (default [] (d_pages o !! i ≫= pg_text)) with (page_text o i).
  change (default [] (d_pages r !! i ≫= pg_text)) with (page_text r i).
  rewrite Hsame, get_opcodes_self. simpl. by destruct (decide _).
Qed.

Lemma pdf_page_against_nothing (b : list pystr) (i : nat) (tg : string) :
  (λ sent, pdf_sentence_record tg sent i) <$> slice b 0 (length b)
  = (λ sent, pdf_sentence_record tg sent i) <$> b.
Proof. by rewrite slice_all. Qed.

(** X15: against a PDF without pages, every sentence of every page is
    reported, page after page and in reading order: as [added] when the
    original has no page, as [deleted] when the revision has none. *)
Theorem pdf_one_sided (o r : Document) :
  (d_pages o = [] →
   _detect_pdf_text_changes o r
   = Ok (flat_map (page_sentences "added" r) (seq 0 (length (d_pages r)))))
  ∧ (d_pages r = [] →
     _detect_pdf_text_changes o r
     = Ok (flat_map (page_sentences "deleted" o) (seq 0 (length (d_pages o))))).
Proof.
  split; intros Hnone; unfold _detect_pdf_text_changes; rewrite Hnone; cbn [length].
  - rewrite Nat.max_0_l. apply for_each_pure. intros i _. cbv beta zeta.
    change (default [] ([] !! i ≫= pg_text)) with (@nil N).
    change (_split_sentences []) with (@nil pystr).
    rewrite get_opcodes_nil_l. unfold page_sentences, page_text.
    destruct (decide _) as [Hnil|_]; simpl.
    + match goal with
      | |- _ = Ok (_ <$> ?X) => assert (X = []) as -> by exact Hnil
      end.
      done.
    + rewrite app_nil_r. do 2 f_equal. apply slice_all.
  - rewrite Nat.max_0_r. apply for_each_pure. intros i _. cbv beta zeta.
    change (default [] ([] !! i ≫= pg_text)) with (@nil N).
    change (_split_sentences []) with (@nil pystr).
    rewrite get_opcodes_nil_r. unfold page_sentences, page_text.
    destruct (decide _) as [Hnil|_]; simpl.
    + match goal with
      | |- _ = Ok (_ <$> ?X) => assert (X = []) as -> by exact Hnil
      end.
      done.
    + rewrite app_nil_r. do 2 f_equal. apply slice_all.
Qed.

#[local] Ltac page_records :=
  repeat first
    [ apply Forall_nil_2
    | apply Forall_cons_2; [reflexivity|]
    | apply Forall_app_2
    | apply Forall_fmap, Forall_true; intros ?; reflexivity ].

(** X16: the PDF text comparison returns for all documents, and every
    record carries the number, counted from 1, of a page that one of the
    two documents has. *)
Theorem pdf_text_page_numbers (o r : Document) :
  ∃ recs, _detect_pdf_text_changes o r = Ok recs
    ∧ Forall (λ rec, ∃ i, i < length (d_pages o) `max` length (d_pages r)
                          ∧ page_number rec = Some (Z.of_nat (i + 1))) recs.
Proof.
  destruct (pdf_text_total o r) as [recs Hrecs]. exists recs. split; [done|].
  eapply for_each_Forall; [|exact Hrecs].
  intros i out [_ Hi]%elem_of_seq. cbv beta zeta.
  destruct (get_opcodes _ _) as [ops|]; simpl; [|done].
  intros Hout. eapply Forall_impl with (P := λ rec, page_number rec = Some (Z.of_nat (i + 1)));
    [|intros rec Hrec; exists i; split; [lia|done]].
  revert Hout. apply for_each_Forall. intros [tg i1 i2 j1 j2] out' _.
  destruct tg; try (intros [= <-]; page_records).
  destruct (for_each _ _) as [modified|] eqn:Hmod; simpl; [|done].
  intros [= <-]. apply Forall_app_2; [|page_records].
  eapply for_each_Forall; [|exact Hmod].
  intros [s_old s_new] out'' _.
  destruct (_word_diff_html _ _) as [[[??]?]|]; simpl; [|done].
  intros [= <-]. page_records.
Qed.

(** ** Annotations without a name *)

Lemma annot_key_with_contents (a : Annotation) (contents : pystr) :
  default [] (a_id a) = [] →
  take 64 (default [] (a_contents a)) = take 64 contents →
  _annot_key (with_contents a (Some contents)) = _annot_key a.
Proof.
  intros Hid Htake. unfold _annot_key, with_contents. cbn [a_id a_page_number a_subtype
    a_rect a_contents default]. by rewrite Hid, Htake.
Qed.

Lemma dict_get_singleton {K V} `{EqDecision K} (k : K) (v : V) :
  dict_get k [(k, v)] = Some v.
Proof. simpl. by rewrite decide_True. Qed.


(** ** One record for a key *)

Lemma for_each_keyed {V} (l : list (pystr * V)) (body : pystr * V → res (list record))
    (P : pystr → Prop) (out : list record) :
  for_each l body = Ok out →
  (∀ k v recs, (k, v) ∈ l → body (k, v) = Ok recs →
     recs = [] ∨ ∃ rec, recs = [rec] ∧ annotation_id rec = Some k ∧ P k) →
  (annotation_id <$> out) `sublist_of` (Some <$> l.*1)
  ∧ Forall (λ x, ∃ k, x = Some k ∧ P k) (annotation_id <$> out).
Proof.
  revert out. induction l as [|[k v] l IH]; intros out; simpl.
  - intros [= <-] _. split; constructor.
  - intros (recs & Hrecs & (zs & Hzs & [= <-])%bind_Ok)%bind_Ok Hb.
    destruct (IH zs Hzs) as [Hsub Hall]; [intros; eapply Hb; [by right|done]|].
    rewrite fmap_app.
    destruct (Hb k v recs) as [->|(rec & -> & Hid & HP)]; [by left|done| |].
    + simpl. split; [by apply sublist_cons|done].
    + simpl. rewrite Hid. split; [by apply sublist_skip|].
      constructor; [by exists k|done].
Qed.

Lemma id_or_key (l : list Annotation) (k : pystr) (a : Annotation) :
  (k, a) ∈ dict_comp _annot_key l → id_or a k = k.
Proof.
  intros [-> _]%dict_comp_elem. unfold id_or, _annot_key.
  by destruct (a_id a) as [[|c s]|].
Qed.

(** X20: every annotation record has an ['id'], the key under which the
    annotation was compared, and no two records of a report have the same:
    a key gives at most one record. *)
Theorem annotation_ids_distinct (o r : Document) (recs : list record) :
  _detect_annotation_changes o r = Ok recs →
  NoDup (annotation_id <$> recs) ∧ Forall (λ rec, is_Some (annotation_id rec)) recs.
Proof.
  unfold _detect_annotation_changes.
  destruct (get_type o) as [ot|]; simpl; [|done].
  destruct (get_type r) as [rt|]; simpl; [|done].
  destruct (negb _); [intros [= <-]; split; constructor|].
  set (omap := dict_comp _annot_key (d_annotations o)).
  set (rmap := dict_comp _annot_key (d_annotations r)).
  intros (added & Hadd & (deleted & Hdel & (modified & Hmod & [= <-])%bind_Ok)%bind_Ok)%bind_Ok.
  apply (for_each_keyed _ _ (λ k, k ∉ omap.*1)) in Hadd as [Ha1 Ha2]; cycle 1.
  { intros k a out Hin. destruct (dict_get k omap) eqn:Hk; intros [= <-]; [by left|].
    right. eexists. split; [done|]. split; [|by apply dict_get_None].
    unfold annotation_id. simpl. by rewrite (id_or_key _ _ _ Hin). }
  apply (for_each_keyed _ _ (λ k, k ∉ rmap.*1)) in Hdel as [Hd1 Hd2]; cycle 1.
  { intros k a out Hin. destruct (dict_get k rmap) eqn:Hk; intros [= <-]; [by left|].
    right. eexists. split; [done|]. split; [|by apply dict_get_None].
    unfold annotation_id. simpl. by rewrite (id_or_key _ _ _ Hin). }
  apply (for_each_keyed _ _ (λ k, k ∈ rmap.*1)) in Hmod as [Hm1 Hm2]; cycle 1.
  { intros k ao out Hin. destruct (dict_get k rmap) as [ar|] eqn:Hk; [|intros [= <-]; by left].
    apply dict_get_Some in Hk as Hr.
    unfold annotation_modified.
    destruct (if bool_decide _ then _ else _) as [diff_html|]; simpl; [|done].
    case_bool_decide; intros [= <-]; [|by left].
    right. eexists. split; [done|]. split.
    - unfold annotation_id. simpl. by rewrite (id_or_key _ _ _ Hr).
    - by apply (list_elem_of_fmap_2 fst) in Hr. }
  assert (Hon : NoDup (Some <$> omap.*1)).
  { apply (NoDup_fmap_2 _), dict_comp_NoDup. }
  assert (Hrn : NoDup (Some <$> rmap.*1)).
  { apply (NoDup_fmap_2 _), dict_comp_NoDup. }
  split.
  - rewrite !fmap_app. apply NoDup_app. split_and!.
    + exact (sublist_NoDup _ _ Hrn Ha1).
    + intros x Hxa Hx. rewrite Forall_forall in Ha2.
      destruct (Ha2 x Hxa) as (k & -> & Hk).
      apply elem_of_app in Hx as [Hx|Hx].
      * apply (elem_of_sublist _ _ _ Hx) in Hd1.
        apply list_elem_of_fmap in Hd1 as (k' & [= <-] & Hk'). done.
      * apply (elem_of_sublist _ _ _ Hx) in Hm1.
        apply list_elem_of_fmap in Hm1 as (k' & [= <-] & Hk'). done.
    + apply NoDup_app. split_and!.
      * exact (sublist_NoDup _ _ Hon Hd1).
      * intros x Hxd Hx. rewrite Forall_forall in Hd2, Hm2.
        destruct (Hd2 x Hxd) as (k & -> & Hk).
        destruct (Hm2 _ Hx) as (k' & [= <-] & Hk'). done.
      * exact (sublist_NoDup _ _ Hon Hm1).
  - rewrite Forall_fmap in Ha2, Hd2, Hm2.
    repeat apply Forall_app_2;
      [eapply Forall_impl; [exact Ha2|]
      |eapply Forall_impl; [exact Hd2|]
      |eapply Forall_impl; [exact Hm2|]];
      simpl; intros rec (k & -> & _); by eexists.
Qed.

(** ** Spreadsheet text *)

Lemma xlsx_text_loops (o r : Document) :
  _detect_xlsx_text_changes o r
  = for_each (remove_dups (sheet_names o ++ sheet_names r))
             (xlsx_sheet_change (d_sheets o) (d_sheets r)).
Proof. reflexivity. Qed.

Lemma xlsx_cell_change_total sheet_name ocells rcells coord :
  ∃ out, xlsx_cell_change sheet_name ocells rcells coord = Ok out.
Proof.
  unfold xlsx_cell_change.
  destruct (dict_get coord ocells) as [oc|]; [|by eexists].
  destruct (dict_get coord rcells) as [rc|]; [|by eexists].
  cbv zeta. case_bool_decide; [|by eexists].
  destruct (word_diff_html_total (_to_str (c_value oc)) (_to_str (c_value rc)))
    as [[[??]?] ->].
  by eexists.
Qed.

Lemma xlsx_cell_change_keys sheet_name ocells rcells coord out :
  xlsx_cell_change sheet_name ocells rcells coord = Ok out →
  Forall (λ rec, coordinate rec = Some coord ∧ sheet_of rec = Some sheet_name) out.
Proof.
  unfold xlsx_cell_change.
  destruct (dict_get coord ocells) as [oc|];
    [|intros [= <-]; by repeat constructor].
  destruct (dict_get coord rcells) as [rc|];
    [|intros [= <-]; by repeat constructor].
  cbv zeta. case_bool_decide; [|intros [= <-]; constructor].
  destruct (_word_diff_html _ _) as [[[??]?]|]; simpl; [|done].
  intros [= <-]. by repeat constructor.
Qed.

Lemma xlsx_sheet_change_total osheets rsheets sheet_name :
  ∃ out, xlsx_sheet_change osheets rsheets sheet_name = Ok out.
Proof.
  unfold xlsx_sheet_change.
  destruct (sheet_named osheets sheet_name); [|by eexists].
  destruct (sheet_named rsheets sheet_name); [|by eexists].
  apply for_each_total. intros coord _. apply xlsx_cell_change_total.
Qed.

Lemma xlsx_sheet_change_keys osheets rsheets sheet_name out :
  xlsx_sheet_change osheets rsheets sheet_name = Ok out →
  Forall (λ rec, sheet_of rec = Some sheet_name) out.
Proof.
  unfold xlsx_sheet_change.
  destruct (sheet_named osheets sheet_name);
    [|intros [= <-]; by repeat constructor].
  destruct (sheet_named rsheets sheet_name);
    [|intros [= <-]; by repeat constructor].
  apply for_each_Forall. intros coord out' _ Hout'%xlsx_cell_change_keys.
  eapply Forall_impl; [exact Hout'|]. by intros rec [_ ?].
Qed.

Lemma sheet_named_None (sheets : list Sheet) (name : pystr) :
  name ∉ s_name <$> sheets → sheet_named sheets name = None.
Proof.
  intros Hname. destruct (sheet_named sheets name) as [sh|] eqn:Hsh; [|done].
  unfold sheet_named in Hsh.
  destruct (list_find _ sheets) as [[i sh']|] eqn:Hfind; [|done].
  apply list_find_Some in Hfind as (Hi & <- & _).
  exfalso. apply Hname. apply list_elem_of_fmap_2. by eapply list_elem_of_lookup_2.
Qed.

(** What the spreadsheet text comparison holds for a sheet name is what
    the body of its loop gives for that name. *)
Lemma xlsx_text_at_sheet (o r : Document) :
  ∃ recs, _detect_xlsx_text_changes o r = Ok recs
    ∧ (∀ name, name ∈ sheet_names o ++ sheet_names r →
         xlsx_sheet_change (d_sheets o) (d_sheets r) name = Ok (at_sheet name recs))
    ∧ (∀ name, name ∉ sheet_names o ++ sheet_names r → at_sheet name recs = []).
Proof.
  rewrite xlsx_text_loops.
  set (names := remove_dups (sheet_names o ++ sheet_names r)).
  set (body := xlsx_sheet_change (d_sheets o) (d_sheets r)).
  destruct (for_each_total names body) as [recs Hrecs].
  { intros name _. apply xlsx_sheet_change_total. }
  exists recs. split; [done|]. split.
  - intros name Hname. destruct (xlsx_sheet_change_total (d_sheets o) (d_sheets r) name)
      as [out Hout].
    change (body name = Ok (at_sheet name recs)). unfold body at 1.
    rewrite Hout. f_equal. symmetry.
    apply (for_each_at id sheet_of names body recs name out); try done.
    + rewrite list_fmap_id. apply NoDup_remove_dups.
    + intros x out' _. apply xlsx_sheet_change_keys.
    + by apply elem_of_remove_dups.
  - intros name Hname. apply filter_none.
    eapply for_each_Forall; [|exact Hrecs].
    intros x out Hx Hout%xlsx_sheet_change_keys.
    unfold names in Hx. apply (proj1 (elem_of_remove_dups _ _)) in Hx.
    eapply Forall_impl; [exact Hout|]. intros rec -> [= ->]. done.
Qed.

(** X21: the spreadsheet text comparison pairs sheets by name.  A sheet name
    that only the revision has gives the one record [sheet_added] and none
    for its cells, a name that only the original has the one record
    [sheet_deleted], and no record names a sheet that neither has. *)
Theorem xlsx_sheets_by_name (o r : Document) :
  ∃ recs, _detect_xlsx_text_changes o r = Ok recs
    ∧ (∀ name, name ∈ sheet_names r → name ∉ sheet_names o →
         at_sheet name recs = [sheet_added_record name])
    ∧ (∀ name, name ∈ sheet_names o → name ∉ sheet_names r →
         at_sheet name recs = [sheet_deleted_record name])
    ∧ (∀ name, name ∉ sheet_names o → name ∉ sheet_names r → at_sheet name recs = []).
Proof.
  destruct (xlsx_text_at_sheet o r) as (recs & Hrecs & Hat & Hnone).
  exists recs. split; [done|]. split_and!.
  - intros name Hr Ho.
    assert (Hname : name ∈ sheet_names o ++ sheet_names r) by (apply elem_of_app; by right).
    specialize (Hat name Hname). unfold xlsx_sheet_change in Hat.
    rewrite (sheet_named_None (d_sheets o)) in Hat by done.
    injection Hat as Hat. by rewrite <-Hat.
  - intros name Ho Hr.
    assert (Hname : name ∈ sheet_names o ++ sheet_names r) by (apply elem_of_app; by left).
    specialize (Hat name Hname). unfold xlsx_sheet_change in Hat.
    destruct (sheet_named_elem (d_sheets o) name Ho) as [osheet Hos].
    rewrite Hos, (sheet_named_None (d_sheets r)) in Hat by done.
    injection Hat as Hat. by rewrite <-Hat.
  - intros name Ho Hr. apply Hnone. rewrite elem_of_app. tauto.
Qed.

(** X22: within two sheets of one name, cells are paired by coordinate and
    compared as text.  A coordinate of the revision alone gives the one
    record [cell_added], one of the original alone the one record
    [cell_deleted]; cells whose values read the same as text give no
    record, even values of different types; and cells whose values read
    differently give the one record [cell_modified] with the word diff. *)
Theorem xlsx_cells_by_coordinate (o r : Document) :
  ∃ recs, _detect_xlsx_text_changes o r = Ok recs
    ∧ ∀ name osheet rsheet coord,
        sheet_named (d_sheets o) name = Some osheet →
        sheet_named (d_sheets r) name = Some rsheet →
        let here := at_coordinate coord (at_sheet name recs) in
        match dict_get coord (cells_by_coordinate osheet),
              dict_get coord (cells_by_coordinate rsheet) with
        | None, None => here = []
        | None, Some rc => here = [cell_added_record (_to_str (c_value rc)) coord name]
        | Some oc, None => here = [cell_deleted_record (_to_str (c_value oc)) coord name]
        | Some oc, Some rc =>
            if decide (_to_str (c_value oc) = _to_str (c_value rc)) then here = []
            else ∃ diff_html added deleted,
              _word_diff_html (_to_str (c_value oc)) (_to_str (c_value rc))
                = Ok (diff_html, added, deleted)
              ∧ here = [cell_modified_record (_to_str (c_value oc)) (_to_str (c_value rc))
                          diff_html added deleted coord name]
        end.
Proof.
  destruct (xlsx_text_at_sheet o r) as (recs & Hrecs & Hat & _).
  exists recs. split; [done|]. intros name osheet rsheet coord Hos Hrs here.
  assert (Hname : name ∈ sheet_names o ++ sheet_names r).
  { apply elem_of_app. left. unfold sheet_named in Hos.
    destruct (list_find _ _) as [[i sh]|] eqn:Hfind; [|done]. injection Hos as ->.
    apply list_find_Some in Hfind as (Hi & <- & _).
    apply list_elem_of_fmap_2. by eapply list_elem_of_lookup_2. }
  specialize (Hat name Hname). unfold xlsx_sheet_change in Hat. rewrite Hos, Hrs in Hat.
  cbv zeta in Hat.
  set (ocells := cells_by_coordinate osheet) in *.
  set (rcells := cells_by_coordinate rsheet) in *.
  set (allc := remove_dups (ocells.*1 ++ rcells.*1)) in *.
  set (body := xlsx_cell_change name ocells rcells) in *.
  assert (Hhere : coord ∈ allc → body coord = Ok here).
  { intros Hin. destruct (xlsx_cell_change_total name ocells rcells coord) as [out Hout].
    fold body in Hout. rewrite Hout. f_equal. symmetry.
    apply (for_each_at id coordinate allc body (at_sheet name recs) coord out); try done.
    - rewrite list_fmap_id. apply NoDup_remove_dups.
    - intros x out' _ Hout'%xlsx_cell_change_keys.
      eapply Forall_impl; [exact Hout'|]. by intros rec [? _]. }
  assert (Hout : coord ∉ allc → here = []).
  { intros Hnin. apply filter_none.
    eapply for_each_Forall; [|exact Hat].
    intros x out Hx Hout%xlsx_cell_change_keys.
    eapply Forall_impl; [exact Hout|]. intros rec [-> _] [= ->]. done. }
  unfold allc in Hhere, Hout. rewrite elem_of_remove_dups, elem_of_app in Hhere, Hout.
  unfold body, xlsx_cell_change in Hhere.
  destruct (dict_get coord ocells) as [oc|] eqn:Ho,
           (dict_get coord rcells) as [rc|] eqn:Hr.
  - apply dict_get_Some, (list_elem_of_fmap_2 fst) in Ho.
    specialize (Hhere (or_introl Ho)). cbv zeta in Hhere.
    destruct (decide _) as [Heq|Hne].
    + rewrite bool_decide_eq_false_2 in Hhere by tauto. by injection Hhere as <-.
    + rewrite bool_decide_eq_true_2 in Hhere by done.
      destruct (_word_diff_html _ _) as [[[diff_html added] deleted]|]; [|done].
      simpl in Hhere. injection Hhere as <-. by exists diff_html, added, deleted.
  - apply dict_get_Some, (list_elem_of_fmap_2 fst) in Ho.
    specialize (Hhere (or_introl Ho)). by injection Hhere as <-.
  - apply dict_get_Some, (list_elem_of_fmap_2 fst) in Hr.
    specialize (Hhere (or_intror Hr)). by injection Hhere as <-.
  - apply Hout. apply dict_get_None in Ho, Hr. tauto.
Qed.

(** ** Images *)

Lemma elem_of_concat_imap {X Y} (f : nat → X → list Y) (l : list X) i x y :
  l !! i = Some x → y ∈ f i x → y ∈ concat (imap f l).
Proof.
  revert f i. induction l as [|x0 l IH]; intros f [|i] Hi Hy; simpl in *; try done.
  - injection Hi as ->. apply elem_of_app. by left.
  - apply elem_of_app. right. by apply (IH (f ∘ S) i).
Qed.

(** X23: [_compare_images] raises nothing: when a payload cannot be opened or
    the two images cannot be scored, the pair is reported as a content
    change of similarity 0. *)
Theorem unreadable_image_reported (o r : Document) (i : nat) (oi ri : Image) :
  d_images o !! i = Some oi → d_images r !! i = Some ri →
  image_ssim (i_data oi) (i_data ri) = None →
  image_content_record i 0 ∈ _detect_docx_image_changes o r.
Proof.
  intros Ho Hr Hssim. unfold _detect_docx_image_changes.
  apply elem_of_app. right.
  apply (elem_of_concat_imap _ _ i (oi, ri)).
  - apply lookup_zip_with_Some. by exists oi, ri.
  - apply elem_of_app. right. unfold _compare_images. rewrite Hssim. cbv zeta.
    by apply list_elem_of_singleton.
Qed.

(** ** The side a record stands for *)

Lemma elem_of_slice {X} (l : list X) (i j : nat) (x : X) : x ∈ slice l i j → x ∈ l.
Proof.
  unfold slice. intros Hx. eapply elem_of_sublist; [exact Hx|].
  etrans; [apply sublist_take|apply sublist_drop].
Qed.

Lemma docx_text_sided (o r : Document) recs :
  _detect_docx_text_changes o r = Ok recs → Forall (docx_sided o r) recs.
Proof.
  apply for_each_Forall. intros i out _. unfold docx_paragraph_change.
  change (from_option p_text [] (d_paragraphs o !! i)) with (paragraph_text o i).
  change (from_option p_text [] (d_paragraphs r !! i)) with (paragraph_text r i).
  intros Hout.
  assert (Hside : ∀ rec, paragraph_index rec = Some (Z.of_nat i) →
    (change_type rec = Some (py "added")
       ∧ paragraph_text o i = [] ∧ paragraph_text r i ≠ []
       ∧ field_str "content" rec = Some (paragraph_text r i))
    ∨ (change_type rec = Some (py "deleted")
         ∧ paragraph_text o i ≠ [] ∧ paragraph_text r i = []
         ∧ field_str "content" rec = Some (paragraph_text o i))
    ∨ (change_type rec = Some (py "modified")
         ∧ paragraph_text o i ≠ [] ∧ paragraph_text r i ≠ []
         ∧ paragraph_text o i ≠ paragraph_text r i
         ∧ field_str "old_text" rec = Some (paragraph_text o i)
         ∧ field_str "new_text" rec = Some (paragraph_text r i)) →
    docx_sided o r rec) by (intros rec ? ?; by exists i).
  revert Hout. generalize (paragraph_text o i) (paragraph_text r i) Hside.
  clear Hside. intros ot nt Hside.
  destruct (decide (ot = [])) as [Ho|Ho], (decide (nt = [])) as [Hr|Hr].
  - rewrite (bool_decide_eq_false_2 (ot ≠ [])), (bool_decide_eq_false_2 (nt ≠ []))
      by (by intros []).
    simpl. rewrite bool_decide_eq_false_2 by (intros []; congruence).
    intros [= <-]. constructor.
  - rewrite (bool_decide_eq_false_2 (ot ≠ [])) by (by intros []).
    rewrite (bool_decide_eq_true_2 (nt ≠ [])), (bool_decide_eq_true_2 (ot = [])) by done.
    simpl. intros [= <-]. constructor; [|constructor].
    apply Hside; [done|]. left. by split_and!.
  - rewrite (bool_decide_eq_true_2 (ot ≠ [])), (bool_decide_eq_true_2 (nt = [])) by done.
    simpl. intros [= <-]. constructor; [|constructor].
    apply Hside; [done|]. right. left. by split_and!.
  - rewrite (bool_decide_eq_false_2 (nt = [])), (bool_decide_eq_false_2 (ot = [])) by done.
    rewrite !andb_false_r. case_bool_decide as Hne; [|intros [= <-]; constructor].
    destruct (_word_diff_html ot nt) as [[[??]?]|]; simpl; [|done].
    intros [= <-]. constructor; [|constructor].
    apply Hside; [done|]. right. right. by split_and!.
Qed.

Lemma pdf_text_sided (o r : Document) recs :
  _detect_pdf_text_changes o r = Ok recs → Forall (pdf_sided o r) recs.
Proof.
  apply for_each_Forall. intros i out _. cbv beta zeta.
  change (default [] (d_pages o !! i ≫= pg_text)) with (page_text o i).
  change (default [] (d_pages r !! i ≫= pg_text)) with (page_text r i).
  assert (Hadded : ∀ l, (∀ sent, sent ∈ l → sent ∈ _split_sentences (page_text r i)) →
    Forall (pdf_sided o r) ((λ sent, pdf_sentence_record "added" sent i) <$> l)).
  { intros l Hl. apply Forall_fmap, Forall_forall. intros sent Hsent.
    exists i. split; [done|]. left. split; [done|]. exists sent. split; [done|by apply Hl]. }
  assert (Hdeleted : ∀ l, (∀ sent, sent ∈ l → sent ∈ _split_sentences (page_text o i)) →
    Forall (pdf_sided o r) ((λ sent, pdf_sentence_record "deleted" sent i) <$> l)).
  { intros l Hl. apply Forall_fmap, Forall_forall. intros sent Hsent.
    exists i. split; [done|]. right. left. split; [done|].
    exists sent. split; [done|by apply Hl]. }
  assert (Hmodified : ∀ rec s_old s_new,
    page_number rec = Some (Z.of_nat (i + 1)) →
    change_type rec = Some (py "modified") →
    field_str "old_text" rec = Some s_old → field_str "new_text" rec = Some s_new →
    s_old ∈ _split_sentences (page_text o i) → s_new ∈ _split_sentences (page_text r i) →
    pdf_sided o r rec).
  { intros rec s_old s_new ??????. exists i. split; [done|]. right. right.
    split; [done|]. by exists s_old, s_new. }
  revert Hadded Hdeleted Hmodified.
  generalize (_split_sentences (page_text o i)) (_split_sentences (page_text r i)).
  intros a b Hadded Hdeleted Hmodified.
  destruct (get_opcodes a b) as [ops|]; simpl; [|done].
  apply for_each_Forall. intros [tg i1 i2 j1 j2] out' _.
  destruct tg.
  - intros [= <-]. constructor.
  - intros [= <-]. apply Hadded. intros sent. apply elem_of_slice.
  - intros [= <-]. apply Hdeleted. intros sent. apply elem_of_slice.
  - destruct (for_each _ _) as [modified|] eqn:Hmod; simpl; [|done].
    intros [= <-]. apply Forall_app_2; [|apply Forall_app_2].
    + eapply for_each_Forall; [|exact Hmod].
      intros [s_old s_new] out'' Hin.
      destruct (_word_diff_html _ _) as [[[??]?]|]; simpl; [|done].
      intros [= <-]. constructor; [|constructor].
      apply (Hmodified _ s_old s_new); try done.
      * eapply elem_of_slice, elem_of_sublist; [|apply sublist_take].
        eapply elem_of_zip_l, Hin.
      * eapply elem_of_slice, elem_of_sublist; [|apply sublist_take].
        eapply elem_of_zip_r, Hin.
    + apply Hdeleted. intros sent Hin. eapply elem_of_slice, elem_of_sublist; [exact Hin|].
      apply sublist_drop.
    + apply Hadded. intros sent Hin. eapply elem_of_slice, elem_of_sublist; [exact Hin|].
      apply sublist_drop.
Qed.

Lemma sheet_named_absent (sheets : list Sheet) (name : pystr) :
  sheet_named sheets name = None → name ∉ s_name <$> sheets.
Proof.
  intros Hnone Hin. apply sheet_named_elem in Hin as [sh Hsh]. congruence.
Qed.

Lemma sheet_named_present (sheets : list Sheet) (name : pystr) :
  is_Some (sheet_named sheets name) → name ∈ s_name <$> sheets.
Proof.
  intros [sh Hsh]. destruct (decide (name ∈ s_name <$> sheets)) as [|Hn]; [done|].
  apply sheet_named_None in Hn. congruence.
Qed.

Lemma xlsx_cell_sided (o r : Document) (name : pystr) (osheet rsheet : Sheet)
    (coord : pystr) out :
  sheet_named (d_sheets o) name = Some osheet →
  sheet_named (d_sheets r) name = Some rsheet →
  coord ∈ (cells_by_coordinate osheet).*1 ++ (cells_by_coordinate rsheet).*1 →
  xlsx_cell_change name (cells_by_coordinate osheet) (cells_by_coordinate rsheet) coord
    = Ok out →
  Forall (xlsx_sided o r) out.
Proof.
  intros Ho Hr Hcoord. unfold xlsx_cell_change.
  assert (Hside : ∀ rec, sheet_of rec = Some name → coordinate rec = Some coord →
    (let oc := dict_get coord (cells_by_coordinate osheet) in
     let rc := dict_get coord (cells_by_coordinate rsheet) in
     (change_type rec = Some (py "added") ∧ oc = None ∧ is_Some rc)
     ∨ (change_type rec = Some (py "deleted") ∧ is_Some oc ∧ rc = None)
     ∨ (change_type rec = Some (py "modified")
        ∧ ∃ ocell rcell, oc = Some ocell ∧ rc = Some rcell
            ∧ _to_str (c_value ocell) ≠ _to_str (c_value rcell)
            ∧ field_str "old_value" rec = Some (_to_str (c_value ocell))
            ∧ field_str "new_value" rec = Some (_to_str (c_value rcell)))) →
    xlsx_sided o r rec).
  { intros rec ? ? Hcase. exists name. split; [done|]. right. right.
    by exists osheet, rsheet, coord. }
  destruct (dict_get coord (cells_by_coordinate osheet)) as [oc|] eqn:Hoc.
  - destruct (dict_get coord (cells_by_coordinate rsheet)) as [rc|] eqn:Hrc.
    + cbv zeta. case_bool_decide as Hne; [|intros [= <-]; constructor].
      destruct (_word_diff_html _ _) as [[[??]?]|]; simpl; [|done].
      intros [= <-]. constructor; [|constructor].
      apply Hside; [done..|]. right. right. split; [done|]. by exists oc, rc.
    + intros [= <-]. constructor; [|constructor].
      apply Hside; [done..|]. right. left. by split_and!.
  - intros [= <-]. constructor; [|constructor].
    apply Hside; [done..|]. left. split_and!; [done..|].
    apply dict_get_None in Hoc. apply elem_of_app in Hcoord as [?|Hin]; [done|].
    destruct (dict_get coord (cells_by_coordinate rsheet)) eqn:Hrc; [done|].
    by apply dict_get_None in Hrc.
Qed.

Lemma xlsx_text_sided (o r : Document) recs :
  _detect_xlsx_text_changes o r = Ok recs → Forall (xlsx_sided o r) recs.
Proof.
  rewrite xlsx_text_loops. apply for_each_Forall. intros name out Hname.
  apply (proj1 (elem_of_remove_dups _ _)) in Hname.
  unfold xlsx_sheet_change.
  destruct (sheet_named (d_sheets o) name) as [osheet|] eqn:Ho.
  - destruct (sheet_named (d_sheets r) name) as [rsheet|] eqn:Hr.
    + apply for_each_Forall. intros coord out' Hcoord.
      apply (proj1 (elem_of_remove_dups _ _)) in Hcoord.
      by apply xlsx_cell_sided.
    + intros [= <-]. constructor; [|constructor].
      exists name. split; [done|]. right. left. split_and!; [done..| |].
      * apply sheet_named_present. by rewrite Ho.
      * by apply sheet_named_absent.
  - intros [= <-]. constructor; [|constructor].
    exists name. split; [done|]. left.
    apply sheet_named_absent in Ho as Hno. split_and!; [done..| |done].
    apply elem_of_app in Hname as [?|?]; done.
Qed.

Lemma text_sided_spec (o r : Document) recs :
  _detect_text_changes o r = Ok recs → Forall (text_sided o r) recs.
Proof.
  unfold _detect_text_changes.
  intros (docx & _ & Hrecs)%bind_Ok. destruct docx.
  { apply docx_text_sided in Hrecs. eapply Forall_impl; [exact Hrecs|]. by left. }
  apply bind_Ok in Hrecs as (pdf & _ & Hrecs). destruct pdf.
  { apply pdf_text_sided in Hrecs. eapply Forall_impl; [exact Hrecs|]. right. by left. }
  apply bind_Ok in Hrecs as (xlsx & _ & Hrecs). destruct xlsx.
  { apply xlsx_text_sided in Hrecs. eapply Forall_impl; [exact Hrecs|]. right. by right. }
  injection Hrecs as <-. constructor.
Qed.

(** C3, as the code has it.  The records under [text_changes] and
    [annotation_changes] carry a ['change_type'] that is one of [added],
    [deleted], [modified], and it says which side holds what the record
    is about.  For a paragraph it is the text at the record's index, a
    paragraph without text counting as one that is not there; for a page
    an [added] record carries a sentence of the revised page, a [deleted]
    one a sentence of the original page, a [modified] one a sentence of
    each; for a workbook it is the sheet name, and the coordinate within
    the sheets of that name; for an annotation it is the key.  The records
    under the four other lists have no ['change_type'] key. *)
Theorem change_type_by_category (original revised : Document) (rep : Report) :
  detect_changes original revised = Ok rep →
  Forall classified (text_changes rep)
  ∧ Forall (text_sided original revised) (text_changes rep)
  ∧ Forall (annotation_sided original revised) (annotation_changes rep)
  ∧ Forall unclassified (formatting_changes rep)
  ∧ Forall unclassified (table_changes rep)
  ∧ Forall unclassified (image_changes rep)
  ∧ Forall unclassified (structural_changes rep).
Proof.
  unfold detect_changes.
  destruct (_detect_text_changes _ _) as [text|] eqn:Ht; simpl; [|done].
  destruct (_detect_formatting_changes _ _) as [formatting|] eqn:Hf; simpl; [|done].
  destruct (_detect_table_changes _ _) as [table|] eqn:Htb; simpl; [|done].
  destruct (_detect_image_changes _ _) as [image|] eqn:Hi; simpl; [|done].
  destruct (_detect_annotation_changes _ _) as [annotation|] eqn:Ha; simpl; [|done].
  destruct (_detect_structural_changes _ _) as [structural|] eqn:Hs; simpl; [|done].
  intros [= <-]. simpl. split_and!.
  - by eapply text_classified.
  - by apply text_sided_spec.
  - apply annotation_changes_origin in Ha.
    eapply Forall_impl; [exact Ha|].
    intros rec [(k & a & ? & ? & ->)|[(k & a & ? & ? & ->)|(k & ao & ar & ? & ? & ? & Hm)]].
    + left. by exists k, a.
    + right. left. by exists k, a.
    + right. right. exists k, ao, ar. split_and!; [done..|].
      unfold annotation_modified in Hm.
      destruct (if bool_decide _ then _ else _); simpl in Hm; [|done].
      case_bool_decide; by simplify_eq.
  - by eapply formatting_unclassified.
  - by eapply table_unclassified.
  - by eapply image_unclassified.
  - by eapply structural_unclassified.
Qed.


End detector_more.

(** ** Upload *)

Lemma rsplit1_None (sep : N) (s : pystr) : rsplit1 sep s = None ↔ sep ∉ s.
Proof.
  induction s as [|c s IH]; simpl.
  - split; [intros _; apply not_elem_of_nil|done].
  - destruct (rsplit1 sep s) as [[h t]|].
    + split; [done|]. intros Hnin. exfalso.
      assert (Hs : sep ∉ s) by (intros ?; apply Hnin; by right).
      by apply IH in Hs.
    + case_bool_decide as Hc.
      * subst c. split; [done|]. intros []. by left.
      * split; [|done]. intros _ [->|Hin]%elem_of_cons; [done|]. by apply (proj1 IH).
Qed.

Lemma rsplit1_Some (sep : N) (s head tail : pystr) :
  rsplit1 sep s = Some (head, tail) → s = head ++ sep :: tail ∧ sep ∉ tail.
Proof.
  revert head. induction s as [|c s IH]; intros head; simpl; [done|].
  destruct (rsplit1 sep s) as [[h t]|] eqn:Hs.
  - intros [= <- <-]. destruct (IH h eq_refl) as [-> Ht]. done.
  - case_bool_decide as Hc; [|done]. intros [= <- <-]. subst c.
    split; [done|]. by apply rsplit1_None.
Qed.

Lemma rsplit1_last (sep : N) (head tail : pystr) :
  sep ∉ tail → rsplit1 sep (head ++ sep :: tail) = Some (head, tail).
Proof.
  intros Htail. induction head as [|c head IH]; simpl.
  - rewrite (proj2 (rsplit1_None sep tail)) by done. by rewrite bool_decide_eq_true_2.
  - by rewrite IH.
Qed.

(** X24: a file name is accepted exactly when what follows its last dot is
    [docx], [pdf] or [xlsx] once put in lower case; a name without a dot is
    refused, and nothing before the last dot is looked at. *)
Theorem allowed_file_spec (lower : pystr → pystr) (filename : pystr) :
  allowed_file lower filename = true
  ↔ ∃ stem ext, filename = stem ++ dot :: ext ∧ (dot ∉ ext)
                ∧ lower ext ∈ ALLOWED_EXTENSIONS.
Proof.
  unfold allowed_file. split.
  - intros [_ Hext]%andb_true_iff.
    destruct (rsplit1 dot filename) as [[stem ext]|] eqn:Hsplit; [|done].
    apply rsplit1_Some in Hsplit as [-> Hdot].
    exists stem, ext. split_and!; [done..|]. by apply bool_decide_eq_true in Hext.
  - intros (stem & ext & -> & Hdot & Hext).
    rewrite bool_decide_eq_true_2 by (apply elem_of_app; right; by left). simpl.
    rewrite rsplit1_last by done.
    by apply bool_decide_eq_true_2.
Qed.

(** ** Instances *)

Lemma word_diff_html_empty_witness :
  py "new text" ≠ []
  ∧ _word_diff_html (H := Reference.runtime) [] (py "new text")
    = Ok (ins_markup (py "new text"), [py "new"; py "text"], [])
  ∧ _word_diff_html (H := Reference.runtime) (py "new text") []
    = Ok (del_markup (py "new text"), [], [py "new"; py "text"]).
Proof.
  assert (Hne : py "new text" ≠ []) by discriminate.
  split; [exact Hne|].
  exact (word_diff_html_empty (H := Reference.runtime) (py "new text") Hne).
Defined.

Lemma reference_word_not_space (x : N) :
  Reference.ascii_isword x = true → Reference.unicode_isspace x = false.
Proof.
  unfold Reference.ascii_isword, Reference.unicode_isspace. intros Hw.
  apply not_true_iff_false. intros Hs.
  repeat first [rewrite orb_true_iff in Hw | rewrite andb_true_iff in Hw
               |rewrite N.leb_le in Hw | rewrite N.eqb_eq in Hw].
  repeat first [rewrite orb_true_iff in Hs | rewrite andb_true_iff in Hs
               |rewrite N.leb_le in Hs | rewrite N.eqb_eq in Hs].
  lia.
Qed.

Lemma tokens_are_maximal_witness :
  let toks := _tokenize_keep_spaces (H := Reference.runtime) (py "hi  there") in
  (∀ x, isword_cp (Runtime := Reference.runtime) x = true
        → isspace_cp (Runtime := Reference.runtime) x = false)
  ∧ toks !! 0 = Some (py "hi") ∧ toks !! 1 = Some (py "  ")
  ∧ ¬ same_kind (H := Reference.runtime) (py "hi") (py "  ").
Proof.
  intros toks.
  assert (H0 : toks !! 0 = Some (py "hi")) by reflexivity.
  assert (H1 : toks !! 1 = Some (py "  ")) by reflexivity.
  split; [exact reference_word_not_space|]. split; [exact H0|]. split; [exact H1|].
  exact (tokens_are_maximal (H := Reference.runtime) (py "hi  there") 0 (py "hi") (py "  ")
           reference_word_not_space H0 H1).
Defined.

Lemma detect_changes_outcome_witness :
  let o := one_cell_workbook "Sheet1" Null in
  let r := one_cell_workbook "Sheet1" (bold true) in
  let p := pdf_document ["One. Two."] [unnamed_highlight] in
  let q := pdf_document ["One."] [note "n1" "seen"] in
  (is_Some (d_type o) ∧ is_Some (d_type r) ∧ writable o ∧ writable r
   ∧ detect_changes (H := Reference.runtime) o r = Raise AttributeError
   ∧ ((∃ rep, detect_changes (H := Reference.runtime) o r = Ok rep)
      ∨ (detect_changes (H := Reference.runtime) o r = Raise AttributeError
         ∧ d_type o = Some (py "xlsx") ∧ d_type r = Some (py "xlsx")
         ∧ ¬ (well_described o ∧ well_described r))))
  ∧ (writable p ∧ writable q
     ∧ ((∃ rep, detect_changes (H := Reference.runtime) p q = Ok rep)
        ∨ (detect_changes (H := Reference.runtime) p q = Raise AttributeError
           ∧ d_type p = Some (py "xlsx") ∧ d_type q = Some (py "xlsx")
           ∧ ¬ (well_described p ∧ well_described q)))).
Proof.
  intros o r p q.
  assert (Ho : is_Some (d_type o)) by (by eexists).
  assert (Hr : is_Some (d_type r)) by (by eexists).
  assert (Hwo : writable o) by (repeat constructor; by vm_compute).
  assert (Hwr : writable r) by (repeat constructor; by vm_compute).
  assert (Hwp : writable p).
  { split; [|by repeat constructor]. apply Forall_cons_2; [right|constructor].
    split_and!; [by vm_compute|constructor|..]; by apply (bool_decide_unpack _). }
  assert (Hwq : writable q).
  { split; [|by repeat constructor]. apply Forall_cons_2; [by left|constructor]. }
  split.
  - split; [exact Ho|]. split; [exact Hr|]. split; [exact Hwo|]. split; [exact Hwr|].
    split; [reflexivity|].
    exact (detect_changes_outcome (H := Reference.runtime) o r Ho Hr Hwo Hwr).
  - split; [exact Hwp|]. split; [exact Hwq|].
    apply (detect_changes_outcome (H := Reference.runtime) p q); [by eexists..|done|done].
Defined.

Lemma summary_counts_witness :
  let o := docx_document [styled "one" "Normal"; styled "two" "Normal"] in
  let r := docx_document [styled "uno" "Title"] in
  ∃ rep, detect_changes (H := Reference.runtime) o r = Ok rep
    ∧ total_changes (summary rep) = 4
    ∧ text_changes_count (summary rep) = length (text_changes rep)
    ∧ formatting_changes_count (summary rep) = length (formatting_changes rep)
    ∧ table_changes_count (summary rep) = length (table_changes rep)
    ∧ image_changes_count (summary rep) = length (image_changes rep)
    ∧ annotation_changes_count (summary rep) = length (annotation_changes rep)
    ∧ structural_changes_count (summary rep) = length (structural_changes rep)
    ∧ total_changes (summary rep)
      = length (text_changes rep ++ formatting_changes rep ++ table_changes rep
                ++ image_changes rep ++ annotation_changes rep ++ structural_changes rep).
Proof.
  intros o r.
  destruct (detect_changes (H := Reference.runtime) o r) as [rep|e] eqn:Hrep;
    [|vm_compute in Hrep; discriminate].
  pose proof (summary_counts (H := Reference.runtime) o r rep Hrep) as Hcounts.
  exists rep. split; [reflexivity|]. split; [|exact Hcounts].
  vm_compute in Hrep. by injection Hrep as <-.
Defined.

Lemma categories_by_kind_witness :
  let o := {| d_type := Some (py "pdf"); d_paragraphs := [styled "one" "Normal"];
              d_tables := []; d_images := [{| i_size := None; i_data := [] |}];
              d_pages := []; d_annotations := []; d_sheets := [] |} in
  let r := {| d_type := Some (py "pdf"); d_paragraphs := [styled "one" "Title"];
              d_tables := [{| t_rows := [] |}]; d_images := [];
              d_pages := []; d_annotations := []; d_sheets := [] |} in
  d_type o = Some (py "pdf") ∧ d_type r = Some (py "pdf")
  ∧ detect_changes (H := Reference.runtime) o r = Ok no_changes
  ∧ (py "pdf" ≠ py "docx" → table_changes no_changes = [] ∧ image_changes no_changes = [])
  ∧ (py "pdf" ≠ py "pdf" → annotation_changes no_changes = [])
  ∧ (py "pdf" ≠ py "docx" → py "pdf" ≠ py "xlsx" → formatting_changes no_changes = []).
Proof.
  intros o r.
  assert (Hrep : detect_changes (H := Reference.runtime) o r = Ok no_changes) by reflexivity.
  split; [reflexivity|]. split; [reflexivity|]. split; [exact Hrep|].
  exact (categories_by_kind (H := Reference.runtime) o r (py "pdf") no_changes
           eq_refl eq_refl Hrep).
Defined.

Lemma structural_changes_when_witness :
  let o := docx_document [paragraph "one"; paragraph "two"] in
  let r := docx_document [paragraph "one"] in
  d_type o = Some (py "docx") ∧ d_type r = Some (py "docx")
  ∧ ∃ recs, _detect_structural_changes o r = Ok recs
      ∧ length recs ≤ 1
      ∧ (recs = [] ↔ py "docx" = py "docx"
                     ∧ unit_count (py "docx") o = unit_count (py "docx") r).
Proof.
  intros o r. split; [reflexivity|]. split; [reflexivity|].
  exact (structural_changes_when o r (py "docx") (py "docx") eq_refl eq_refl).
Defined.

Lemma appended_cells_unreported_witness :
  let o := docx_table [["a"; "b"]; ["c"; "d"]] in
  let r := docx_table [["a"; "b"; "new"]; ["c"; "d"; "new"]] in
  Forall2 (λ ot rt, Forall2 (λ orow rrow, orow `prefix_of` rrow) (t_rows ot) (t_rows rt))
          (d_tables o) (d_tables r)
  ∧ _detect_docx_table_changes o r = [].
Proof.
  intros o r.
  assert (Hrows : Forall2 (λ ot rt, Forall2 (λ orow rrow, orow `prefix_of` rrow)
                                      (t_rows ot) (t_rows rt))
                          (d_tables o) (d_tables r)).
  { repeat constructor; by exists [VStr (py "new")]. }
  split; [exact Hrows|]. exact (appended_cells_unreported o r Hrows).
Defined.

Lemma pdf_same_sentences_witness :
  let o := pdf_pages [py "One. Two."] in
  let r := pdf_pages [py "One." ++ [10%N; 10%N] ++ py "Two."] in
  (∀ i, _split_sentences (H := Reference.runtime) (page_text o i)
        = _split_sentences (H := Reference.runtime) (page_text r i))
  ∧ _detect_pdf_text_changes (H := Reference.runtime) o r = Ok [].
Proof.
  intros o r.
  assert (Hsame : ∀ i, _split_sentences (H := Reference.runtime) (page_text o i)
                       = _split_sentences (H := Reference.runtime) (page_text r i)).
  { intros [|i]; reflexivity. }
  split; [exact Hsame|]. exact (pdf_same_sentences (H := Reference.runtime) o r Hsame).
Defined.


Lemma annotation_ids_distinct_witness :
  let a := with_contents unnamed_highlight (Some (long_note "old")) in
  let o := pdf_annotations [unnamed_highlight; a] in
  let r := pdf_annotations [with_contents a (Some (long_note "new"))] in
  ∃ recs, _detect_annotation_changes (H := Reference.runtime) o r = Ok recs
    ∧ length recs = 2
    ∧ NoDup (annotation_id <$> recs)
    ∧ Forall (λ rec, is_Some (annotation_id rec)) recs.
Proof.
  intros a o r.
  destruct (_detect_annotation_changes (H := Reference.runtime) o r) as [recs|e] eqn:Hrecs;
    [|vm_compute in Hrecs; discriminate].
  pose proof (annotation_ids_distinct (H := Reference.runtime) o r recs Hrecs) as Hids.
  exists recs. split; [reflexivity|]. split; [|exact Hids].
  vm_compute in Hrecs. by injection Hrecs as <-.
Defined.

Lemma unreadable_image_reported_witness :
  let d := docx_with_image "" in
  let img := {| i_size := Some (8, 8)%Z; i_data := [] |} in
  d_images d !! 0 = Some img
  ∧ image_ssim (Runtime := Reference.runtime) (i_data img) (i_data img) = None
  ∧ image_content_record 0 0 ∈ _detect_docx_image_changes (H := Reference.runtime) d d.
Proof.
  intros d img. split; [reflexivity|]. split; [reflexivity|].
  exact (unreadable_image_reported (H := Reference.runtime) d d 0 img img
           eq_refl eq_refl eq_refl).
Defined.

(** *** The ['change_type'] field *)

Lemma change_type_by_category_witness :
  let o := pdf_document ["Alpha. Beta."] [note "n1" "old"; note "n2" "gone"] in
  let r := pdf_document ["Alpha. Gamma. Delta."] [note "n1" "new"; note "n3" "fresh"] in
  let o' := docx_document [styled "one" "Normal"; styled "two" "Normal"] in
  let r' := docx_document [styled "uno" "Title"] in
  let o'' := one_cell_workbook "Sheet1" (bold true) in
  let r'' := one_cell_workbook "Sheet2" (bold true) in
  (∃ rep, detect_changes (H := Reference.runtime) o r = Ok rep
     ∧ change_type <$> text_changes rep = [Some (py "modified"); Some (py "added")]
     ∧ change_type <$> annotation_changes rep
       = [Some (py "added"); Some (py "deleted"); Some (py "modified")]
     ∧ Forall (text_sided (H := Reference.runtime) o r) (text_changes rep)
     ∧ Forall (annotation_sided (H := Reference.runtime) o r) (annotation_changes rep))
  ∧ (∃ rep, detect_changes (H := Reference.runtime) o' r' = Ok rep
       ∧ change_type <$> text_changes rep = [Some (py "modified"); Some (py "deleted")]
       ∧ length (formatting_changes rep) = 1
       ∧ length (structural_changes rep) = 1
       ∧ Forall (text_sided (H := Reference.runtime) o' r') (text_changes rep)
       ∧ Forall unclassified (formatting_changes rep)
       ∧ Forall unclassified (structural_changes rep))
  ∧ (∃ rep, detect_changes (H := Reference.runtime) o'' r'' = Ok rep
       ∧ change_type <$> text_changes rep = [Some (py "deleted"); Some (py "added")]
       ∧ Forall (text_sided (H := Reference.runtime) o'' r'') (text_changes rep)).
Proof.
  intros o r o' r' o'' r''. split_and!.
  - destruct (detect_changes (H := Reference.runtime) o r) as [rep|e] eqn:Hrep;
      [|vm_compute in Hrep; discriminate].
    pose proof (change_type_by_category (H := Reference.runtime) o r rep Hrep)
      as (_ & Htext & Hannotation & _).
    exists rep. split; [reflexivity|].
    split; [|split; [|split; [exact Htext|exact Hannotation]]];
      vm_compute in Hrep; injection Hrep as <-; reflexivity.
  - destruct (detect_changes (H := Reference.runtime) o' r') as [rep|e] eqn:Hrep;
      [|vm_compute in Hrep; discriminate].
    pose proof (change_type_by_category (H := Reference.runtime) o' r' rep Hrep)
      as (_ & Htext & _ & Hformatting & _ & _ & Hstructural).
    exists rep. split; [reflexivity|].
    split; [|split; [|split; [|split; [exact Htext|split; [exact Hformatting|exact Hstructural]]]]];
      vm_compute in Hrep; injection Hrep as <-; reflexivity.
  - destruct (detect_changes (H := Reference.runtime) o'' r'') as [rep|e] eqn:Hrep;
      [|vm_compute in Hrep; discriminate].
    pose proof (change_type_by_category (H := Reference.runtime) o'' r'' rep Hrep)
      as (_ & Htext & _).
    exists rep. split; [reflexivity|]. split; [|exact Htext].
    vm_compute in Hrep. injection Hrep as <-. reflexivity.
Defined.

(** A paragraph whose style changed: the record under
    [formatting_changes] has no ['change_type'].  A paragraph that both
    documents have, without text in the original: its record says [added],
    not [modified].  And a sentence that both pages have, at another place:
    it is reported once as [added] and once as [deleted]. *)
Lemma change_type_by_category_counterexample :
  let o := docx_document [styled "one" "Normal"] in
  let r := docx_document [styled "one" "Title"] in
  let rec : record :=
    [("type", JStr (py "paragraph_style_change")); ("paragraph_index", JInt 0);
     ("old_style", JStr (py "Normal")); ("new_style", JStr (py "Title"));
     ("document_type", JStr (py "docx"))] in
  (detect_changes (H := Reference.runtime) o r = Ok
     {| text_changes := []; formatting_changes := [rec]; table_changes := [];
        image_changes := []; annotation_changes := []; structural_changes := [];
        summary := {| total_changes := 1; text_changes_count := 0;
                      formatting_changes_count := 1; table_changes_count := 0;
                      image_changes_count := 0; annotation_changes_count := 0;
                      structural_changes_count := 0 |} |}
   ∧ dict_get "change_type" rec = None)
  ∧ (let o := docx_document [paragraph ""] in
     let r := docx_document [paragraph "x"] in
     length (d_paragraphs o) = 1 ∧ length (d_paragraphs r) = 1
     ∧ detect_changes (H := Reference.runtime) o r = Ok
         {| text_changes := [docx_text_record "added" (py "x") 0];
            formatting_changes := []; table_changes := [];
            image_changes := []; annotation_changes := []; structural_changes := [];
            summary := {| total_changes := 1; text_changes_count := 1;
                          formatting_changes_count := 0; table_changes_count := 0;
                          image_changes_count := 0; annotation_changes_count := 0;
                          structural_changes_count := 0 |} |})
  ∧ (let o := pdf_document ["One. Two."] [] in
     let r := pdf_document ["Two. One."] [] in
     detect_changes (H := Reference.runtime) o r = Ok
       {| text_changes := [pdf_sentence_record "added" (py "Two.") 0;
                           pdf_sentence_record "deleted" (py "Two.") 0];
          formatting_changes := []; table_changes := [];
          image_changes := []; annotation_changes := []; structural_changes := [];
          summary := {| total_changes := 2; text_changes_count := 2;
                        formatting_changes_count := 0; table_changes_count := 0;
                        image_changes_count := 0; annotation_changes_count := 0;
                        structural_changes_count := 0 |} |}).
Proof. repeat split; reflexivity. Qed.
